(** * searchgoat-hex: a shallow embedding of the Cribl Search client

    The development follows the Python package [searchgoat_hex]:
    - [config.py]      : [CriblConfig], [load_config];
    - [exceptions.py]  : the typed error hierarchy;
    - [client.py]      : [CriblSearchHex] (token cache, job submission,
                         status polling, paginated result retrieval,
                         dataset listing).

    Python values read from the wire are JSON values; the client's mutable
    fields and the outside world (clock, HTTP server, the requests already
    sent) are threaded through an explicit state.  Library functions the
    package calls but does not define ([json.loads], [repr], the text of a
    [requests] exception, float formatting) are taken as parameters.

    Strings are sequences of code points below 256.  Times and durations
    are the rationals that the floats of the program denote, in seconds:
    the clock moves while a request is under way and during a sleep, and
    stands still otherwise.  The sum [time.time() + expires_in] is a
    binary64 sum (rounded, and an integer too large for a float raises
    [OverflowError]): the addition and the conversion are library
    parameters, with round-to-nearest-even as their instance.  The
    differences the program takes are taken exactly: two clock readings of
    one run are within a factor two of each other, so that their difference
    is exact in binary64; [expires_at - 300] is exact for an expiry between
    150 and 2^55 seconds, and below 150 the comparison with a clock that is
    not negative is false either way.  The two
    [while True] loops are followed for a given number of iterations
    ([Unfinished] beyond it). *)

From Stdlib Require Import String Ascii List ZArith QArith Bool Lia Arith.
From Stdlib Require Import DecimalString Lqa.
Import ListNotations.
Local Close Scope Q_scope.
Set Warnings "-register-all".
Local Open Scope string_scope.

(* ===================================================================== *)
(** ** Python strings *)
(* ===================================================================== *)

Module PyStr.

(** [str.isspace] on one character, for code points below 256:
    TAB..CR, FS..US, SPACE, NEL and NBSP. *)
Definition isspace (c : ascii) : bool :=
  let n := nat_of_ascii c in
  (((9 <=? n) && (n <=? 13)) || ((28 <=? n) && (n <=? 32))
   || (n =? 133) || (n =? 160))%nat.

Fixpoint lstrip (s : string) : string :=
  match s with
  | EmptyString => EmptyString
  | String c s' => if isspace c then lstrip s' else s
  end.

Fixpoint rstrip (s : string) : string :=
  match s with
  | EmptyString => EmptyString
  | String c s' =>
      match rstrip s' with
      | EmptyString => if isspace c then EmptyString else String c EmptyString
      | t => String c t
      end
  end.

(** [s.strip()] *)
Definition strip (s : string) : string := rstrip (lstrip s).

(** [s.split(sep)] for a one-character separator. *)
Fixpoint split (sep : ascii) (s : string) : list string :=
  match s with
  | EmptyString => [EmptyString]
  | String c s' =>
      if Ascii.eqb c sep then EmptyString :: split sep s'
      else match split sep s' with
           | h :: t => String c h :: t
           | [] => [String c EmptyString]
           end
  end.

Definition LF : ascii := ascii_of_nat 10.

(** Truth value of a string: non-empty. *)
Definition nonempty (s : string) : bool :=
  match s with EmptyString => false | _ => true end.

(** [", ".join(l)] *)
Fixpoint join (sep : string) (l : list string) : string :=
  match l with
  | [] => EmptyString
  | [x] => x
  | x :: rest => x ++ sep ++ join sep rest
  end.

(** [repr] of a list of identifiers (no quote or backslash inside):
    ['a', 'b']. *)
Definition repr_names (l : list string) : string :=
  "[" ++ join ", " (map (fun x => "'" ++ x ++ "'") l) ++ "]".

(** [needle in hay], as a computation and as a proposition. *)
Fixpoint isin (needle hay : string) : bool :=
  if String.prefix needle hay then true
  else match hay with
       | EmptyString => false
       | String _ hay' => isin needle hay'
       end.

Definition contains (hay needle : string) : Prop :=
  exists pre post, hay = pre ++ needle ++ post.

(** [str(n)] for an integer. *)
Definition str_int (z : Z) : string :=
  NilZero.string_of_int (Z.to_int z).

End PyStr.

(* ===================================================================== *)
(** ** JSON values as Python objects *)
(* ===================================================================== *)

(** What [json.loads] and [response.json()] produce.  An object is a Python
    [dict]: keys in insertion order, each key once.  Floats are the finite
    ones, as rationals. *)
Inductive json : Type :=
  | JNull
  | JBool (b : bool)
  | JInt (z : Z)
  | JFloat (q : Q)
  | JStr (s : string)
  | JArr (l : list json)
  | JObj (o : list (string * json)).

(** Exceptions that are not part of the package's hierarchy. *)
Inductive builtin_error : Type :=
  | JSONDecodeError | KeyError | IndexError | TypeError | AttributeError
  | OverflowError.

(** [exceptions.py]: [CriblSearchError] and its four subclasses; [QueryError]
    carries [job_id] ([None] by default). *)
Inductive exn : Type :=
  | AuthenticationError (msg : string)
  | QueryError (msg : string) (job_id : json)
  | TimeoutError (msg : string)
  | ConfigurationError (msg : string)
  | Builtin (b : builtin_error).

(** Is the exception an instance of [CriblSearchError]? *)
Definition is_CriblSearchError (e : exn) : bool :=
  match e with Builtin _ => false | _ => true end.

Definition message (e : exn) : string :=
  match e with
  | AuthenticationError m | QueryError m _ | TimeoutError m
  | ConfigurationError m => m
  | Builtin _ => EmptyString
  end.

Module Py.

Definition Qeqb0 (q : Q) : bool := (Qnum q =? 0)%Z.

(** [bool(v)] *)
Definition truthy (v : json) : bool :=
  match v with
  | JNull => false
  | JBool b => b
  | JInt z => negb (z =? 0)%Z
  | JFloat q => negb (Qeqb0 q)
  | JStr s => PyStr.nonempty s
  | JArr l => match l with [] => false | _ => true end
  | JObj o => match o with [] => false | _ => true end
  end.

Fixpoint assoc (k : string) (o : list (string * json)) : option json :=
  match o with
  | [] => None
  | (k', v) :: o' => if String.eqb k k' then Some v else assoc k o'
  end.

(** [v.get(k, dflt)]: only a dict has [get]. *)
Definition get (v : json) (k : string) (dflt : json) : builtin_error + json :=
  match v with
  | JObj o => inr (match assoc k o with Some x => x | None => dflt end)
  | _ => inl AttributeError
  end.

(** [v[k]] for a string key. *)
Definition getitem (v : json) (k : string) : builtin_error + json :=
  match v with
  | JObj o => match assoc k o with
              | Some x => inr x
              | None => inl KeyError
              end
  | _ => inl TypeError
  end.

(** [v[0]] *)
Definition getitem0 (v : json) : builtin_error + json :=
  match v with
  | JArr l => match l with
              | x :: _ => inr x
              | [] => inl IndexError
              end
  | JStr s => match s with
              | String c _ => inr (JStr (String c EmptyString))
              | EmptyString => inl IndexError
              end
  | JObj _ => inl KeyError
  | _ => inl TypeError
  end.

(** [for item in v]: the items a loop over [v] visits. *)
Fixpoint chars (s : string) : list json :=
  match s with
  | EmptyString => []
  | String c s' => JStr (String c EmptyString) :: chars s'
  end.

Definition iter (v : json) : builtin_error + list json :=
  match v with
  | JArr l => inr l
  | JStr s => inr (chars s)
  | JObj o => inr (map (fun kv => JStr (fst kv)) o)
  | _ => inl TypeError
  end.

(** [v == s] for a string literal [s]. *)
Definition eq_str (v : json) (s : string) : bool :=
  match v with JStr t => String.eqb t s | _ => false end.

(** The number a JSON value stands for in arithmetic and comparisons
    ([bool] is a subclass of [int]); [None] when the operation raises
    [TypeError]. *)
Definition number (v : json) : option Q :=
  match v with
  | JInt z => Some (inject_Z z)
  | JFloat q => Some q
  | JBool b => Some (if b then 1 else 0)%Q
  | _ => None
  end.

Definition Qltb (x y : Q) : bool :=
  (Qnum x * QDen y <? Qnum y * QDen x)%Z.

(** [n >= v] for an integer [n]. *)
Definition int_ge (n : Z) (v : json) : builtin_error + bool :=
  match number v with
  | Some q => inr (Qle_bool q (inject_Z n))
  | None => inl TypeError
  end.

End Py.

(* ===================================================================== *)
(** ** config.py *)
(* ===================================================================== *)

Module Config.

Record CriblConfig : Type := mkCriblConfig {
  client_id : string;
  client_secret : string;
  org_id : string;
  workspace : string
}.

Definition auth_url (_ : CriblConfig) : string :=
  "https://login.cribl.cloud/oauth/token".

Definition api_base_url (c : CriblConfig) : string :=
  "https://" ++ workspace c ++ "-" ++ org_id c
  ++ ".cribl.cloud/api/v1/m/default_search".

(** The process environment, [os.getenv], as it is once the optional
    [load_dotenv()] step has run. *)
Definition environ : Type := string -> option string.

(** [x or y] on [Optional[str]]: [None] and the empty string are false. *)
Definition opt_truthy (x : option string) : bool :=
  match x with Some s => PyStr.nonempty s | None => false end.

Definition opt_or (x y : option string) : option string :=
  if opt_truthy x then x else y.

(** The four optional parameters of [load_config]. *)
Record params : Type := mkParams {
  p_client_id : option string;
  p_client_secret : option string;
  p_org_id : option string;
  p_workspace : option string
}.

(** The dict [resolved], in insertion order. *)
Definition resolved (p : params) (env : environ)
  : list (string * option string) :=
  [ ("client_id", opt_or (p_client_id p) (env "CRIBL_CLIENT_ID"));
    ("client_secret", opt_or (p_client_secret p) (env "CRIBL_CLIENT_SECRET"));
    ("org_id", opt_or (p_org_id p) (env "CRIBL_ORG_ID"));
    ("workspace", opt_or (p_workspace p) (env "CRIBL_WORKSPACE")) ].

(** [[key for key, value in resolved.items() if not value]] *)
Definition missing_of (r : list (string * option string)) : list string :=
  map fst (filter (fun kv => negb (opt_truthy (snd kv))) r).

Definition env_vars : list (string * string) :=
  [ ("client_id", "CRIBL_CLIENT_ID");
    ("client_secret", "CRIBL_CLIENT_SECRET");
    ("org_id", "CRIBL_ORG_ID");
    ("workspace", "CRIBL_WORKSPACE") ].

Fixpoint lookup {A : Type} (k : string) (l : list (string * A)) : option A :=
  match l with
  | [] => None
  | (k', v) :: l' => if String.eqb k k' then Some v else lookup k l'
  end.

Definition env_var_of (k : string) : string :=
  match lookup k env_vars with Some v => v | None => EmptyString end.

Definition missing_message (missing : list string) : string :=
  "Missing required credentials: " ++ PyStr.repr_names missing
  ++ String PyStr.LF
       ("Either pass them as parameters or set environment variables: "
        ++ PyStr.repr_names (map env_var_of missing)).

Definition field (r : list (string * option string)) (k : string) : string :=
  match lookup k r with
  | Some (Some s) => s
  | _ => EmptyString
  end.

Definition load_config (p : params) (env : environ) : exn + CriblConfig :=
  let r := resolved p env in
  let missing := missing_of r in
  match missing with
  | _ :: _ => inl (ConfigurationError (missing_message missing))
  | [] =>
      inr {| client_id := field r "client_id";
             client_secret := field r "client_secret";
             org_id := field r "org_id";
             workspace := field r "workspace" |}
  end.

(** For each field: its name, its explicit parameter and the name of its
    environment variable. *)
Definition sources (p : params) : list (string * option string * string) :=
  [ ("client_id", p_client_id p, "CRIBL_CLIENT_ID");
    ("client_secret", p_client_secret p, "CRIBL_CLIENT_SECRET");
    ("org_id", p_org_id p, "CRIBL_ORG_ID");
    ("workspace", p_workspace p, "CRIBL_WORKSPACE") ].

(** A name as [repr] shows it inside a list. *)
Definition quoted (name : string) : string := "'" ++ name ++ "'".

End Config.

(* ===================================================================== *)
(** ** The [requests] session, the clock and the monad of the client *)
(* ===================================================================== *)

Module Http.

Inductive http_method : Type := GET | POST.

Record request : Type := mkRequest {
  method : http_method;
  url : string;
  params : list (string * Z);
  json_body : option json;
  headers : list (string * string);
  timeout : Z
}.

Record response : Type := mkResponse {
  status_code : Z;
  text : string
}.

(** What [session.get] / [session.post] comes back with: a response, or a
    [RequestException] of the transport (connection, DNS, timeout) with its
    text. *)
Inductive reply : Type :=
  | Response (r : response)
  | TransportFailure (described : string).

(** [response.raise_for_status()] raises [HTTPError] exactly for the 4xx and
    5xx status codes. *)
Definition raises_for_status (r : response) : bool :=
  ((400 <=? status_code r) && (status_code r <? 600))%Z.

End Http.
Import Http.

(** The library functions the package relies on. *)
Record pylib : Type := mkPylib {
  json_loads : string -> option json;  (* [None]: [JSONDecodeError] *)
  repr : json -> string;               (* [str] of a value that is no string *)
  str_float : Q -> string;             (* [str] of a float *)
  str_HTTPError : request -> response -> string;
  str_builtin : builtin_error -> string;
  float_add : Q -> Q -> Q;             (* [x + y] on two floats, rounded *)
  float_of_int : Z -> option Q         (* [float(n)]; [None]: [OverflowError] *)
}.

(** One exchange with the server: how long the call blocks, and its result. *)
Record exchange : Type := mkExchange {
  took : Q;
  answer : reply
}.

Inductive event : Type :=
  | Sent (at_time : Q) (req : request)
  | Slept (at_time : Q) (secs : Q).

(** The instance fields of [CriblSearchHex] that the methods read and write,
    and the world around it: the wall clock ([time.time()]), the server (its
    answer to the n-th request of the session) and what has happened so far. *)
Record state : Type := mkState {
  _config : Config.CriblConfig;
  _default_timeout : Q;
  _token : json;
  _token_expires_at : Q;
  clock : Q;
  server : nat -> exchange;
  served : nat;
  trace : list event
}.

Definition with_token (v : json) (st : state) : state :=
  mkState (_config st) (_default_timeout st) v (_token_expires_at st)
          (clock st) (server st) (served st) (trace st).

Definition with_token_expires_at (q : Q) (st : state) : state :=
  mkState (_config st) (_default_timeout st) (_token st) q
          (clock st) (server st) (served st) (trace st).

Definition with_world (c : Q) (n : nat) (tr : list event) (st : state)
  : state :=
  mkState (_config st) (_default_timeout st) (_token st)
          (_token_expires_at st) c (server st) n tr.

Inductive outcome (A : Type) : Type :=
  | Return (a : A)
  | Raise (e : exn)
  | Unfinished.
Arguments Return {A} a.
Arguments Raise {A} e.
Arguments Unfinished {A}.

Definition M (A : Type) : Type := state -> outcome A * state.

Definition ret {A} (a : A) : M A := fun st => (Return a, st).
Definition raise {A} (e : exn) : M A := fun st => (Raise e, st).
Definition unfinished {A} : M A := fun st => (Unfinished, st).

Definition bind {A B} (c : M A) (k : A -> M B) : M B :=
  fun st =>
    match c st with
    | (Return a, st') => k a st'
    | (Raise e, st') => (Raise e, st')
    | (Unfinished, st') => (Unfinished, st')
    end.

Notation "x <- c ;; k" := (bind c (fun x => k))
  (at level 61, c at next level, right associativity).
Notation "c ;;; k" := (bind c (fun _ => k))
  (at level 61, right associativity).

(** A built-in operation inside a method: its error, if any, is raised. *)
Definition lift {A} (r : builtin_error + A) : M A :=
  match r with inl e => raise (Builtin e) | inr a => ret a end.

Definition read {A} (f : state -> A) : M A := fun st => (Return (f st), st).
Definition modify (f : state -> state) : M unit := fun st => (Return tt, f st).

(** The state right after one request has been sent (the clock has moved by
    the time the exchange took), and right after a sleep. *)
Definition after_send (req : request) (st : state) : state :=
  with_world (clock st + took (server st (served st)))%Q (S (served st))
             (trace st ++ [Sent (clock st) req])%list st.

Definition after_sleep (secs : Q) (st : state) : state :=
  with_world (clock st + secs)%Q (served st)
             (trace st ++ [Slept (clock st) secs])%list st.

(** [time.time()] *)
Definition time_time : M Q := read clock.

(** [time.sleep(secs)] *)
Definition time_sleep (secs : Q) : M unit := modify (after_sleep secs).

(** [self._session.get(...)] / [self._session.post(...)] *)
Definition session_send (req : request) : M reply :=
  fun st => (Return (answer (server st (served st))), after_send req st).

(** [try: c  except handler] *)
Definition try_except {A} (c : M A) (handler : exn -> M A) : M A :=
  fun st =>
    match c st with
    | (Raise e, st') => handler e st'
    | r => r
    end.

Fixpoint for_each {A B} (f : A -> builtin_error + B) (l : list A)
  : builtin_error + list B :=
  match l with
  | [] => inr []
  | x :: l' =>
      match f x with
      | inl e => inl e
      | inr y => match for_each f l' with
                 | inl e => inl e
                 | inr ys => inr (y :: ys)
                 end
      end
  end.

(** Wall-clock time going by between two calls of the client. *)
Definition elapse (d : Q) : M unit :=
  modify (fun st => with_world (clock st + d)%Q (served st) (trace st) st).

(* ===================================================================== *)
(** ** client.py *)
(* ===================================================================== *)

(** [self._token = None; self._token_expires_at = 0]: the forced refresh at
    the head of [test_connection]. *)
Definition invalidate : M unit :=
  modify (with_token JNull) ;;;
  modify (with_token_expires_at 0%Q).

Section Client.

Variable L : pylib.

Definition _POLL_INTERVAL : Q := 2.
Definition _TOKEN_REFRESH_BUFFER : Q := 300.

(** [f"{v}"] *)
Definition str (v : json) : string :=
  match v with JStr s => s | _ => repr L v end.

(** [str(e)] for an exception. *)
Definition str_exn (e : exn) : string :=
  match e with
  | Builtin b => str_builtin L b
  | _ => message e
  end.

(** [response.json()] *)
Definition response_json (r : response) : M json :=
  match json_loads L (text r) with
  | Some v => ret v
  | None => raise (Builtin JSONDecodeError)
  end.

Definition auth_request (cfg : Config.CriblConfig) : request :=
  {| method := POST;
     url := Config.auth_url cfg;
     params := [];
     json_body := Some (JObj
       [ ("grant_type", JStr "client_credentials");
         ("client_id", JStr (Config.client_id cfg));
         ("client_secret", JStr (Config.client_secret cfg));
         ("audience", JStr "https://api.cribl.cloud") ]);
     headers := [("Content-Type", "application/json")];
     timeout := 30 |}.

(** [x + v] for a float [x] and a value [v] of the answer: a float is
    added; an integer or a boolean is converted first; anything else is a
    [TypeError]. *)
Definition float_plus (x : Q) (v : json) : builtin_error + Q :=
  match v with
  | JFloat q => inr (float_add L x q)
  | JInt z => match float_of_int L z with
              | Some q => inr (float_add L x q)
              | None => inl OverflowError
              end
  | JBool b => inr (float_add L x (if b then 1 else 0)%Q)
  | _ => inl TypeError
  end.

Definition _authenticate : M unit :=
  cfg <- read _config ;;
  rep <- session_send (auth_request cfg) ;;
  match rep with
  | TransportFailure e =>
      raise (AuthenticationError ("Authentication request failed: " ++ e))
  | Response r =>
      if raises_for_status r then
        raise (AuthenticationError
                 ("Authentication failed: " ++ PyStr.str_int (status_code r)
                  ++ " - " ++ text r))
      else
        data <- response_json r ;;
        tok <- lift (Py.getitem data "access_token") ;;
        modify (with_token tok) ;;;
        now <- time_time ;;
        expires_in <- lift (Py.get data "expires_in" (JInt 86400)) ;;
        expires_at <- lift (float_plus now expires_in) ;;
        modify (with_token_expires_at expires_at)
  end.

Definition _get_auth_token : M json :=
  tok <- read _token ;;
  now <- time_time ;;
  expires_at <- read _token_expires_at ;;
  if Py.truthy tok && Py.Qltb now (expires_at - _TOKEN_REFRESH_BUFFER)%Q
  then ret tok
  else _authenticate ;;; read _token.

(** The cached token is usable: there is one, and the refresh buffer before
    its expiry has not been reached. *)
Definition token_valid (st : state) : Prop :=
  Py.truthy (_token st) = true
  /\ (clock st < _token_expires_at st - _TOKEN_REFRESH_BUFFER)%Q.

(** The state after a successful exchange that delivered [tok], with
    [expires_at] the expiry worked out for it. *)
Definition after_auth (tok : json) (expires_at : Q) (st : state) : state :=
  let st1 := after_send (auth_request (_config st)) st in
  with_token_expires_at expires_at (with_token tok st1).

(** The float that a number of the answer stands for in a sum with a
    float; an integer beyond the range of the floats stands for none. *)
Definition as_float (v : json) (q : Q) : Prop :=
  match v with
  | JFloat x => q = x
  | JInt z => float_of_int L z = Some q
  | JBool b => q = (if b then 1 else 0)%Q
  | _ => False
  end.

Definition _get_headers : M (list (string * string)) :=
  token <- _get_auth_token ;;
  ret [ ("Authorization", "Bearer " ++ str token);
        ("Content-Type", "application/json") ].

Definition test_connection : M bool :=
  invalidate ;;;
  try_except (_get_auth_token ;;; ret true)
    (fun e =>
       match e with
       | AuthenticationError _ => raise e
       | _ => raise (AuthenticationError
                       ("Connection test failed: " ++ str_exn e))
       end).

Definition datasets_request (cfg : Config.CriblConfig)
    (hdrs : list (string * string)) : request :=
  {| method := GET;
     url := Config.api_base_url cfg ++ "/datasets";
     params := [];
     json_body := None;
     headers := hdrs;
     timeout := 30 |}.

(** [item.get("id") or item.get("name", "")] *)
Definition dataset_name (item : json) : builtin_error + json :=
  match Py.get item "id" JNull with
  | inl e => inl e
  | inr a => if Py.truthy a then inr a else Py.get item "name" (JStr "")
  end.

Definition list_datasets : M (list json) :=
  hdrs <- _get_headers ;;
  cfg <- read _config ;;
  let req := datasets_request cfg hdrs in
  rep <- session_send req ;;
  match rep with
  | TransportFailure e =>
      raise (QueryError ("Failed to list datasets: " ++ e) JNull)
  | Response r =>
      if raises_for_status r then
        if (status_code r =? 401)%Z then
          raise (AuthenticationError "Authentication failed")
        else
          raise (QueryError
                   ("Failed to list datasets: " ++ str_HTTPError L req r)
                   JNull)
      else
        data <- response_json r ;;
        items <- lift (Py.get data "items" (JArr [])) ;;
        its <- lift (Py.iter items) ;;
        lift (for_each dataset_name its)
  end.

Definition submit_request (cfg : Config.CriblConfig)
    (hdrs : list (string * string)) (query earliest latest : string)
  : request :=
  {| method := POST;
     url := Config.api_base_url cfg ++ "/search/jobs";
     params := [];
     json_body := Some (JObj
       [ ("query", JStr query);
         ("earliest", JStr earliest);
         ("latest", JStr latest);
         ("sampleRate", JInt 1) ]);
     headers := hdrs;
     timeout := 30 |}.

Definition _submit_job (query earliest latest : string) : M json :=
  hdrs <- _get_headers ;;
  cfg <- read _config ;;
  let req := submit_request cfg hdrs query earliest latest in
  rep <- session_send req ;;
  match rep with
  | TransportFailure e =>
      raise (QueryError ("Job submission failed: " ++ e) JNull)
  | Response r =>
      if (status_code r =? 400)%Z then
        raise (QueryError ("Invalid query syntax: " ++ text r) JNull)
      else if raises_for_status r then
        if (status_code r =? 401)%Z then
          raise (AuthenticationError "Authentication failed")
        else
          raise (QueryError
                   ("Job submission failed: " ++ str_HTTPError L req r)
                   JNull)
      else
        data <- response_json r ;;
        items <- lift (Py.getitem data "items") ;;
        first <- lift (Py.getitem0 items) ;;
        lift (Py.getitem first "id")
  end.

Definition status_request (cfg : Config.CriblConfig)
    (hdrs : list (string * string)) (job_id : json) : request :=
  {| method := GET;
     url := Config.api_base_url cfg ++ "/search/jobs/" ++ str job_id
            ++ "/status";
     params := [];
     json_body := None;
     headers := hdrs;
     timeout := 30 |}.

Definition timeout_message (timeout : Q) : string :=
  "Query did not complete within " ++ str_float L timeout ++ " seconds. "
  ++ "Try narrowing the time range or adding '| limit N' to your query.".

(** The [while True] loop of [_wait_for_job]; [fuel] bounds the number of
    iterations the model follows. *)
Fixpoint wait_loop (fuel : nat) (req : request) (job_id : json)
    (timeout start_time : Q) : M unit :=
  match fuel with
  | O => unfinished
  | S fuel' =>
      now <- time_time ;;
      let elapsed := (now - start_time)%Q in
      if Py.Qltb timeout elapsed then
        raise (TimeoutError (timeout_message timeout))
      else
        rep <- session_send req ;;
        match rep with
        | TransportFailure e =>
            raise (QueryError ("Failed to check job status: " ++ e) JNull)
        | Response r =>
            if raises_for_status r then
              raise (QueryError
                       ("Failed to check job status: "
                        ++ str_HTTPError L req r) JNull)
            else
              data <- response_json r ;;
              items <- lift (Py.getitem data "items") ;;
              first <- lift (Py.getitem0 items) ;;
              status <- lift (Py.getitem first "status") ;;
              if Py.eq_str status "completed" then ret tt
              else if Py.eq_str status "failed" then
                error_msg <- lift (Py.get first "error"
                                     (JStr "Unknown error")) ;;
                raise (QueryError ("Query failed: " ++ str error_msg) job_id)
              else if Py.eq_str status "canceled" then
                raise (QueryError "Query was canceled" job_id)
              else
                time_sleep _POLL_INTERVAL ;;;
                wait_loop fuel' req job_id timeout start_time
        end
  end.

Definition _wait_for_job (fuel : nat) (job_id : json) (timeout : Q)
  : M unit :=
  hdrs <- _get_headers ;;
  cfg <- read _config ;;
  start_time <- time_time ;;
  wait_loop fuel (status_request cfg hdrs job_id) job_id timeout start_time.

Definition page_size : Z := 1000.

Definition results_request (cfg : Config.CriblConfig)
    (hdrs : list (string * string)) (job_id : json) (offset : Z) : request :=
  {| method := GET;
     url := Config.api_base_url cfg ++ "/search/jobs/" ++ str job_id
            ++ "/results";
     params := [("limit", page_size); ("offset", offset)];
     json_body := None;
     headers := hdrs;
     timeout := 60 |}.

(** [response.text.strip().split("\n")] *)
Definition page_lines (body : string) : list string :=
  PyStr.split PyStr.LF (PyStr.strip body).

(** The [for line in lines[1:]] loop: every line that is not blank is decoded
    and appended. *)
Fixpoint append_events (lines : list string) (all_records : list json)
  : builtin_error + list json :=
  match lines with
  | [] => inr all_records
  | line :: rest =>
      if PyStr.nonempty (PyStr.strip line) then
        match json_loads L line with
        | Some rec => append_events rest (all_records ++ [rec])%list
        | None => inl JSONDecodeError
        end
      else append_events rest all_records
  end.

(** The [while True] loop of [_get_results]. *)
Fixpoint results_loop (fuel : nat) (cfg : Config.CriblConfig)
    (hdrs : list (string * string)) (job_id : json)
    (all_records : list json) (offset : Z) : M (list json) :=
  match fuel with
  | O => unfinished
  | S fuel' =>
      rep <- session_send (results_request cfg hdrs job_id offset) ;;
      match rep with
      | TransportFailure e =>
          raise (QueryError ("Failed to retrieve results: " ++ e) JNull)
      | Response r =>
          if raises_for_status r then
            raise (QueryError
                     ("Failed to retrieve results: "
                      ++ str_HTTPError L
                           (results_request cfg hdrs job_id offset) r)
                     JNull)
          else
            match page_lines (text r) with
            | [] => ret all_records
            | first_line :: events =>
                match json_loads L first_line with
                | None => raise (Builtin JSONDecodeError)
                | Some metadata =>
                    total_count <- lift (Py.get metadata "totalEventCount"
                                           (JInt 0)) ;;
                    all_records' <- lift (append_events events all_records) ;;
                    let offset' := (offset + page_size)%Z in
                    match total_count with
                    | JNull => ret all_records'
                    | _ =>
                        stop <- lift (Py.int_ge offset' total_count) ;;
                        if (stop : bool) then ret all_records'
                        else results_loop fuel' cfg hdrs job_id
                                          all_records' offset'
                    end
                end
            end
      end
  end.

(** [_get_results]: the records handed to [pd.DataFrame]; building the frame
    (and converting a [_time] column) is pandas' work. *)
Definition _get_results (fuel : nat) (job_id : json) : M (list json) :=
  hdrs <- _get_headers ;;
  let hdrs := (hdrs ++ [("Accept", "application/x-ndjson")])%list in
  cfg <- read _config ;;
  results_loop fuel cfg hdrs job_id [] 0%Z.

(** [timeout or self._default_timeout] *)
Definition timeout_or (timeout : option Q) (dflt : Q) : Q :=
  match timeout with
  | Some t => if Py.Qeqb0 t then dflt else t
  | None => dflt
  end.

Definition query (fuel : nat) (q earliest latest : string)
    (timeout : option Q) : M (list json) :=
  dflt <- read _default_timeout ;;
  let timeout := timeout_or timeout dflt in
  job_id <- _submit_job q earliest latest ;;
  _wait_for_job fuel job_id timeout ;;;
  _get_results fuel job_id.

(** A page the server delivers (no transport failure, no 4xx/5xx status)
    whose body is blank or whose first line [json.loads] rejects. *)
Definition bad_page (st : state) (r : response) : Prop :=
  answer (server st (served st)) = Response r
  /\ raises_for_status r = false
  /\ (PyStr.strip (text r) = EmptyString
      \/ exists first_line events,
           page_lines (text r) = first_line :: events
           /\ json_loads L first_line = None).

(** A well-formed page: its first line decodes to an object whose
    [totalEventCount] is [total], and the lines after it that are not blank
    decode, in order, to [recs]. *)
Definition good_page (total : json) (body : string) (recs : list json)
  : Prop :=
  exists first_line events o,
    page_lines body = first_line :: events
    /\ json_loads L first_line = Some (JObj o)
    /\ Py.assoc "totalEventCount" o = Some total
    /\ map (json_loads L)
           (filter (fun l => PyStr.nonempty (PyStr.strip l)) events)
       = map Some recs.

End Client.

(** What a run of the poll loop adds to the trace: status requests, each sent
    at the head of an iteration whose deadline check passed (the time since
    [start] did not exceed [timeout]), each but possibly the last followed by
    one sleep of the poll interval. *)
Inductive poll_trace (start timeout : Q) (req : request)
  : list event -> Prop :=
  | poll_none : poll_trace start timeout req []
  | poll_last t :
      (t - start <= timeout)%Q ->
      poll_trace start timeout req [Sent t req]
  | poll_again t t' evs :
      (t - start <= timeout)%Q ->
      poll_trace start timeout req evs ->
      poll_trace start timeout req
                 (Sent t req :: Slept t' _POLL_INTERVAL :: evs).

(** The name [list_datasets] reports for an item, in the words of its
    contract: the [id] field; failing that (absent, or false as a Python
    value) the [name] field; failing that (absent) the empty string. *)
Definition id_or_name_or_empty (item : list (string * json)) : json :=
  let id := match Py.assoc "id" item with Some v => v | None => JNull end in
  if Py.truthy id then id
  else match Py.assoc "name" item with
       | Some v => v
       | None => JStr EmptyString
       end.

(** The time [n] sleeps of the poll loop take. *)
Fixpoint poll_budget (n : nat) : Q :=
  match n with
  | O => 0
  | S k => poll_budget k + _POLL_INTERVAL
  end.

(** The number of pages a listing of [N] events takes: the least [K >= 1]
    with [1000 * K >= N]. *)
Definition pages_needed (N : Z) : nat :=
  Z.to_nat (Z.max 1 ((N + 999) / 1000)).

Fixpoint sent_requests (tr : list event) : list request :=
  match tr with
  | [] => []
  | Sent _ req :: tr' => req :: sent_requests tr'
  | Slept _ _ :: tr' => sent_requests tr'
  end.

(** [CriblSearchHex.__init__] *)
Definition init (p : Config.params) (env : Config.environ) (timeout : Q)
    (now : Q) (srv : nat -> exchange) : exn + state :=
  match Config.load_config p env with
  | inl e => inl e
  | inr cfg => inr (mkState cfg timeout JNull 0%Q now srv 0 [])
  end.

(* ===================================================================== *)
(** ** Binary64 arithmetic *)
(* ===================================================================== *)

Module Binary64.

(** The binary64 number nearest to a rational, ties to even; below the
    normal range the grid is that of the subnormals, above it the exponent
    is left unbounded and [finite] tells. *)
Definition round (q : Q) : Q :=
  let n := Z.abs (Qnum q) in
  let d := Zpos (Qden q) in
  if (n =? 0)%Z then 0%Q
  else
    let scale e :=
      if (0 <=? e)%Z then (n, d * 2 ^ e)%Z else (n * 2 ^ (- e), d)%Z in
    let e0 := (Z.log2 n - Z.log2 d - 52)%Z in
    let e1 := if (fst (scale e0) / snd (scale e0) <? 2 ^ 52)%Z
              then (e0 - 1)%Z else e0 in
    let e := Z.max e1 (-1074) in
    let m := (fst (scale e) / snd (scale e))%Z in
    let r := (fst (scale e) mod snd (scale e))%Z in
    let m' := if (snd (scale e) <? 2 * r)%Z then (m + 1)%Z
              else if (2 * r =? snd (scale e))%Z
                   then (if Z.odd m then m + 1 else m)%Z
                   else m in
    let s := if (Qnum q <? 0)%Z then (- m')%Z else m' in
    Qred (if (0 <=? e)%Z then inject_Z (s * 2 ^ e)
          else s # Z.to_pos (2 ^ (- e))).

Definition finite (q : Q) : bool :=
  (Z.abs (Qnum q) <? 2 ^ 1024 * Zpos (Qden q))%Z.

(** [x + y] on floats; there is no infinity here, a sum beyond the range
    keeps its rounded value. *)
Definition add (x y : Q) : Q := round (x + y).

(** [float(z)]; [None] is Python's [OverflowError]. *)
Definition of_int (z : Z) : option Q :=
  let q := round (inject_Z z) in if finite q then Some q else None.

End Binary64.

(* ===================================================================== *)
(** ** A small instance of the library parameters *)
(* ===================================================================== *)

(** [Lite.loads] decodes a subset of JSON (objects, arrays, strings without
    escapes, integers, [true], [false], [null]) the way [json.loads] does and
    rejects everything else; it serves the concrete runs below. *)
Module Lite.

Definition quote : ascii := ascii_of_nat 34.
Definition backslash : ascii := ascii_of_nat 92.

(** Write ' for the double quote inside a literal. *)
Fixpoint dq (s : string) : string :=
  match s with
  | EmptyString => EmptyString
  | String c s' => String (if Ascii.eqb c "'"%char then quote else c) (dq s')
  end.

Definition is_ws (c : ascii) : bool :=
  let n := nat_of_ascii c in
  ((n =? 32) || (n =? 9) || (n =? 10) || (n =? 13))%nat.

Definition is_digit (c : ascii) : bool :=
  let n := nat_of_ascii c in ((48 <=? n) && (n <=? 57))%nat.

Fixpoint skip_ws (s : string) : string :=
  match s with
  | String c s' => if is_ws c then skip_ws s' else s
  | EmptyString => EmptyString
  end.

(** The characters of a string literal up to its closing quote. *)
Fixpoint scan_string (s : string) : option (string * string) :=
  match s with
  | EmptyString => None
  | String c s' =>
      if Ascii.eqb c quote then Some (EmptyString, s')
      else if Ascii.eqb c backslash || (nat_of_ascii c <? 32)%nat then None
      else match scan_string s' with
           | Some (t, rest) => Some (String c t, rest)
           | None => None
           end
  end.

Fixpoint scan_digits (s : string) (acc : Z) (seen : nat) : Z * nat * string :=
  match s with
  | String c s' =>
      if is_digit c
      then scan_digits s' (10 * acc + Z.of_nat (nat_of_ascii c - 48))%Z (S seen)
      else (acc, seen, s)
  | EmptyString => (acc, seen, s)
  end.

Definition starts_fraction (s : string) : bool :=
  match s with
  | String c _ =>
      Ascii.eqb c "."%char || Ascii.eqb c "e"%char || Ascii.eqb c "E"%char
  | EmptyString => false
  end.

Definition leading_zero (s : string) : bool :=
  match s with
  | String c (String d _) => Ascii.eqb c "0"%char && is_digit d
  | _ => false
  end.

Definition scan_int (s : string) : option (Z * string) :=
  let '(neg, body) :=
    match s with
    | String c s' => if Ascii.eqb c "-"%char then (true, s') else (false, s)
    | EmptyString => (false, s)
    end in
  if leading_zero body then None
  else
    let '(v, seen, rest) := scan_digits body 0%Z 0 in
    match seen with
    | O => None
    | _ => if starts_fraction rest then None
           else Some ((if neg then - v else v)%Z, rest)
    end.

Definition strip_prefix (p s : string) : option string :=
  if String.prefix p s
  then Some (String.substring (String.length p)
                              (String.length s - String.length p) s)
  else None.

(** [d[k] = v] *)
Fixpoint dict_set (k : string) (v : json) (o : list (string * json))
  : list (string * json) :=
  match o with
  | [] => [(k, v)]
  | (k', v') :: o' =>
      if String.eqb k k' then (k, v) :: o' else (k', v') :: dict_set k v o'
  end.

Fixpoint value (fuel : nat) (s : string) {struct fuel}
  : option (json * string) :=
  match fuel with
  | O => None
  | S f =>
      match skip_ws s with
      | EmptyString => None
      | String c rest =>
          if Ascii.eqb c "{"%char then
            match skip_ws rest with
            | String c' rest' =>
                if Ascii.eqb c' "}"%char then Some (JObj [], rest')
                else members f (skip_ws rest) []
            | EmptyString => None
            end
          else if Ascii.eqb c "["%char then
            match skip_ws rest with
            | String c' rest' =>
                if Ascii.eqb c' "]"%char then Some (JArr [], rest')
                else elements f (skip_ws rest) []
            | EmptyString => None
            end
          else if Ascii.eqb c quote then
            match scan_string rest with
            | Some (t, rest') => Some (JStr t, rest')
            | None => None
            end
          else if Ascii.eqb c "t"%char then
            option_map (pair (JBool true)) (strip_prefix "true" (skip_ws s))
          else if Ascii.eqb c "f"%char then
            option_map (pair (JBool false)) (strip_prefix "false" (skip_ws s))
          else if Ascii.eqb c "n"%char then
            option_map (pair JNull) (strip_prefix "null" (skip_ws s))
          else
            match scan_int (skip_ws s) with
            | Some (z, rest') => Some (JInt z, rest')
            | None => None
            end
      end
  end
with elements (fuel : nat) (s : string) (acc : list json) {struct fuel}
  : option (json * string) :=
  match fuel with
  | O => None
  | S f =>
      match value f s with
      | Some (v, rest) =>
          match skip_ws rest with
          | String c rest' =>
              if Ascii.eqb c ","%char then elements f rest' (acc ++ [v])%list
              else if Ascii.eqb c "]"%char then Some (JArr (acc ++ [v])%list, rest')
              else None
          | EmptyString => None
          end
      | None => None
      end
  end
with members (fuel : nat) (s : string) (acc : list (string * json))
    {struct fuel} : option (json * string) :=
  match fuel with
  | O => None
  | S f =>
      match skip_ws s with
      | String c rest =>
          if Ascii.eqb c quote then
            match scan_string rest with
            | Some (k, rest1) =>
                match skip_ws rest1 with
                | String c1 rest2 =>
                    if Ascii.eqb c1 ":"%char then
                      match value f rest2 with
                      | Some (v, rest3) =>
                          match skip_ws rest3 with
                          | String c3 rest4 =>
                              if Ascii.eqb c3 ","%char
                              then members f rest4 (dict_set k v acc)
                              else if Ascii.eqb c3 "}"%char
                              then Some (JObj (dict_set k v acc), rest4)
                              else None
                          | EmptyString => None
                          end
                      | None => None
                      end
                    else None
                | EmptyString => None
                end
            | None => None
            end
          else None
      | EmptyString => None
      end
  end.

Definition loads (s : string) : option json :=
  match value (2 * String.length s + 2) s with
  | Some (v, rest) =>
      match skip_ws rest with
      | EmptyString => Some v
      | _ => None
      end
  | None => None
  end.

(** [repr] of [None], booleans and integers; the runs below format no other
    value. *)
Definition repr_scalar (v : json) : string :=
  match v with
  | JNull => "None"
  | JBool true => "True"
  | JBool false => "False"
  | JInt z => PyStr.str_int z
  | _ => "..."
  end.

(** [str] of a float with an integral value. *)
Definition str_float (q : Q) : string :=
  PyStr.str_int (Qnum q / Zpos (Qden q)) ++ ".0".

Definition str_HTTPError (req : request) (r : response) : string :=
  PyStr.str_int (status_code r) ++ " Error for url: " ++ url req.

Definition str_builtin (b : builtin_error) : string :=
  match b with
  | JSONDecodeError => "Expecting value"
  | KeyError => "key"
  | IndexError => "list index out of range"
  | TypeError => "unsupported operand"
  | AttributeError => "object has no attribute"
  | OverflowError => "int too large to convert to float"
  end.

Definition lib : pylib :=
  mkPylib loads repr_scalar str_float str_HTTPError str_builtin
          Binary64.add Binary64.of_int.

(** A server that gives the listed answers in turn, and fails to connect
    once they are used up. *)
Definition script (l : list exchange) : nat -> exchange :=
  fun n => nth n l (mkExchange 0 (TransportFailure "connection refused")).

Definition ok (body : string) : exchange :=
  mkExchange 0 (Response (mkResponse 200 body)).

Definition cfg : Config.CriblConfig :=
  Config.mkCriblConfig "id" "secret" "test-org" "test-workspace".

(** A client that already holds a token valid until t = 86400, at t = 0. *)
Definition logged_in (srv : nat -> exchange) : state :=
  mkState cfg 300 (JStr "mock-token-12345") 86400 0 srv 0 [].

(** A new client. *)
Definition fresh (srv : nat -> exchange) : state :=
  mkState cfg 300 JNull 0 1000 srv 0 [].

(** The token endpoint of the test suite, and a new client facing the given
    answers. *)
Definition auth_ok : exchange :=
  ok (dq
    "{'access_token':'mock-token-12345','expires_in':86400,'token_type':'Bearer'}").

Definition new_client (answers : list exchange) : state :=
  fresh (script answers).

(** The lines of a body, each ended by a line feed. *)
Fixpoint unlines (l : list string) : string :=
  match l with
  | [] => EmptyString
  | x :: l' => x ++ String PyStr.LF (unlines l')
  end.

End Lite.

(* ===================================================================== *)
(** ** Vocabulary for the further properties *)
(* ===================================================================== *)

(** The four fields of a configuration, passed back as explicit
    parameters. *)
Definition params_of (cfg : Config.CriblConfig) : Config.params :=
  Config.mkParams (Some (Config.client_id cfg))
                  (Some (Config.client_secret cfg))
                  (Some (Config.org_id cfg))
                  (Some (Config.workspace cfg)).

(** [total_count is None or offset >= total_count], the test that ends the
    loop of [_get_results]. *)
Definition stop_after (offset : Z) (total_count : json)
  : builtin_error + bool :=
  match total_count with
  | JNull => inr true
  | _ => Py.int_ge offset total_count
  end.

(** [metadata.get("totalEventCount", 0)] on an object. *)
Definition page_total (o : list (string * json)) : json :=
  match Py.assoc "totalEventCount" o with
  | Some t => t
  | None => JInt 0
  end.

(** [if line.strip():], the test on a line of a result page. *)
Definition nonblank (l : string) : bool := PyStr.nonempty (PyStr.strip l).

(** A status that keeps the poll loop going. *)
Definition pending (status : json) : Prop :=
  status <> JStr "completed" /\ status <> JStr "failed"
  /\ status <> JStr "canceled".

(** The time at the head of the [k]-th iteration of a poll loop entered in
    state [st], when the iterations before it each sent their request and
    slept. *)
Fixpoint poll_clock (st : state) (k : nat) : Q :=
  match k with
  | O => clock st
  | S j => poll_clock st j + took (server st (j + served st))
           + _POLL_INTERVAL
  end.

Section Vocabulary.

Variable L : pylib.

(** The headers [_get_headers] builds from the cached token. *)
Definition bearer (st : state) : list (string * string) :=
  [ ("Authorization", "Bearer " ++ str L (_token st));
    ("Content-Type", "application/json") ].

(** The headers of a result page request. *)
Definition ndjson (hdrs : list (string * string)) : list (string * string) :=
  (hdrs ++ [("Accept", "application/x-ndjson")])%list.

(** A page whose first line decodes to an object, with [total] what the loop
    reads as its event count (0 when the object has none), and whose
    non-blank lines after the first decode, in order, to [recs]. *)
Definition page_with (total : json) (body : string) (recs : list json)
  : Prop :=
  exists first_line events o,
    page_lines body = first_line :: events
    /\ json_loads L first_line = Some (JObj o)
    /\ page_total o = total
    /\ map (json_loads L)
           (filter (fun l => PyStr.nonempty (PyStr.strip l)) events)
       = map Some recs.

(** The answer is a job listing whose first item is [first], with [status]
    as its [status]. *)
Definition reports (r : response) (first : list (string * json))
    (status : json) : Prop :=
  exists o rest,
    json_loads L (text r) = Some (JObj o)
    /\ Py.assoc "items" o = Some (JArr (JObj first :: rest))
    /\ Py.assoc "status" first = Some status.

(** The server delivers a response that [raise_for_status] accepts. *)
Definition delivers (st : state) (i : nat) (r : response) : Prop :=
  answer (server st i) = Response r /\ raises_for_status r = false.

(** The request fails: no connection, or a 4xx/5xx status. *)
Definition fails (st : state) (i : nat) : Prop :=
  (exists x, answer (server st i) = TransportFailure x)
  \/ (exists r, answer (server st i) = Response r
                /\ raises_for_status r = true).

End Vocabulary.

(* ===================================================================== *)
(** ** Basic facts: strings, comparisons, the monad *)
(* ===================================================================== *)

Lemma split_not_nil (sep : ascii) (s : string) : PyStr.split sep s <> [].
Proof.
  induction s as [|c s IH]; simpl.
  - discriminate.
  - destruct (Ascii.eqb c sep); [discriminate|].
    destruct (PyStr.split sep s); [contradiction|discriminate].
Qed.

Lemma split_empty (sep : ascii) : PyStr.split sep EmptyString = [EmptyString].
Proof. reflexivity. Qed.

Lemma Qltb_lt (x y : Q) : Py.Qltb x y = true <-> (x < y)%Q.
Proof. unfold Py.Qltb, Qlt. apply Z.ltb_lt. Qed.

Lemma Qltb_ge (x y : Q) : Py.Qltb x y = false <-> (y <= x)%Q.
Proof. unfold Py.Qltb, Qle. apply Z.ltb_ge. Qed.

Lemma append_assoc (a b c : string) : (a ++ b) ++ c = a ++ (b ++ c).
Proof. induction a as [|x a IH]; simpl; [reflexivity|now rewrite IH]. Qed.

Lemma contains_suffix (pre s : string) : PyStr.contains (pre ++ s) s.
Proof.
  exists pre, EmptyString.
  f_equal. induction s as [|c s IH]; simpl; [reflexivity|now rewrite <- IH].
Qed.

Lemma bind_Return {A B} (c : M A) (k : A -> M B) st a st' :
  c st = (Return a, st') -> bind c k st = k a st'.
Proof. intros H. unfold bind. now rewrite H. Qed.

Lemma bind_Raise {A B} (c : M A) (k : A -> M B) st e st' :
  c st = (Raise e, st') -> bind c k st = (Raise e, st').
Proof. intros H. unfold bind. now rewrite H. Qed.

Lemma session_send_eq (req : request) (st : state) :
  session_send req st = (Return (answer (server st (served st))),
                         after_send req st).
Proof. reflexivity. Qed.

(* ===================================================================== *)
(** ** Result pages *)
(* ===================================================================== *)

Section Results.

Variable L : pylib.

Lemma page_lines_not_nil (body : string) : page_lines body <> [].
Proof. apply split_not_nil. Qed.

Lemma page_lines_blank (body : string) :
  PyStr.strip body = EmptyString -> page_lines body = [EmptyString].
Proof. unfold page_lines. now intros ->. Qed.

Lemma bind_lift_inr {A B} (a : A) (k : A -> M B) st :
  bind (lift (inr a)) k st = k a st.
Proof. reflexivity. Qed.

Lemma bind_lift_inl {A B} (e : builtin_error) (k : A -> M B) st :
  bind (lift (inl e)) k st = (Raise (Builtin e), st).
Proof. reflexivity. Qed.

Lemma get_results_unfold fuel job_id st0 hdrs st :
  _get_headers L st0 = (Return hdrs, st) ->
  _get_results L fuel job_id st0
  = results_loop L fuel (_config st)
      (hdrs ++ [("Accept", "application/x-ndjson")])%list job_id [] 0%Z st.
Proof.
  intros H. unfold _get_results. rewrite (bind_Return _ _ _ _ _ H).
  reflexivity.
Qed.

(** One turn of the loop on a page whose first line does not decode. *)
Lemma results_loop_bad_first_line fuel cfg hdrs job_id acc offset st r
      first_line events :
  answer (server st (served st)) = Response r ->
  raises_for_status r = false ->
  page_lines (text r) = first_line :: events ->
  json_loads L first_line = None ->
  results_loop L (S fuel) cfg hdrs job_id acc offset st
  = (Raise (Builtin JSONDecodeError),
     after_send (results_request L cfg hdrs job_id offset) st).
Proof.
  intros Hrep Hok Hlines Hbad.
  cbn [results_loop]. unfold bind at 1.
  rewrite session_send_eq, Hrep, Hok, Hlines, Hbad.
  reflexivity.
Qed.

Lemma results_loop_bad_page fuel cfg hdrs job_id acc offset st r :
  json_loads L EmptyString = None ->
  bad_page L st r ->
  results_loop L (S fuel) cfg hdrs job_id acc offset st
  = (Raise (Builtin JSONDecodeError),
     after_send (results_request L cfg hdrs job_id offset) st).
Proof.
  intros Hempty (Hrep & Hok & [Hblank | (first & rest & Hlines & Hbad)]).
  - apply results_loop_bad_first_line with (r := r) (first_line := EmptyString)
                                           (events := []); auto.
    now apply page_lines_blank.
  - eapply results_loop_bad_first_line; eauto.
Qed.

(** C10. The guard [if not lines: break] of [_get_results] can never fire:
    [text.strip().split("\n")] has at least one element for every body (and is
    the one-element list holding the empty string when the stripped body is
    empty).  Hence, [json.loads] rejecting the empty string, a page whose
    body is blank or whose first line is not valid JSON makes the loop, at any
    point of the pagination, and [_get_results] itself on its first page,
    raise the decode error, which is not a [CriblSearchError]. *)
Theorem get_results_decode_error_is_raw :
  json_loads L EmptyString = None ->
  (forall body, page_lines body <> [])
  /\ (forall body, PyStr.strip body = EmptyString ->
                   page_lines body = [EmptyString])
  /\ (forall fuel cfg hdrs job_id acc offset st r,
         bad_page L st r ->
         results_loop L (S fuel) cfg hdrs job_id acc offset st
         = (Raise (Builtin JSONDecodeError),
            after_send (results_request L cfg hdrs job_id offset) st))
  /\ (forall fuel job_id st0 hdrs st r,
         _get_headers L st0 = (Return hdrs, st) ->
         bad_page L st r ->
         fst (_get_results L (S fuel) job_id st0)
         = Raise (Builtin JSONDecodeError))
  /\ is_CriblSearchError (Builtin JSONDecodeError) = false.
Proof.
  intros Hempty. repeat split.
  - apply page_lines_not_nil.
  - apply page_lines_blank.
  - intros. now apply results_loop_bad_page with (r := r).
  - intros fuel job_id st0 hdrs st r Hh Hbad.
    rewrite (get_results_unfold _ _ _ _ _ Hh).
    now rewrite results_loop_bad_page with (r := r).
Qed.

(** *** Failing page fetches *)

Lemma results_loop_fetch_fails fuel cfg hdrs job_id acc offset st :
  (exists e, answer (server st (served st)) = TransportFailure e)
  \/ (exists r, answer (server st (served st)) = Response r
                /\ raises_for_status r = true) ->
  exists msg,
    results_loop L (S fuel) cfg hdrs job_id acc offset st
    = (Raise (QueryError msg JNull),
       after_send (results_request L cfg hdrs job_id offset) st).
Proof.
  intros [[e He] | (r & Hr & Hbad)];
    cbn [results_loop]; unfold bind at 1; rewrite session_send_eq.
  - rewrite He. eexists. reflexivity.
  - rewrite Hr, Hbad. eexists. reflexivity.
Qed.

(** Whatever the loop does, the server is the same afterwards, requests are
    only added, and a returned list means that every request of the run was
    answered by a response with no error status. *)
Lemma results_loop_inv fuel : forall cfg hdrs job_id acc offset st o st',
  results_loop L fuel cfg hdrs job_id acc offset st = (o, st') ->
  server st' = server st
  /\ served st <= served st'
  /\ (forall recs, o = Return recs ->
        forall i, served st <= i < served st' ->
          exists r, answer (server st i) = Response r
                    /\ raises_for_status r = false).
Proof.
  induction fuel as [|fuel IH]; intros cfg hdrs job_id acc offset st o st' H.
  - cbn in H. inversion H; subst. repeat split; auto. discriminate.
  - cbn [results_loop] in H. unfold bind at 1 in H.
    rewrite session_send_eq in H.
    set (st1 := after_send (results_request L cfg hdrs job_id offset) st) in *.
    assert (Hone : forall recs : list json, o = Return recs ->
              forall r, answer (server st (served st)) = Response r ->
              raises_for_status r = false ->
              served st' = S (served st) ->
              forall i, served st <= i < served st' ->
                exists r, answer (server st i) = Response r
                          /\ raises_for_status r = false).
    { intros recs _ r Hr Hok Hs i Hi. assert (i = served st) by lia. subst i.
      eauto. }
    destruct (answer (server st (served st))) as [r|e] eqn:Hrep.
    2:{ inversion H; subst. repeat split; simpl; auto. discriminate. }
    destruct (raises_for_status r) eqn:Hok.
    { inversion H; subst. repeat split; simpl; auto. discriminate. }
    destruct (page_lines (text r)) as [|first_line events].
    { inversion H; subst. repeat split; simpl; eauto. }
    destruct (json_loads L first_line) as [metadata|].
    2:{ inversion H; subst. repeat split; simpl; auto. discriminate. }
    destruct (Py.get metadata "totalEventCount" (JInt 0)) as [e|total].
    { inversion H; subst. repeat split; simpl; auto. discriminate. }
    rewrite bind_lift_inr in H.
    destruct (append_events L events acc) as [e|acc'].
    { inversion H; subst. repeat split; simpl; auto. discriminate. }
    rewrite bind_lift_inr in H.
    assert (Hrec : forall o st',
               results_loop L fuel cfg hdrs job_id acc' (offset + page_size) st1
               = (o, st') ->
               server st' = server st
               /\ served st <= served st'
               /\ (forall recs, o = Return recs ->
                     forall i, served st <= i < served st' ->
                       exists r, answer (server st i) = Response r
                                 /\ raises_for_status r = false)).
    { intros o2 st2 H2. apply IH in H2. destruct H2 as (Hsrv & Hle & Hall).
      split; [exact Hsrv|]. split; [simpl in Hle; lia|].
      intros recs Ho i Hi. destruct (Nat.eq_dec i (served st)) as [->|Hne].
      - eauto.
      - apply (Hall recs Ho). simpl. lia. }
    assert (Hstop : forall o st',
               (Return acc', st1) = (o, st') ->
               server st' = server st
               /\ served st <= served st'
               /\ (forall recs, o = Return recs ->
                     forall i, served st <= i < served st' ->
                       exists r, answer (server st i) = Response r
                                 /\ raises_for_status r = false)).
    { intros o2 st2 H2. inversion H2; subst.
      split; [reflexivity|]. split; [simpl; lia|].
      intros recs _ i Hi. simpl in Hi. assert (i = served st) by lia.
      subst i. eauto. }
    destruct total; try (now apply Hstop);
      match type of H with
      | bind (lift ?c) _ _ = _ => destruct c as [e|[|]]
      end;
      first [ now apply Hstop | now apply Hrec
            | inversion H; subst; repeat split; simpl; auto; discriminate ].
Qed.

(** C9. A page fetch that fails (transport failure, or a response with a
    4xx/5xx status) at any point of the pagination, whatever has been
    accumulated, makes the loop raise [QueryError]: the accumulated records
    are not part of what the caller gets.  And whenever [_get_results]
    returns a list of records, every page request of the run was answered
    without failure and the list is the loop's final accumulator: the caller
    sees the whole table or an error. *)
Theorem get_results_all_or_nothing :
  (forall fuel cfg hdrs job_id acc offset st,
      (exists e, answer (server st (served st)) = TransportFailure e)
      \/ (exists r, answer (server st (served st)) = Response r
                    /\ raises_for_status r = true) ->
      exists msg,
        results_loop L (S fuel) cfg hdrs job_id acc offset st
        = (Raise (QueryError msg JNull),
           after_send (results_request L cfg hdrs job_id offset) st))
  /\ (forall fuel job_id st0 hdrs st recs st',
         _get_headers L st0 = (Return hdrs, st) ->
         _get_results L fuel job_id st0 = (Return recs, st') ->
         forall i, served st <= i < served st' ->
           exists r, answer (server st i) = Response r
                     /\ raises_for_status r = false)
  /\ (forall fuel job_id st0 hdrs st i,
         _get_headers L st0 = (Return hdrs, st) ->
         served st <= i < served (snd (_get_results L fuel job_id st0)) ->
         ((exists e, answer (server st i) = TransportFailure e)
          \/ (exists r, answer (server st i) = Response r
                        /\ raises_for_status r = true)) ->
         forall recs, fst (_get_results L fuel job_id st0) <> Return recs).
Proof.
  split; [|split].
  - intros. now apply results_loop_fetch_fails.
  - intros fuel job_id st0 hdrs st recs st' Hh Hrun i Hi.
    rewrite (get_results_unfold _ _ _ _ _ Hh) in Hrun.
    apply results_loop_inv in Hrun. destruct Hrun as (_ & _ & Hall).
    now apply (Hall recs).
  - intros fuel job_id st0 hdrs st i Hh Hi Hfail recs Hret.
    rewrite (get_results_unfold _ _ _ _ _ Hh) in Hi, Hret.
    destruct (results_loop L fuel (_config st) _ job_id [] 0%Z st)
      as [o st'] eqn:Hrun.
    simpl in Hi, Hret. subst o.
    apply results_loop_inv in Hrun. destruct Hrun as (_ & _ & Hall).
    destruct (Hall recs eq_refl i Hi) as (r & Hr & Hok).
    destruct Hfail as [[e He] | (r' & Hr' & Hbad)]; congruence.
Qed.

(** *** Pagination over well-formed pages *)

Lemma append_events_spec events : forall acc recs,
  map (json_loads L)
      (filter (fun l => PyStr.nonempty (PyStr.strip l)) events)
  = map Some recs ->
  append_events L events acc = inr (acc ++ recs)%list.
Proof.
  induction events as [|line rest IH]; intros acc recs H; simpl in *.
  - destruct recs; [|discriminate]. now rewrite app_nil_r.
  - destruct (PyStr.nonempty (PyStr.strip line)).
    + destruct recs as [|rec recs]; [discriminate|].
      simpl in H. injection H as Hline Hrest. rewrite Hline.
      rewrite (IH _ recs Hrest). now rewrite <- app_assoc.
    + now apply IH.
Qed.

Lemma int_ge_JInt (n N : Z) : Py.int_ge n (JInt N) = inr (N <=? n)%Z.
Proof.
  unfold Py.int_ge, Py.number, Qle_bool. simpl. now rewrite !Z.mul_1_r.
Qed.

Lemma pages_needed_pos N : 1 <= pages_needed N.
Proof. unfold pages_needed. lia. Qed.

Lemma pages_needed_enough N : (N <= 1000 * Z.of_nat (pages_needed N))%Z.
Proof.
  unfold pages_needed. rewrite Z2Nat.id by lia.
  pose proof (Z.div_mod (N + 999) 1000 ltac:(lia)).
  pose proof (Z.mod_pos_bound (N + 999) 1000 ltac:(lia)). lia.
Qed.

Lemma pages_needed_least N k :
  0 < k < pages_needed N -> (1000 * Z.of_nat k < N)%Z.
Proof.
  unfold pages_needed. intros Hk.
  pose proof (Z.div_mod (N + 999) 1000 ltac:(lia)).
  pose proof (Z.mod_pos_bound (N + 999) 1000 ltac:(lia)). lia.
Qed.

(** One turn of the loop on a well-formed page. *)
Lemma results_loop_good_page fuel cfg hdrs job_id acc offset st r N recs :
  answer (server st (served st)) = Response r ->
  raises_for_status r = false ->
  good_page L (JInt N) (text r) recs ->
  results_loop L (S fuel) cfg hdrs job_id acc offset st
  = if (N <=? offset + page_size)%Z
    then (Return (acc ++ recs)%list,
          after_send (results_request L cfg hdrs job_id offset) st)
    else results_loop L fuel cfg hdrs job_id (acc ++ recs)%list
           (offset + page_size)%Z
           (after_send (results_request L cfg hdrs job_id offset) st).
Proof.
  intros Hrep Hok (first_line & events & o & Hlines & Hmeta & Htotal & Hrecs).
  cbn [results_loop]. unfold bind at 1.
  rewrite session_send_eq, Hrep, Hok, Hlines, Hmeta.
  unfold Py.get. rewrite Htotal, bind_lift_inr.
  rewrite (append_events_spec _ _ _ Hrecs), bind_lift_inr.
  rewrite int_ge_JInt, bind_lift_inr.
  now destruct (N <=? offset + page_size)%Z.
Qed.

(** [n] well-formed pages are still to be fetched after [i] of them. *)
Lemma results_loop_pages N cfg hdrs job_id (recs : nat -> list json) base :
  forall n i fuel acc st,
    0 < n -> i + n = pages_needed N -> n <= fuel ->
    served st = base + i ->
    (forall k, i <= k < i + n ->
       exists r, answer (server st (base + k)) = Response r
                 /\ raises_for_status r = false
                 /\ good_page L (JInt N) (text r) (recs k)) ->
    exists st',
      results_loop L fuel cfg hdrs job_id acc (1000 * Z.of_nat i)%Z st
      = (Return (acc ++ concat (map recs (seq i n)))%list, st')
      /\ served st' = served st + n
      /\ sent_requests (trace st')
         = (sent_requests (trace st)
            ++ map (fun k => results_request L cfg hdrs job_id
                               (1000 * Z.of_nat k)%Z) (seq i n))%list
      /\ _token st' = _token st
      /\ _token_expires_at st' = _token_expires_at st.
Proof.
  induction n as [|n IH]; intros i fuel acc st Hn HK Hfuel Hserved Hpages;
    [lia|].
  destruct fuel as [|fuel]; [lia|].
  destruct (Hpages i ltac:(lia)) as (r & Hr & Hok & Hgood).
  rewrite <- Hserved in Hr.
  rewrite (results_loop_good_page _ _ _ _ _ _ _ _ _ _ Hr Hok Hgood).
  set (st1 := after_send _ st).
  assert (Hsent : sent_requests (trace st1)
                  = (sent_requests (trace st)
                     ++ [results_request L cfg hdrs job_id
                           (1000 * Z.of_nat i)%Z])%list).
  { subst st1. simpl. generalize (trace st) as tr.
    induction tr as [|[t q|t d] tr IHtr]; simpl; congruence. }
  destruct n as [|n].
  - (* the last page *)
    assert (Hstop : (N <=? 1000 * Z.of_nat i + page_size)%Z = true).
    { apply Z.leb_le. pose proof (pages_needed_enough N).
      unfold page_size. lia. }
    rewrite Hstop. exists st1. simpl. rewrite app_nil_r.
    repeat split; auto. lia.
  - assert (Hgo : (N <=? 1000 * Z.of_nat i + page_size)%Z = false).
    { apply Z.leb_gt. pose proof (pages_needed_least N (S i) ltac:(lia)).
      unfold page_size. lia. }
    rewrite Hgo.
    replace (1000 * Z.of_nat i + page_size)%Z
      with (1000 * Z.of_nat (S i))%Z by (unfold page_size; lia).
    destruct (IH (S i) fuel (acc ++ recs i)%list st1) as
        (st' & Hrun & Hs & Htr & Htok & Hexp);
      try lia.
    { subst st1. simpl. lia. }
    { intros k Hk. subst st1. simpl. apply Hpages. lia. }
    exists st'. rewrite Hrun. split.
    { f_equal. change (seq i (S (S n))) with (i :: seq (S i) (S n)).
      simpl. now rewrite <- app_assoc. }
    split; [subst st1; simpl in *; lia|].
    split; [|now subst st1].
    rewrite Htr, Hsent.
    change (seq i (S (S n))) with (i :: seq (S i) (S n)).
    simpl. now rewrite <- app_assoc.
Qed.

(** C1. When every page the server delivers starts with a metadata line
    whose [totalEventCount] is [N], and the non-blank lines after it decode
    (page [k] to the records [recs k]), [_get_results] sends exactly
    [K = pages_needed N] requests: GET requests to the job's results URL
    with the NDJSON [Accept] header and a 60 s timeout, whose query
    parameters are [limit = 1000] and [offset] = 0, 1000, ...,
    1000 * (K - 1) in this order; [K] is the first page count with
    [1000 * K >= N] (so the loop stops as soon as the offset reaches [N]);
    and the result is the records of pages 0 .. K-1, in input order, each
    once, blank lines and metadata lines left out. *)
Theorem get_results_paginates fuel job_id st0 hdrs st N
        (recs : nat -> list json) :
  _get_headers L st0 = (Return hdrs, st) ->
  pages_needed N <= fuel ->
  (forall k, k < pages_needed N ->
     exists r, answer (server st (served st + k)) = Response r
               /\ raises_for_status r = false
               /\ good_page L (JInt N) (text r) (recs k)) ->
  exists st',
    _get_results L fuel job_id st0
    = (Return (concat (map recs (seq 0 (pages_needed N)))), st')
    /\ served st' = served st + pages_needed N
    /\ sent_requests (trace st')
       = (sent_requests (trace st)
          ++ map (fun k =>
                    results_request L (_config st)
                      (hdrs ++ [("Accept", "application/x-ndjson")])%list
                      job_id (1000 * Z.of_nat k)%Z)
                 (seq 0 (pages_needed N)))%list
    /\ (N <= 1000 * Z.of_nat (pages_needed N))%Z
    /\ (forall k, 0 < k < pages_needed N -> (1000 * Z.of_nat k < N)%Z)
    /\ (exists reqs,
          sent_requests (trace st')
          = (sent_requests (trace st) ++ reqs)%list
          /\ length reqs = pages_needed N
          /\ map params reqs
             = map (fun k => [("limit", 1000%Z);
                              ("offset", (1000 * Z.of_nat k)%Z)])
                   (seq 0 (pages_needed N))
          /\ Forall (fun q =>
                       method q = GET
                       /\ url q = Config.api_base_url (_config st)
                                  ++ "/search/jobs/" ++ str L job_id
                                  ++ "/results"
                       /\ headers q
                          = (hdrs ++ [("Accept", "application/x-ndjson")])%list
                       /\ json_body q = None
                       /\ timeout q = 60%Z) reqs).
Proof.
  intros Hh Hfuel Hpages.
  rewrite (get_results_unfold _ _ _ _ _ Hh).
  destruct (results_loop_pages N (_config st)
              (hdrs ++ [("Accept", "application/x-ndjson")])%list job_id
              recs (served st) (pages_needed N) 0 fuel [] st)
    as (st' & Hrun & Hs & Htr & _);
    try (pose proof (pages_needed_pos N); lia).
  { intros k Hk. apply Hpages. lia. }
  exists st'. split; [exact Hrun|]. split; [exact Hs|]. split; [exact Htr|].
  split; [apply pages_needed_enough|].
  split; [now apply pages_needed_least|].
  eexists. split; [exact Htr|].
  split; [now rewrite length_map, length_seq|]. split.
  - rewrite map_map. reflexivity.
  - apply Forall_forall. intros q Hq. apply in_map_iff in Hq.
    destruct Hq as (k & <- & _). repeat split.
Qed.

End Results.

Lemma get_results_paginates_witness :
  let body := Lite.unlines
    [ Lite.dq "{'isFinished':true,'totalEventCount':2,'offset':0}";
      Lite.dq "{'_time':1704067200,'message':'log1'}";
      Lite.dq "{'_time':1704067201,'message':'log2'}" ] in
  let st0 := Lite.logged_in (Lite.script [Lite.ok body]) in
  exists st',
    _get_results Lite.lib 1 (JStr "job-123") st0
    = (Return [ JObj [("_time", JInt 1704067200); ("message", JStr "log1")];
                JObj [("_time", JInt 1704067201); ("message", JStr "log2")] ],
       st')
    /\ served st' = 1
    /\ map params (sent_requests (trace st'))
       = [ [("limit", 1000%Z); ("offset", 0%Z)] ]
    /\ map url (sent_requests (trace st'))
       = [ "https://test-workspace-test-org.cribl.cloud/api/v1/m/default_search/search/jobs/job-123/results" ].
Proof.
  intros body st0.
  destruct (get_results_paginates Lite.lib 1 (JStr "job-123") st0
              [("Authorization", "Bearer mock-token-12345");
               ("Content-Type", "application/json")] st0 2%Z
              (fun _ =>
                 [ JObj [("_time", JInt 1704067200); ("message", JStr "log1")];
                   JObj [("_time", JInt 1704067201); ("message", JStr "log2")] ]))
    as (st' & Hrun & Hs & _ & _ & _ & reqs & Htr & Hlen & Hparams & Hform).
  - vm_compute. reflexivity.
  - vm_compute. lia.
  - intros k Hk. assert (k = 0) by (vm_compute in Hk; lia). subst k.
    exists (mkResponse 200 body).
    split; [vm_compute; reflexivity|]. split; [vm_compute; reflexivity|].
    exists (Lite.dq "{'isFinished':true,'totalEventCount':2,'offset':0}"),
           [ Lite.dq "{'_time':1704067200,'message':'log1'}";
             Lite.dq "{'_time':1704067201,'message':'log2'}" ],
           [ ("isFinished", JBool true); ("totalEventCount", JInt 2);
             ("offset", JInt 0) ].
    repeat split; vm_compute; reflexivity.
  - exists st'. split; [exact Hrun|]. split; [exact Hs|].
    rewrite Htr. change (sent_requests (trace st0)) with (@nil request).
    cbn [app]. split; [exact Hparams|].
    destruct reqs as [|q [|q' reqs]]; try discriminate Hlen.
    apply Forall_inv in Hform. destruct Hform as (_ & Hurl & _).
    cbn [map]. rewrite Hurl. vm_compute. reflexivity.
Defined.

(** Two pages: 1500 events announced, the second request has offset 1000 and
    ends the loop; the records of both pages come back in order. *)
Example get_results_two_pages :
  let page n := Lite.unlines
    [ Lite.dq "{'totalEventCount':1500}"; "";
      "{" ++ Lite.dq "'n':" ++ n ++ "}"; "   " ] in
  let st0 := Lite.logged_in (Lite.script [Lite.ok (page "1");
                                          Lite.ok (page "2");
                                          Lite.ok (page "3")]) in
  fst (_get_results Lite.lib 5 (JStr "j") st0)
  = Return [JObj [("n", JInt 1)]; JObj [("n", JInt 2)]]
  /\ map params (sent_requests (trace (snd (_get_results Lite.lib 5 (JStr "j")
                                              st0))))
     = [ [("limit", 1000%Z); ("offset", 0%Z)];
         [("limit", 1000%Z); ("offset", 1000%Z)] ].
Proof. split; vm_compute; reflexivity. Qed.

Lemma get_results_all_or_nothing_witness :
  let st := Lite.logged_in
              (Lite.script [mkExchange 0 (Response (mkResponse 502 "Bad gateway"))]) in
  let kept := [JObj [("message", JStr "log1")]] in
  exists msg,
    fst (results_loop Lite.lib 1 Lite.cfg [] (JStr "job-123") kept 1000%Z st)
    = Raise (QueryError msg JNull).
Proof.
  intros st kept.
  destruct (get_results_all_or_nothing Lite.lib) as (Hfail & _).
  destruct (Hfail 0 Lite.cfg [] (JStr "job-123") kept 1000%Z st) as [msg Hmsg].
  - right. exists (mkResponse 502 "Bad gateway"). split; reflexivity.
  - exists msg. now rewrite Hmsg.
Defined.

(** One page of 5000 announced events is read, then the connection drops:
    the call raises [QueryError] and the records of the first page are
    gone. *)
Example get_results_fails_midway :
  let page := Lite.unlines [ Lite.dq "{'totalEventCount':5000}";
                             Lite.dq "{'message':'log1'}" ] in
  let st := Lite.logged_in (Lite.script [Lite.ok page]) in
  fst (_get_results Lite.lib 9 (JStr "job-123") st)
  = Raise (QueryError "Failed to retrieve results: connection refused" JNull)
  /\ served (snd (_get_results Lite.lib 9 (JStr "job-123") st)) = 2.
Proof. split; vm_compute; reflexivity. Qed.

Lemma get_results_decode_error_is_raw_witness :
  json_loads Lite.lib EmptyString = None
  /\ page_lines "  " = [EmptyString]
  /\ fst (_get_results Lite.lib 1 (JStr "job-123")
            (Lite.logged_in (Lite.script [Lite.ok "  "])))
     = Raise (Builtin JSONDecodeError)
  /\ fst (_get_results Lite.lib 1 (JStr "job-123")
            (Lite.logged_in (Lite.script [Lite.ok "<html>Bad gateway</html>"])))
     = Raise (Builtin JSONDecodeError).
Proof.
  assert (H0 : json_loads Lite.lib EmptyString = None) by reflexivity.
  destruct (get_results_decode_error_is_raw Lite.lib H0)
    as (_ & Hblank & _ & Hget & _).
  split; [exact H0|]. split; [apply Hblank; reflexivity|]. split.
  - eapply Hget; [reflexivity|].
    split; [reflexivity|]. split; [reflexivity|]. left. reflexivity.
  - eapply Hget; [reflexivity|].
    split; [reflexivity|]. split; [reflexivity|]. right.
    eexists _, _. split; reflexivity.
Defined.

(* ===================================================================== *)
(** ** The token cache *)
(* ===================================================================== *)

Section Token.

Variable L : pylib.

Lemma token_valid_dec (st : state) :
  Py.truthy (_token st)
  && Py.Qltb (clock st) (_token_expires_at st - _TOKEN_REFRESH_BUFFER)%Q
  = true <-> token_valid st.
Proof.
  unfold token_valid. rewrite andb_true_iff, Qltb_lt. tauto.
Qed.

Lemma get_auth_token_cached (st : state) :
  token_valid st -> _get_auth_token L st = (Return (_token st), st).
Proof.
  intros H. apply token_valid_dec in H.
  unfold _get_auth_token, bind, read, time_time. simpl. now rewrite H.
Qed.

Lemma get_auth_token_refresh (st : state) :
  ~ token_valid st ->
  _get_auth_token L st = bind (_authenticate L) (fun _ => read _token) st.
Proof.
  intros H. rewrite <- token_valid_dec in H. apply not_true_is_false in H.
  unfold _get_auth_token, bind at 1 2 3, read at 1 2 3, time_time. simpl.
  now rewrite H.
Qed.

Lemma float_plus_as_float (x : Q) (v : json) (q : Q) :
  as_float L v q -> float_plus L x v = inr (float_add L x q).
Proof.
  destruct v; simpl; try contradiction.
  - intros ->. reflexivity.
  - intros ->. reflexivity.
  - intros ->. reflexivity.
Qed.

Lemma float_plus_TypeError (x : Q) (v : json) :
  Py.number v = None -> float_plus L x v = inl TypeError.
Proof. destruct v; simpl; try discriminate; reflexivity. Qed.

(** Whatever its outcome, [_authenticate] is one exchange with the auth
    endpoint. *)
Lemma authenticate_one_exchange (st : state) o st' :
  _authenticate L st = (o, st') ->
  served st' = S (served st)
  /\ trace st' = (trace st ++ [Sent (clock st) (auth_request (_config st))])%list
  /\ server st' = server st
  /\ clock st' = (clock st + took (server st (served st)))%Q.
Proof.
  unfold _authenticate, bind at 1 2, read at 1. rewrite session_send_eq.
  destruct (answer (server st (served st))) as [r|e].
  2:{ intros H; inversion H; subst. now simpl. }
  destruct (raises_for_status r).
  { intros H; inversion H; subst. now simpl. }
  unfold response_json. destruct (json_loads L (text r)) as [data|].
  2:{ intros H; inversion H; subst. now simpl. }
  unfold bind at 1, ret at 1.
  destruct (Py.getitem data "access_token") as [e|tok].
  { intros H; inversion H; subst. now simpl. }
  rewrite bind_lift_inr. unfold bind at 1 2, modify at 1, time_time, read.
  destruct (Py.get data "expires_in" (JInt 86400)) as [e|expires_in].
  { intros H; inversion H; subst. now simpl. }
  rewrite bind_lift_inr.
  match goal with
  | |- context [float_plus L ?x ?v] => destruct (float_plus L x v) as [e|x']
  end;
    [rewrite bind_lift_inl | rewrite bind_lift_inr];
    intros H; inversion H; subst; now simpl.
Qed.

Lemma authenticate_success (st : state) r o tok q :
  answer (server st (served st)) = Response r ->
  raises_for_status r = false ->
  json_loads L (text r) = Some (JObj o) ->
  Py.assoc "access_token" o = Some tok ->
  as_float L (match Py.assoc "expires_in" o with
              | Some x => x
              | None => JInt 86400
              end) q ->
  _authenticate L st
  = (Return tt,
     after_auth tok
       (float_add L (clock st + took (server st (served st)))%Q q) st).
Proof.
  intros Hr Hok Hjson Htok He.
  unfold _authenticate, bind at 1 2, read at 1.
  rewrite session_send_eq, Hr, Hok.
  unfold response_json. rewrite Hjson. unfold bind at 1, ret at 1.
  unfold Py.getitem. rewrite Htok, bind_lift_inr.
  unfold bind at 1 2, modify at 1, time_time, read.
  unfold Py.get. rewrite bind_lift_inr.
  rewrite (float_plus_as_float _ _ _ He), bind_lift_inr. reflexivity.
Qed.

Lemma get_auth_token_success (st : state) r o tok q :
  ~ token_valid st ->
  answer (server st (served st)) = Response r ->
  raises_for_status r = false ->
  json_loads L (text r) = Some (JObj o) ->
  Py.assoc "access_token" o = Some tok ->
  as_float L (match Py.assoc "expires_in" o with
              | Some x => x
              | None => JInt 86400
              end) q ->
  _get_auth_token L st
  = (Return tok,
     after_auth tok
       (float_add L (clock st + took (server st (served st)))%Q q) st).
Proof.
  intros Hinv Hr Hok Hjson Htok He.
  rewrite (get_auth_token_refresh _ Hinv).
  rewrite (bind_Return _ _ _ _ _
             (authenticate_success _ _ _ _ _ Hr Hok Hjson Htok He)).
  reflexivity.
Qed.

Lemma get_auth_token_exchange (st : state) :
  ~ token_valid st ->
  served (snd (_get_auth_token L st)) = S (served st)
  /\ trace (snd (_get_auth_token L st))
     = (trace st ++ [Sent (clock st) (auth_request (_config st))])%list.
Proof.
  intros Hinv. rewrite (get_auth_token_refresh _ Hinv). unfold bind.
  destruct (_authenticate L st) as [o st'] eqn:Hauth.
  apply authenticate_one_exchange in Hauth.
  destruct Hauth as (Hs & Ht & _).
  destruct o as [[]| |]; simpl; auto.
Qed.

(** Two calls within the validity window, then a forced invalidation and a
    third call. *)
Lemma token_cache_sequence (st : state) r o tok q d :
  ~ token_valid st ->
  answer (server st (served st)) = Response r ->
  raises_for_status r = false ->
  json_loads L (text r) = Some (JObj o) ->
  Py.assoc "access_token" o = Some tok ->
  as_float L (match Py.assoc "expires_in" o with
              | Some x => x
              | None => JInt 86400
              end) q ->
  Py.truthy tok = true ->
  let st1 := snd (_get_auth_token L st) in
  let st2 := snd (elapse d st1) in
  (clock st1 + d < float_add L (clock st1) q - 300)%Q ->
  let st3 := snd (_get_auth_token L st2) in
  let st4 := snd (invalidate st3) in
  let st5 := snd (_get_auth_token L st4) in
  fst (_get_auth_token L st) = Return tok
  /\ served st1 = S (served st)
  /\ fst (_get_auth_token L st2) = Return tok
  /\ served st3 = S (served st)
  /\ served st5 = S (S (served st)).
Proof.
  intros Hinv Hr Hok Hjson Htok He Htruthy.
  pose proof (get_auth_token_success _ _ _ _ _ Hinv Hr Hok Hjson Htok He)
    as Hfirst.
  cbv zeta. rewrite Hfirst. cbn [fst snd]. intros Hwindow.
  set (st2 := snd (elapse d (after_auth tok _ st))) in *.
  assert (Hvalid : token_valid st2).
  { split; [exact Htruthy | exact Hwindow]. }
  rewrite (get_auth_token_cached _ Hvalid). cbn [fst snd].
  set (st4 := snd (invalidate st2)).
  assert (Hinv4 : ~ token_valid st4) by (intros [Ht _]; discriminate Ht).
  destruct (get_auth_token_exchange _ Hinv4) as [Hserved _].
  rewrite Hserved. repeat split; reflexivity.
Qed.

(** C2. [_get_auth_token] hands back the cached token, leaving the state as
    it is (no request is sent), exactly when a token is cached and
    [now < expires_at - 300]; otherwise it is one exchange, a POST to the
    token endpoint, and when that exchange succeeds the token it delivered
    is cached and returned with [expires_at = now + expires_in], the sum
    being the float sum of the time read after the exchange and of
    [expires_in], 86400 when the answer has none.  Hence a call that
    refreshes, a second call within the validity window then opened and a
    third call after a forced invalidation make one, one and two exchanges
    in total. *)
Theorem get_auth_token_caching (st : state) :
  let cached (s : state) :=
    Py.truthy (_token s) = true
    /\ (clock s < _token_expires_at s - 300)%Q in
  (cached st -> _get_auth_token L st = (Return (_token st), st))
  /\ (served (snd (_get_auth_token L st)) = served st <-> cached st)
  /\ (~ cached st ->
      served (snd (_get_auth_token L st)) = S (served st)
      /\ (exists req,
             trace (snd (_get_auth_token L st))
             = (trace st ++ [Sent (clock st) req])%list
             /\ req = auth_request (_config st)
             /\ method req = POST
             /\ url req = "https://login.cribl.cloud/oauth/token"))
  /\ (forall r o tok q,
         ~ cached st ->
         answer (server st (served st)) = Response r ->
         raises_for_status r = false ->
         json_loads L (text r) = Some (JObj o) ->
         Py.assoc "access_token" o = Some tok ->
         as_float L (match Py.assoc "expires_in" o with
                     | Some x => x
                     | None => JInt 86400
                     end) q ->
         exists st',
           _get_auth_token L st = (Return tok, st')
           /\ _token st' = tok
           /\ clock st' = (clock st + took (server st (served st)))%Q
           /\ _token_expires_at st' = float_add L (clock st') q
           /\ served st' = S (served st))
  /\ (forall r o tok q d,
         ~ cached st ->
         answer (server st (served st)) = Response r ->
         raises_for_status r = false ->
         json_loads L (text r) = Some (JObj o) ->
         Py.assoc "access_token" o = Some tok ->
         as_float L (match Py.assoc "expires_in" o with
                     | Some x => x
                     | None => JInt 86400
                     end) q ->
         Py.truthy tok = true ->
         let st1 := snd (_get_auth_token L st) in
         let st2 := snd (elapse d st1) in
         (clock st1 + d < float_add L (clock st1) q - 300)%Q ->
         let st3 := snd (_get_auth_token L st2) in
         let st4 := snd (invalidate st3) in
         let st5 := snd (_get_auth_token L st4) in
         fst (_get_auth_token L st) = Return tok
         /\ served st1 = S (served st)
         /\ fst (_get_auth_token L st2) = Return tok
         /\ served st3 = S (served st)
         /\ served st5 = S (S (served st))).
Proof.
  intros cached.
  assert (Hsame : forall s, cached s <-> token_valid s) by (intros; reflexivity).
  split; [intros Hc; apply get_auth_token_cached; now apply Hsame|].
  split; [|split; [|split]].
  - rewrite Hsame. split.
    + intros Hserved.
      destruct (Py.truthy (_token st)
                && Py.Qltb (clock st)
                     (_token_expires_at st - _TOKEN_REFRESH_BUFFER)%Q)
        eqn:Hb.
      * now apply token_valid_dec.
      * assert (Hinv : ~ token_valid st).
        { rewrite <- token_valid_dec, Hb. discriminate. }
        destruct (get_auth_token_exchange _ Hinv) as [Hs _]. lia.
    + intros Hvalid. now rewrite (get_auth_token_cached _ Hvalid).
  - intros Hinv. rewrite Hsame in Hinv.
    destruct (get_auth_token_exchange _ Hinv) as [Hs Ht].
    split; [exact Hs|]. exists (auth_request (_config st)).
    repeat split. exact Ht.
  - intros r o tok q Hinv Hr Hok Hjson Htok He. rewrite Hsame in Hinv.
    eexists. split;
      [apply (get_auth_token_success _ _ _ _ _ Hinv Hr Hok Hjson Htok He)|].
    repeat split.
  - intros r o tok q d Hinv Hr Hok Hjson Htok He Htruthy.
    rewrite Hsame in Hinv.
    exact (token_cache_sequence _ _ _ _ _ d Hinv Hr Hok Hjson Htok He Htruthy).
Qed.

End Token.

Lemma get_auth_token_caching_witness :
  let body := Lite.dq "{'access_token':'cached-token','expires_in':86400}" in
  let st := Lite.fresh (Lite.script [Lite.ok body; Lite.ok body]) in
  let st1 := snd (_get_auth_token Lite.lib st) in
  let st2 := snd (elapse 3600 st1) in
  let st3 := snd (_get_auth_token Lite.lib st2) in
  let st4 := snd (invalidate st3) in
  let st5 := snd (_get_auth_token Lite.lib st4) in
  let holding now :=
    mkState Lite.cfg 300 (JStr "held") 86400 now (Lite.script [Lite.ok body])
            0 [] in
  ~ token_valid st
  /\ (fst (_get_auth_token Lite.lib st) = Return (JStr "cached-token")
      /\ served st1 = 1
      /\ fst (_get_auth_token Lite.lib st2) = Return (JStr "cached-token")
      /\ served st3 = 1
      /\ served st5 = 2)
  /\ clock st = 1000%Q
  /\ _token_expires_at st1 = float_add Lite.lib (clock st1) 86400
  /\ (_token_expires_at st1 == 87400)%Q
  /\ served (snd (_get_auth_token Lite.lib (holding 86099%Q))) = 0
  /\ served (snd (_get_auth_token Lite.lib (holding 86100%Q))) = 1.
Proof.
  intros body st st1 st2 st3 st4 st5 holding.
  assert (Hinv : ~ token_valid st) by (intros [Ht _]; discriminate Ht).
  split; [exact Hinv|].
  destruct (get_auth_token_caching Lite.lib st) as (_ & _ & _ & Hexp & Hseq).
  split; [|split; [reflexivity|split; [|split; [|split]]]].
  - apply (Hseq (mkResponse 200 body)
                [("access_token", JStr "cached-token");
                 ("expires_in", JInt 86400)]
                (JStr "cached-token") 86400%Q 3600%Q);
      try (vm_compute; reflexivity).
    exact Hinv.
  - destruct (Hexp (mkResponse 200 body)
                   [("access_token", JStr "cached-token");
                    ("expires_in", JInt 86400)]
                   (JStr "cached-token") 86400%Q Hinv)
      as (st' & Hrun & _ & _ & Hat & _);
      [vm_compute; reflexivity ..|].
    unfold st1. rewrite Hrun. exact Hat.
  - vm_compute. reflexivity.
  - destruct (get_auth_token_caching Lite.lib (holding 86099%Q))
      as (_ & Hiff & _).
    apply Hiff. split; [reflexivity | vm_compute; reflexivity].
  - destruct (get_auth_token_caching Lite.lib (holding 86100%Q))
      as (_ & _ & Hrefresh & _).
    apply Hrefresh. intros [_ Hlt]. vm_compute in Hlt. discriminate Hlt.
Defined.

(** The expiry is a float: at t = 1.7e9 s an [expires_in] of 300.0000001 is
    lost in the sum, the stored expiry is t + 300, and the next call, made
    at once, refreshes again. *)
Example expiry_is_a_float_sum :
  let answer_of (_ : string) :=
    Some (JObj [("access_token", JStr "t");
                ("expires_in",
                 JFloat (Binary64.round (3000000001 # 10000000)))]) in
  let lib := mkPylib answer_of Lite.repr_scalar Lite.str_float
                     Lite.str_HTTPError Lite.str_builtin
                     Binary64.add Binary64.of_int in
  let st := mkState Lite.cfg 300 JNull 0 1700000000
                    (Lite.script [Lite.ok "{}"; Lite.ok "{}"]) 0 [] in
  let st1 := snd (_get_auth_token lib st) in
  fst (_get_auth_token lib st) = Return (JStr "t")
  /\ served st1 = 1
  /\ (_token_expires_at st1 == 1700000300)%Q
  /\ served (snd (_get_auth_token lib st1)) = 2.
Proof. repeat split; vm_compute; reflexivity. Qed.

(* ===================================================================== *)
(** ** Job submission *)
(* ===================================================================== *)

Section Submit.

Variable L : pylib.

Lemma raises_for_status_iff (r : response) :
  raises_for_status r = true <-> (400 <= status_code r < 600)%Z.
Proof. unfold raises_for_status. rewrite andb_true_iff. lia. Qed.

Lemma submit_job_unfold q e l st0 hdrs st :
  _get_headers L st0 = (Return hdrs, st) ->
  _submit_job L q e l st0
  = (let req := submit_request (_config st) hdrs q e l in
     match answer (server st (served st)) with
     | TransportFailure x =>
         raise (QueryError ("Job submission failed: " ++ x) JNull)
     | Response r =>
         if (status_code r =? 400)%Z then
           raise (QueryError ("Invalid query syntax: " ++ text r) JNull)
         else if raises_for_status r then
           if (status_code r =? 401)%Z then
             raise (AuthenticationError "Authentication failed")
           else
             raise (QueryError
                      ("Job submission failed: " ++ str_HTTPError L req r)
                      JNull)
         else
           data <- response_json L r ;;
           items <- lift (Py.getitem data "items") ;;
           first <- lift (Py.getitem0 items) ;;
           lift (Py.getitem first "id")
     end (after_send req st)).
Proof.
  intros Hh. unfold _submit_job. rewrite (bind_Return _ _ _ _ _ Hh).
  unfold bind at 1 2, read at 1. rewrite session_send_eq. reflexivity.
Qed.

(** C4, as the code has it.  Once the headers are there, the answer to the
    POST decides: status 400 raises [QueryError] whose message ends with the
    response body; status 401 raises [AuthenticationError]; every other
    status that [raise_for_status] rejects (the 4xx and 5xx) and every
    transport failure raises [QueryError]; an answer that is not rejected and
    whose body is an object with a non-empty [items] list returns the [id]
    of the first item. *)
Theorem submit_job_outcomes q e l st0 hdrs st :
  _get_headers L st0 = (Return hdrs, st) ->
  let req := submit_request (_config st) hdrs q e l in
  let run := _submit_job L q e l st0 in
  snd run = after_send req st
  /\ (forall r, answer (server st (served st)) = Response r ->
                status_code r = 400%Z ->
                fst run = Raise (QueryError ("Invalid query syntax: " ++ text r)
                                            JNull)
                /\ PyStr.contains ("Invalid query syntax: " ++ text r) (text r))
  /\ (forall r, answer (server st (served st)) = Response r ->
                status_code r = 401%Z ->
                fst run = Raise (AuthenticationError "Authentication failed"))
  /\ (forall r, answer (server st (served st)) = Response r ->
                (400 <= status_code r < 600)%Z ->
                status_code r <> 400%Z -> status_code r <> 401%Z ->
                fst run = Raise (QueryError
                                   ("Job submission failed: "
                                    ++ str_HTTPError L req r) JNull))
  /\ (forall x, answer (server st (served st)) = TransportFailure x ->
                fst run = Raise (QueryError ("Job submission failed: " ++ x)
                                            JNull))
  /\ (forall r o first rest id,
         answer (server st (served st)) = Response r ->
         raises_for_status r = false ->
         json_loads L (text r) = Some (JObj o) ->
         Py.assoc "items" o = Some (JArr (JObj first :: rest)) ->
         Py.assoc "id" first = Some id ->
         fst run = Return id).
Proof.
  intros Hh req run. subst run. rewrite (submit_job_unfold _ _ _ _ _ _ Hh).
  cbv zeta. fold req.
  split; [|split; [|split; [|split; [|split]]]].
  - destruct (answer (server st (served st))) as [r|x]; [|reflexivity].
    destruct (status_code r =? 400)%Z; [reflexivity|].
    destruct (raises_for_status r).
    { destruct (status_code r =? 401)%Z; reflexivity. }
    unfold response_json. destruct (json_loads L (text r)) as [data|];
      [|reflexivity].
    unfold bind at 1, ret at 1.
    destruct (Py.getitem data "items") as [x|items]; [reflexivity|].
    rewrite bind_lift_inr.
    destruct (Py.getitem0 items) as [x|first]; [reflexivity|].
    rewrite bind_lift_inr.
    destruct (Py.getitem first "id"); reflexivity.
  - intros r Hr H400. rewrite Hr, H400.
    split; [reflexivity | apply contains_suffix].
  - intros r Hr H401. rewrite Hr. unfold raises_for_status.
    rewrite H401. reflexivity.
  - intros r Hr Hrange H400 H401. rewrite Hr.
    apply Z.eqb_neq in H400, H401. rewrite H400, H401.
    apply raises_for_status_iff in Hrange. now rewrite Hrange.
  - intros x Hx. now rewrite Hx.
  - intros r o first rest id Hr Hok Hjson Hitems Hid. rewrite Hr, Hok.
    assert (H400 : (status_code r =? 400)%Z = false).
    { apply Z.eqb_neq. intros E.
      assert (raises_for_status r = true)
        by (apply raises_for_status_iff; lia).
      congruence. }
    rewrite H400. unfold response_json. rewrite Hjson.
    unfold bind at 1, ret at 1. unfold Py.getitem at 1.
    rewrite Hitems, bind_lift_inr. cbn [Py.getitem0].
    rewrite bind_lift_inr. unfold Py.getitem. now rewrite Hid.
Qed.

End Submit.

Lemma submit_job_outcomes_witness :
  let body := Lite.dq "{'items':[{'id':'job-123'}]}" in
  let st := Lite.logged_in (Lite.script [Lite.ok body]) in
  _get_headers Lite.lib st
  = (Return [("Authorization", "Bearer mock-token-12345");
             ("Content-Type", "application/json")], st)
  /\ fst (_submit_job Lite.lib "cribl dataset='logs' | limit 2" "-1h" "now" st)
     = Return (JStr "job-123").
Proof.
  intros body st.
  assert (Hh : _get_headers Lite.lib st
               = (Return [("Authorization", "Bearer mock-token-12345");
                          ("Content-Type", "application/json")], st))
    by (vm_compute; reflexivity).
  split; [exact Hh|].
  destruct (submit_job_outcomes Lite.lib "cribl dataset='logs' | limit 2"
              "-1h" "now" st _ st Hh) as (_ & _ & _ & _ & _ & Hsuccess).
  apply (Hsuccess (mkResponse 200 body)
                  [("items", JArr [JObj [("id", JStr "job-123")]])]
                  [("id", JStr "job-123")] [] (JStr "job-123"));
    vm_compute; reflexivity.
Defined.

(** A status outside 2xx that [raise_for_status] lets through: 304 with an
    empty body ends in the decode error of [response.json()], and 300 with a
    job listing as body returns the job id; neither raises [QueryError]. *)
Lemma submit_job_3xx_not_QueryError :
  let run code body :=
    fst (_submit_job Lite.lib "q" "-1h" "now"
           (Lite.logged_in
              (Lite.script [mkExchange 0 (Response (mkResponse code body))]))) in
  run 304%Z EmptyString = Raise (Builtin JSONDecodeError)
  /\ run 300%Z (Lite.dq "{'items':[{'id':'job-123'}]}")
     = Return (JStr "job-123")
  /\ ~ (forall code body,
          ~ (200 <= code < 300)%Z -> code <> 400%Z -> code <> 401%Z ->
          exists msg job_id, run code body = Raise (QueryError msg job_id)).
Proof.
  intros run.
  assert (H304 : run 304%Z EmptyString = Raise (Builtin JSONDecodeError))
    by (vm_compute; reflexivity).
  split; [exact H304|]. split; [vm_compute; reflexivity|].
  intros Hclaim.
  destruct (Hclaim 304%Z EmptyString) as (msg & job_id & Hrun); try lia.
  rewrite H304 in Hrun. discriminate Hrun.
Qed.

(* ===================================================================== *)
(** ** Polling *)
(* ===================================================================== *)

Section Wait.

Variable L : pylib.

Lemma eq_str_true (v : json) (k : string) :
  Py.eq_str v k = true <-> v = JStr k.
Proof.
  destruct v; simpl; try (split; [discriminate|congruence]).
  rewrite String.eqb_eq. split; congruence.
Qed.

Lemma eq_str_false (v : json) (k : string) :
  v <> JStr k -> Py.eq_str v k = false.
Proof.
  intros H. apply not_true_is_false. now rewrite eq_str_true.
Qed.

Lemma wait_for_job_unfold fuel job_id timeout st0 hdrs st :
  _get_headers L st0 = (Return hdrs, st) ->
  _wait_for_job L fuel job_id timeout st0
  = wait_loop L fuel (status_request L (_config st) hdrs job_id) job_id
              timeout (clock st) st.
Proof.
  intros Hh. unfold _wait_for_job. rewrite (bind_Return _ _ _ _ _ Hh).
  reflexivity.
Qed.

(** The head of an iteration: the deadline check. *)
Lemma wait_loop_deadline_passed fuel req job_id timeout start st :
  (timeout < clock st - start)%Q ->
  wait_loop L (S fuel) req job_id timeout start st
  = (Raise (TimeoutError (timeout_message L timeout)), st).
Proof.
  intros H. apply Qltb_lt in H.
  cbn [wait_loop]. unfold bind at 1, time_time, read. now rewrite H.
Qed.

(** An iteration whose check passes sends the status request. *)
Lemma wait_loop_fetch fuel req job_id timeout start st :
  (clock st - start <= timeout)%Q ->
  wait_loop L (S fuel) req job_id timeout start st
  = match answer (server st (served st)) with
    | TransportFailure x =>
        raise (QueryError ("Failed to check job status: " ++ x) JNull)
    | Response r =>
        if raises_for_status r then
          raise (QueryError
                   ("Failed to check job status: " ++ str_HTTPError L req r)
                   JNull)
        else
          data <- response_json L r ;;
          items <- lift (Py.getitem data "items") ;;
          first <- lift (Py.getitem0 items) ;;
          status <- lift (Py.getitem first "status") ;;
          if Py.eq_str status "completed" then ret tt
          else if Py.eq_str status "failed" then
            error_msg <- lift (Py.get first "error" (JStr "Unknown error")) ;;
            raise (QueryError ("Query failed: " ++ str L error_msg) job_id)
          else if Py.eq_str status "canceled" then
            raise (QueryError "Query was canceled" job_id)
          else
            time_sleep _POLL_INTERVAL ;;;
            wait_loop L fuel req job_id timeout start
    end (after_send req st).
Proof.
  intros H. apply Qltb_ge in H.
  cbn [wait_loop]. unfold bind at 1, time_time, read. rewrite H.
  unfold bind at 1. rewrite session_send_eq. reflexivity.
Qed.

(** An iteration that reads a status out of a well-formed answer. *)
Lemma wait_loop_status fuel req job_id timeout start st r o first rest status :
  (clock st - start <= timeout)%Q ->
  answer (server st (served st)) = Response r ->
  raises_for_status r = false ->
  json_loads L (text r) = Some (JObj o) ->
  Py.assoc "items" o = Some (JArr (JObj first :: rest)) ->
  Py.assoc "status" first = Some status ->
  wait_loop L (S fuel) req job_id timeout start st
  = if Py.eq_str status "completed" then (Return tt, after_send req st)
    else if Py.eq_str status "failed" then
      (Raise (QueryError
                ("Query failed: "
                 ++ str L (match Py.assoc "error" first with
                           | Some x => x
                           | None => JStr "Unknown error"
                           end)) job_id),
       after_send req st)
    else if Py.eq_str status "canceled" then
      (Raise (QueryError "Query was canceled" job_id), after_send req st)
    else
      wait_loop L fuel req job_id timeout start
                (after_sleep _POLL_INTERVAL (after_send req st)).
Proof.
  intros Hin Hr Hok Hjson Hitems Hstatus.
  rewrite (wait_loop_fetch _ _ _ _ _ _ Hin), Hr, Hok.
  unfold response_json. rewrite Hjson. unfold bind at 1, ret at 1.
  unfold Py.getitem at 1. rewrite Hitems, bind_lift_inr.
  cbn [Py.getitem0]. rewrite bind_lift_inr.
  unfold Py.getitem at 1. rewrite Hstatus, bind_lift_inr.
  destruct (Py.eq_str status "completed"); [reflexivity|].
  destruct (Py.eq_str status "failed"); [reflexivity|].
  destruct (Py.eq_str status "canceled"); reflexivity.
Qed.

(** C5. For the status request of job [job_id], in an iteration whose
    deadline check passed and whose status answer is well formed: status [failed] raises [QueryError] with the job's id and
    a message that ends with the server's [error] text ("Unknown error" when
    the answer has none); status [canceled] raises [QueryError] with the
    job's id; a status that is none of [completed], [failed], [canceled]
    makes the loop sleep for the poll interval and go through another
    iteration. *)
Theorem wait_loop_status_outcomes fuel cfg hdrs job_id timeout start st
        r o first rest status :
  let req := status_request L cfg hdrs job_id in
  let st1 := after_send req st in
  let error_msg := match Py.assoc "error" first with
                   | Some x => x
                   | None => JStr "Unknown error"
                   end in
  (clock st - start <= timeout)%Q ->
  answer (server st (served st)) = Response r ->
  raises_for_status r = false ->
  json_loads L (text r) = Some (JObj o) ->
  Py.assoc "items" o = Some (JArr (JObj first :: rest)) ->
  Py.assoc "status" first = Some status ->
  (status = JStr "failed" ->
     wait_loop L (S fuel) req job_id timeout start st
     = (Raise (QueryError ("Query failed: " ++ str L error_msg) job_id), st1)
     /\ PyStr.contains ("Query failed: " ++ str L error_msg) (str L error_msg)
     /\ (forall text, error_msg = JStr text -> str L error_msg = text))
  /\ (status = JStr "canceled" ->
        wait_loop L (S fuel) req job_id timeout start st
        = (Raise (QueryError "Query was canceled" job_id), st1))
  /\ (status <> JStr "completed" -> status <> JStr "failed" ->
      status <> JStr "canceled" ->
        wait_loop L (S fuel) req job_id timeout start st
        = wait_loop L fuel req job_id timeout start
                    (after_sleep _POLL_INTERVAL st1)
        /\ trace (after_sleep _POLL_INTERVAL st1)
           = (trace st ++ [Sent (clock st) req;
                           Slept (clock st1) _POLL_INTERVAL])%list).
Proof.
  intros req st1 error_msg Hin Hr Hok Hjson Hitems Hstatus.
  rewrite (wait_loop_status _ _ _ _ _ _ _ _ _ _ _ Hin Hr Hok Hjson Hitems
             Hstatus).
  split; [intros ->|split; [intros ->|intros Hc Hf Hx]].
  - split; [reflexivity|]. split; [apply contains_suffix|].
    now intros text ->.
  - reflexivity.
  - rewrite !eq_str_false by assumption. split; [reflexivity|].
    simpl. now rewrite <- app_assoc.
Qed.

(** *** What a whole run of the loop does *)

Ltac one_fetch Hin :=
  match goal with
  | H : _ = (_, _) |- _ => inversion H; subst; clear H
  end;
  split;
  [ eexists; split; [reflexivity | apply poll_last; exact Hin]
  | split; [intros; discriminate
           | split; [intros; discriminate | reflexivity]] ].

Lemma wait_loop_inv req job_id timeout start : forall fuel st o st',
  wait_loop L fuel req job_id timeout start st = (o, st') ->
  (exists evs, trace st' = (trace st ++ evs)%list
               /\ poll_trace start timeout req evs)
  /\ (forall m, o = Raise (TimeoutError m) ->
                m = timeout_message L timeout
                /\ (timeout < clock st' - start)%Q)
  /\ (forall m, o <> Raise (AuthenticationError m))
  /\ server st' = server st.
Proof.
  induction fuel as [|fuel IH]; intros st o st' H.
  - inversion H; subst. split.
    + exists []. split; [now rewrite app_nil_r | constructor].
    + repeat split; intros; discriminate.
  - destruct (Qlt_le_dec timeout (clock st - start)) as [Hout|Hin].
    + rewrite (wait_loop_deadline_passed _ _ _ _ _ _ Hout) in H.
      inversion H; subst. split.
      * exists []. split; [now rewrite app_nil_r | constructor].
      * split; [|split; [intros; discriminate | reflexivity]].
        intros m Hm. injection Hm as <-. now split.
    + rewrite (wait_loop_fetch _ _ _ _ _ _ Hin) in H.
      destruct (answer (server st (served st))) as [r|x];
        [|unfold raise in H; one_fetch Hin].
      destruct (raises_for_status r); [unfold raise in H; one_fetch Hin|].
      unfold response_json in H.
      destruct (json_loads L (text r)) as [data|];
        [|unfold raise in H; one_fetch Hin].
      unfold bind at 1, ret at 1 in H.
      destruct (Py.getitem data "items") as [x|items];
        [rewrite bind_lift_inl in H; one_fetch Hin|].
      rewrite bind_lift_inr in H.
      destruct (Py.getitem0 items) as [x|first];
        [rewrite bind_lift_inl in H; one_fetch Hin|].
      rewrite bind_lift_inr in H.
      destruct (Py.getitem first "status") as [x|status];
        [rewrite bind_lift_inl in H; one_fetch Hin|].
      rewrite bind_lift_inr in H.
      destruct (Py.eq_str status "completed");
        [unfold ret in H; one_fetch Hin|].
      destruct (Py.eq_str status "failed").
      { destruct (Py.get first "error" (JStr "Unknown error")) as [x|msg];
          [rewrite bind_lift_inl in H|rewrite bind_lift_inr in H;
                                      unfold raise in H];
          one_fetch Hin. }
      destruct (Py.eq_str status "canceled");
        [unfold raise in H; one_fetch Hin|].
      change (wait_loop L fuel req job_id timeout start
                (after_sleep _POLL_INTERVAL (after_send req st)) = (o, st'))
        in H.
      apply IH in H. destruct H as ((evs & Htr & Hevs) & Hto & Hauth & Hsrv).
      split; [|split; [exact Hto|split; [exact Hauth|exact Hsrv]]].
      exists (Sent (clock st) req
              :: Slept (clock (after_send req st)) _POLL_INTERVAL :: evs).
      split; [|now apply poll_again].
      rewrite Htr. simpl. now rewrite <- !app_assoc.
Qed.

(** The loop ends: when no exchange takes negative time, the sleeps alone
    use up the timeout, so an answer or [TimeoutError] comes within
    [n + 1] iterations as soon as [n] sleeps outlast what is left of it. *)
Lemma wait_loop_terminates req job_id timeout start : forall n st,
  (forall i, (0 <= took (server st i))%Q) ->
  (timeout - (clock st - start) < poll_budget n)%Q ->
  fst (wait_loop L (S n) req job_id timeout start st) <> Unfinished.
Proof.
  induction n as [|n IH]; intros st Hnn Hleft;
    (destruct (Qlt_le_dec timeout (clock st - start)) as [Hout|Hin];
     [ rewrite (wait_loop_deadline_passed _ _ _ _ _ _ Hout); discriminate | ]).
  - simpl in Hleft. lra.
  - rewrite (wait_loop_fetch _ _ _ _ _ _ Hin).
    destruct (answer (server st (served st))) as [r|x]; [|discriminate].
    destruct (raises_for_status r); [discriminate|].
    unfold response_json.
    destruct (json_loads L (text r)) as [data|]; [|discriminate].
    unfold bind at 1, ret at 1.
    destruct (Py.getitem data "items") as [x|items]; [discriminate|].
    rewrite bind_lift_inr.
    destruct (Py.getitem0 items) as [x|first]; [discriminate|].
    rewrite bind_lift_inr.
    destruct (Py.getitem first "status") as [x|status]; [discriminate|].
    rewrite bind_lift_inr.
    destruct (Py.eq_str status "completed"); [discriminate|].
    destruct (Py.eq_str status "failed").
    { destruct (Py.get first "error" (JStr "Unknown error"));
        discriminate. }
    destruct (Py.eq_str status "canceled"); [discriminate|].
    change (fst (wait_loop L (S n) req job_id timeout start
                   (after_sleep _POLL_INTERVAL (after_send req st)))
            <> Unfinished).
    apply IH.
    + exact Hnn.
    + pose proof (Hnn (served st)) as Htook.
      cbn [poll_budget] in Hleft.
      cbn [after_sleep after_send with_world clock].
      unfold _POLL_INTERVAL in *. lra.
Qed.

Lemma poll_budget_unbounded (q : Q) : exists n, (q < poll_budget n)%Q.
Proof.
  destruct (Qarchimedean q) as [p Hp].
  exists (Pos.to_nat p).
  assert (Hge : forall n, (inject_Z (Z.of_nat n) <= poll_budget n)%Q).
  { induction n as [|n IHn]; [apply Qle_refl|].
    rewrite Nat2Z.inj_succ. unfold Z.succ. rewrite inject_Z_plus.
    cbn [poll_budget]. unfold _POLL_INTERVAL.
    change (inject_Z 1) with 1%Q. lra. }
  specialize (Hge (Pos.to_nat p)). rewrite positive_nat_Z in Hge.
  change (inject_Z (Z.pos p)) with (Z.pos p # 1)%Q in Hge. lra.
Qed.

(** With enough fuel the model of [_wait_for_job]'s loop always comes to an
    outcome. *)
Lemma wait_loop_total req job_id timeout start st :
  (forall i, (0 <= took (server st i))%Q) ->
  exists n, fst (wait_loop L (S n) req job_id timeout start st) <> Unfinished.
Proof.
  intros Hnn.
  destruct (poll_budget_unbounded (timeout - (clock st - start))) as [n Hn].
  exists n. now apply wait_loop_terminates.
Qed.

(** C6, as the code has it.  [_wait_for_job] enters the loop with [start]
    the time it read once the headers were built ([wait_for_job_unfold]) and
    with the caller's timeout ([timeout_or] in [query]).
    Every iteration starts with the deadline check.
    An iteration that starts with more than [timeout] elapsed since [start]
    raises [TimeoutError] with the guidance text at once, sending and
    sleeping nothing; the loop raises [TimeoutError] only so.  Every status
    request of a run is sent at the head of an iteration whose check found
    the deadline not passed, and a sleep only ever follows such a request. *)
Theorem wait_loop_deadline fuel req job_id timeout start st o st' :
  wait_loop L fuel req job_id timeout start st = (o, st') ->
  (fuel <> 0 -> (timeout < clock st - start)%Q ->
     o = Raise (TimeoutError (timeout_message L timeout)) /\ st' = st)
  /\ (forall m, o = Raise (TimeoutError m) ->
        m = timeout_message L timeout
        /\ (timeout < clock st' - start)%Q
        /\ PyStr.contains m
             "Try narrowing the time range or adding '| limit N' to your query.")
  /\ (exists evs, trace st' = (trace st ++ evs)%list
                  /\ poll_trace start timeout req evs).
Proof.
  intros H. split; [|split].
  - intros Hfuel Hout. destruct fuel as [|fuel]; [contradiction|].
    rewrite (wait_loop_deadline_passed _ _ _ _ _ _ Hout) in H.
    inversion H; now subst.
  - intros m Hm. apply wait_loop_inv in H.
    destruct H as (_ & Hto & _). destruct (Hto m Hm) as [-> Hlt].
    split; [reflexivity|]. split; [exact Hlt|].
    unfold timeout_message. rewrite <- !append_assoc.
    apply contains_suffix.
  - apply wait_loop_inv in H. tauto.
Qed.

(** C7. In an iteration whose deadline check passed, a transport failure of
    the status request and every answer with a 4xx/5xx status, 401 included,
    raise [QueryError]; and no run of the poll loop ever raises
    [AuthenticationError]. *)
Theorem wait_loop_fetch_failure_is_QueryError fuel req job_id timeout start
        st :
  (clock st - start <= timeout)%Q ->
  (forall x, answer (server st (served st)) = TransportFailure x ->
     wait_loop L (S fuel) req job_id timeout start st
     = (Raise (QueryError ("Failed to check job status: " ++ x) JNull),
        after_send req st))
  /\ (forall r, answer (server st (served st)) = Response r ->
                (400 <= status_code r < 600)%Z ->
        wait_loop L (S fuel) req job_id timeout start st
        = (Raise (QueryError
                    ("Failed to check job status: " ++ str_HTTPError L req r)
                    JNull),
           after_send req st))
  /\ (forall r, answer (server st (served st)) = Response r ->
                status_code r = 401%Z ->
        exists msg,
          fst (wait_loop L (S fuel) req job_id timeout start st)
          = Raise (QueryError msg JNull))
  /\ (forall n st2 msg,
        fst (wait_loop L n req job_id timeout start st2)
        <> Raise (AuthenticationError msg)).
Proof.
  intros Hin.
  assert (Herr : forall r, answer (server st (served st)) = Response r ->
                           (400 <= status_code r < 600)%Z ->
            wait_loop L (S fuel) req job_id timeout start st
            = (Raise (QueryError
                        ("Failed to check job status: "
                         ++ str_HTTPError L req r) JNull),
               after_send req st)).
  { intros r Hr Hrange. rewrite (wait_loop_fetch _ _ _ _ _ _ Hin), Hr.
    apply raises_for_status_iff in Hrange. now rewrite Hrange. }
  split; [|split; [exact Herr|split]].
  - intros x Hx. now rewrite (wait_loop_fetch _ _ _ _ _ _ Hin), Hx.
  - intros r Hr H401. eexists. rewrite (Herr r Hr) by lia. reflexivity.
  - intros n st2 msg.
    destruct (wait_loop L n req job_id timeout start st2) as [o st'] eqn:H.
    apply wait_loop_inv in H. destruct H as (_ & _ & Hauth & _).
    apply Hauth.
Qed.

End Wait.

Lemma wait_loop_deadline_witness :
  let running := Lite.dq "{'items':[{'status':'running'}]}" in
  let st := Lite.logged_in
              (Lite.script [mkExchange 1 (Response (mkResponse 200 running));
                            mkExchange 1 (Response (mkResponse 200 running))]) in
  let req := status_request Lite.lib Lite.cfg [] (JStr "job-123") in
  exists st',
    wait_loop Lite.lib 9 req (JStr "job-123") 5 0 st
    = (Raise (TimeoutError (timeout_message Lite.lib 5)), st')
    /\ (5 < clock st' - 0)%Q
    /\ exists evs, trace st' = (trace st ++ evs)%list
                   /\ poll_trace 0 5 req evs.
Proof.
  intros running st req.
  destruct (wait_loop Lite.lib 9 req (JStr "job-123") 5 0 st)
    as [o st'] eqn:Hrun.
  destruct (wait_loop_deadline Lite.lib 9 req (JStr "job-123") 5 0 st o st'
              Hrun) as (_ & Hto & Htrace).
  assert (Ho : o = Raise (TimeoutError (timeout_message Lite.lib 5))).
  { vm_compute in Hrun. injection Hrun as <- _. vm_compute. reflexivity. }
  exists st'. split; [now rewrite Ho|].
  destruct (Hto _ Ho) as (_ & Hlt & _). split; [exact Hlt | exact Htrace].
Defined.

Lemma wait_loop_status_outcomes_witness :
  let body :=
    Lite.dq "{'items':[{'status':'failed','error':'Dataset not found'}]}" in
  let st := Lite.logged_in (Lite.script [Lite.ok body]) in
  let req := status_request Lite.lib Lite.cfg [] (JStr "job-fail") in
  (clock st - 0 <= 300)%Q
  /\ wait_loop Lite.lib 1 req (JStr "job-fail") 300 0 st
     = (Raise (QueryError "Query failed: Dataset not found" (JStr "job-fail")),
        after_send req st).
Proof.
  intros body st req.
  assert (Hin : (clock st - 0 <= 300)%Q) by (vm_compute; discriminate).
  split; [exact Hin|].
  destruct (wait_loop_status_outcomes Lite.lib 0 Lite.cfg [] (JStr "job-fail")
              300 0 st (mkResponse 200 body)
              [("items", JArr [JObj [("status", JStr "failed");
                                     ("error", JStr "Dataset not found")]])]
              [("status", JStr "failed"); ("error", JStr "Dataset not found")]
              [] (JStr "failed") Hin)
    as (Hfailed & _);
    [vm_compute; reflexivity .. | exact (proj1 (Hfailed eq_refl))].
Defined.

Lemma wait_loop_fetch_failure_is_QueryError_witness :
  let st := Lite.logged_in
              (Lite.script [mkExchange 0 (Response (mkResponse 401 "denied"))]) in
  let req := status_request Lite.lib Lite.cfg [] (JStr "job-123") in
  (clock st - 0 <= 300)%Q
  /\ exists msg,
       fst (wait_loop Lite.lib 1 req (JStr "job-123") 300 0 st)
       = Raise (QueryError msg JNull).
Proof.
  intros st req.
  assert (Hin : (clock st - 0 <= 300)%Q) by (vm_compute; discriminate).
  split; [exact Hin|].
  destruct (wait_loop_fetch_failure_is_QueryError Lite.lib 0 req
              (JStr "job-123") 300 0 st Hin) as (_ & _ & H401 & _).
  apply (H401 (mkResponse 401 "denied")); reflexivity.
Defined.

(** A status request that takes five seconds against a timeout of one: the
    check at the head of the iteration passed (nothing had elapsed), the
    answer says [running], and the loop goes to sleep at t = 5, four seconds
    after the deadline; the next check then raises [TimeoutError]. *)
Lemma wait_for_job_sleeps_after_deadline :
  let running := Lite.dq "{'items':[{'status':'running'}]}" in
  let st := Lite.logged_in
              (Lite.script [mkExchange 5 (Response (mkResponse 200 running))]) in
  let run := _wait_for_job Lite.lib 3 (JStr "job-123") 1 st in
  clock st = 0%Q
  /\ fst run = Raise (TimeoutError (timeout_message Lite.lib 1))
  /\ (exists req at_time,
        trace (snd run) = [Sent 0 req; Slept at_time _POLL_INTERVAL]
        /\ (clock st + 1 < at_time)%Q)
  /\ ~ (forall at_time secs,
          In (Slept at_time secs) (trace (snd run)) ->
          (at_time - clock st <= 1)%Q).
Proof.
  intros running st run.
  assert (Htrace : exists req,
             trace (snd run) = [Sent 0 req; Slept (5 # 1) _POLL_INTERVAL]).
  { eexists. vm_compute. reflexivity. }
  split; [reflexivity|]. split; [vm_compute; reflexivity|]. split.
  - destruct Htrace as [req Hreq]. exists req, (5 # 1)%Q.
    split; [exact Hreq|]. vm_compute. reflexivity.
  - intros Hclaim. destruct Htrace as [req Hreq].
    assert (Hle : ((5 # 1) - clock st <= 1)%Q).
    { apply (Hclaim (5 # 1)%Q _POLL_INTERVAL). rewrite Hreq.
      right. left. reflexivity. }
    vm_compute in Hle. apply Hle. reflexivity.
Qed.

(* ===================================================================== *)
(** ** Dataset listing *)
(* ===================================================================== *)

Section Datasets.

Variable L : pylib.

Lemma dataset_name_object (item : list (string * json)) :
  dataset_name (JObj item) = inr (id_or_name_or_empty item).
Proof.
  unfold dataset_name, id_or_name_or_empty. simpl.
  destruct (Py.assoc "id" item) as [v|]; simpl; [|reflexivity].
  now destruct (Py.truthy v).
Qed.

Lemma for_each_dataset_name (items : list (list (string * json))) :
  for_each dataset_name (map JObj items)
  = inr (map id_or_name_or_empty items).
Proof.
  induction items as [|item items IH]; simpl; [reflexivity|].
  now rewrite dataset_name_object, IH.
Qed.

Lemma list_datasets_unfold st0 hdrs st :
  _get_headers L st0 = (Return hdrs, st) ->
  list_datasets L st0
  = (let req := datasets_request (_config st) hdrs in
     match answer (server st (served st)) with
     | TransportFailure x =>
         raise (QueryError ("Failed to list datasets: " ++ x) JNull)
     | Response r =>
         if raises_for_status r then
           if (status_code r =? 401)%Z then
             raise (AuthenticationError "Authentication failed")
           else
             raise (QueryError
                      ("Failed to list datasets: " ++ str_HTTPError L req r)
                      JNull)
         else
           data <- response_json L r ;;
           items <- lift (Py.get data "items" (JArr [])) ;;
           its <- lift (Py.iter items) ;;
           lift (for_each dataset_name its)
     end (after_send req st)).
Proof.
  intros Hh. unfold list_datasets. rewrite (bind_Return _ _ _ _ _ Hh).
  unfold bind at 1 2, read at 1. rewrite session_send_eq. reflexivity.
Qed.

(** C8. Once the headers are there, the answer to the GET decides: status
    401 raises [AuthenticationError]; every other status that
    [raise_for_status] rejects and every transport failure raise
    [QueryError]; an answer that is not rejected and whose body is an object
    returns, for the items of its [items] list in order, the [id] of the
    item, else its [name], else the empty string; an empty or absent
    [items] list gives the empty list. *)
Theorem list_datasets_outcomes st0 hdrs st :
  _get_headers L st0 = (Return hdrs, st) ->
  let req := datasets_request (_config st) hdrs in
  let run := list_datasets L st0 in
  (forall r, answer (server st (served st)) = Response r ->
             status_code r = 401%Z ->
             run = (Raise (AuthenticationError "Authentication failed"),
                    after_send req st))
  /\ (forall r, answer (server st (served st)) = Response r ->
                (400 <= status_code r < 600)%Z -> status_code r <> 401%Z ->
                run = (Raise (QueryError
                                ("Failed to list datasets: "
                                 ++ str_HTTPError L req r) JNull),
                       after_send req st))
  /\ (forall x, answer (server st (served st)) = TransportFailure x ->
                run = (Raise (QueryError ("Failed to list datasets: " ++ x)
                                         JNull),
                       after_send req st))
  /\ (forall r o items,
         answer (server st (served st)) = Response r ->
         raises_for_status r = false ->
         json_loads L (text r) = Some (JObj o) ->
         Py.assoc "items" o = Some (JArr (map JObj items)) ->
         run = (Return (map id_or_name_or_empty items), after_send req st))
  /\ (forall r o,
         answer (server st (served st)) = Response r ->
         raises_for_status r = false ->
         json_loads L (text r) = Some (JObj o) ->
         Py.assoc "items" o = Some (JArr []) \/ Py.assoc "items" o = None ->
         run = (Return [], after_send req st)).
Proof.
  intros Hh req run. subst run. rewrite (list_datasets_unfold _ _ _ Hh).
  cbv zeta. fold req.
  assert (Hlist : forall r o items,
             answer (server st (served st)) = Response r ->
             raises_for_status r = false ->
             json_loads L (text r) = Some (JObj o) ->
             Py.get (JObj o) "items" (JArr []) = inr (JArr (map JObj items)) ->
             match answer (server st (served st)) with
             | TransportFailure x =>
                 raise (QueryError ("Failed to list datasets: " ++ x) JNull)
             | Response r =>
                 if raises_for_status r then
                   if (status_code r =? 401)%Z then
                     raise (AuthenticationError "Authentication failed")
                   else
                     raise (QueryError
                              ("Failed to list datasets: "
                               ++ str_HTTPError L req r) JNull)
                 else
                   data <- response_json L r ;;
                   items <- lift (Py.get data "items" (JArr [])) ;;
                   its <- lift (Py.iter items) ;;
                   lift (for_each dataset_name its)
             end (after_send req st)
             = (Return (map id_or_name_or_empty items), after_send req st)).
  { intros r o items Hr Hok Hjson Hitems. rewrite Hr, Hok.
    unfold response_json. rewrite Hjson. unfold bind at 1, ret at 1.
    rewrite Hitems, bind_lift_inr. cbn [Py.iter]. rewrite bind_lift_inr.
    now rewrite for_each_dataset_name. }
  split; [|split; [|split; [|split]]].
  - intros r Hr H401. rewrite Hr. unfold raises_for_status.
    rewrite H401. reflexivity.
  - intros r Hr Hrange H401. rewrite Hr.
    apply raises_for_status_iff in Hrange. rewrite Hrange.
    apply Z.eqb_neq in H401. now rewrite H401.
  - intros x Hx. now rewrite Hx.
  - intros r o items Hr Hok Hjson Hitems.
    apply (Hlist r o items Hr Hok Hjson). unfold Py.get. now rewrite Hitems.
  - intros r o Hr Hok Hjson Hitems.
    apply (Hlist r o [] Hr Hok Hjson). unfold Py.get.
    now destruct Hitems as [-> | ->].
Qed.

End Datasets.

Lemma list_datasets_outcomes_witness :
  let body := Lite.dq "{'items':[{'id':'main'},{'name':'fw'},{'id':''},{}]}" in
  let st := Lite.logged_in (Lite.script [Lite.ok body]) in
  _get_headers Lite.lib st
  = (Return [("Authorization", "Bearer mock-token-12345");
             ("Content-Type", "application/json")], st)
  /\ fst (list_datasets Lite.lib st)
     = Return [JStr "main"; JStr "fw"; JStr ""; JStr ""]
  /\ fst (list_datasets Lite.lib
            (Lite.logged_in (Lite.script [Lite.ok (Lite.dq "{'items':[]}")])))
     = Return [].
Proof.
  intros body st.
  assert (Hh : forall srv,
             _get_headers Lite.lib (Lite.logged_in srv)
             = (Return [("Authorization", "Bearer mock-token-12345");
                        ("Content-Type", "application/json")],
                Lite.logged_in srv))
    by (intros srv; vm_compute; reflexivity).
  split; [apply Hh|]. split.
  - destruct (list_datasets_outcomes Lite.lib st _ st
                (Hh (Lite.script [Lite.ok body])))
      as (_ & _ & _ & Hitems & _).
    rewrite (Hitems (mkResponse 200 body)
               [("items", JArr (map JObj [ [("id", JStr "main")];
                                           [("name", JStr "fw")];
                                           [("id", JStr "")]; [] ]))]
               [ [("id", JStr "main")]; [("name", JStr "fw")];
                 [("id", JStr "")]; [] ]);
      vm_compute; reflexivity.
  - destruct (list_datasets_outcomes Lite.lib _ _ _
                (Hh (Lite.script [Lite.ok (Lite.dq "{'items':[]}")])))
      as (_ & _ & _ & _ & Hempty).
    rewrite (Hempty (mkResponse 200 (Lite.dq "{'items':[]}"))
                    [("items", JArr [])]);
      try (vm_compute; reflexivity).
    left. reflexivity.
Defined.

(** Failures of [list_datasets] that are neither [AuthenticationError] nor
    [QueryError]: a status outside 2xx that [raise_for_status] lets through
    (304 with an empty body) and answers with status 200 whose body is not
    JSON, is no object, or has an [items] that is no list, all end in
    built-in errors of [response.json()] and of the lines after it, which
    are outside the [try]. *)
Lemma list_datasets_failure_not_QueryError :
  let run code body :=
    fst (list_datasets Lite.lib
           (Lite.logged_in
              (Lite.script [mkExchange 0 (Response (mkResponse code body))]))) in
  run 304%Z EmptyString = Raise (Builtin JSONDecodeError)
  /\ run 200%Z "<html>" = Raise (Builtin JSONDecodeError)
  /\ run 200%Z "[1]" = Raise (Builtin AttributeError)
  /\ run 200%Z (Lite.dq "{'items':5}") = Raise (Builtin TypeError)
  /\ ~ (forall code body e,
          run code body = Raise e -> code <> 401%Z ->
          exists msg job_id, e = QueryError msg job_id)
  /\ ~ (forall code body e,
          run code body = Raise e -> is_CriblSearchError e = true).
Proof.
  intros run.
  assert (H304 : run 304%Z EmptyString = Raise (Builtin JSONDecodeError))
    by (vm_compute; reflexivity).
  split; [exact H304|]. split; [vm_compute; reflexivity|].
  split; [vm_compute; reflexivity|]. split; [vm_compute; reflexivity|].
  split.
  - intros Hclaim.
    destruct (Hclaim 304%Z EmptyString _ H304) as (msg & job_id & He);
      [lia | discriminate He].
  - intros Hclaim. specialize (Hclaim 304%Z EmptyString _ H304).
    discriminate Hclaim.
Qed.

(* ===================================================================== *)
(** ** Configuration *)
(* ===================================================================== *)

Section Configuration.

Import Config.

Lemma opt_truthy_true (x : option string) :
  opt_truthy x = true ->
  exists s, x = Some s /\ PyStr.nonempty s = true.
Proof.
  destruct x as [s|]; simpl; [|discriminate]. intros H. now exists s.
Qed.

(** The outcome of [load_config] in terms of the four resolved values. *)
Lemma load_config_cases (p : params) (env : environ) :
  (exists a b c d,
      resolved p env = [ ("client_id", Some a); ("client_secret", Some b);
                         ("org_id", Some c); ("workspace", Some d) ]
      /\ PyStr.nonempty a = true /\ PyStr.nonempty b = true
      /\ PyStr.nonempty c = true /\ PyStr.nonempty d = true
      /\ load_config p env = inr (mkCriblConfig a b c d))
  \/ (exists missing,
        missing <> []
        /\ load_config p env
           = inl (ConfigurationError (missing_message missing))
        /\ forall f v, In (f, v) (resolved p env) ->
             (In f missing <-> opt_truthy v = false)
             /\ (PyStr.isin (quoted f) (missing_message missing) = true
                 <-> In f missing)
             /\ (PyStr.isin (quoted (env_var_of f)) (missing_message missing)
                 = true <-> In f missing)).
Proof.
  unfold load_config, resolved.
  generalize (opt_or (p_client_id p) (env "CRIBL_CLIENT_ID")) as ra.
  generalize (opt_or (p_client_secret p) (env "CRIBL_CLIENT_SECRET")) as rb.
  generalize (opt_or (p_org_id p) (env "CRIBL_ORG_ID")) as rc.
  generalize (opt_or (p_workspace p) (env "CRIBL_WORKSPACE")) as rd.
  intros rd rc rb ra. unfold missing_of. cbn [filter snd].
  destruct (opt_truthy ra) eqn:Ha, (opt_truthy rb) eqn:Hb,
           (opt_truthy rc) eqn:Hc, (opt_truthy rd) eqn:Hd;
    cbn [negb map fst].
  1:{ left.
      apply opt_truthy_true in Ha, Hb, Hc, Hd.
      destruct Ha as (a & -> & Ha), Hb as (b & -> & Hb),
               Hc as (c & -> & Hc), Hd as (d & -> & Hd).
      exists a, b, c, d. repeat split; assumption. }
  all: right; eexists; refine (conj _ (conj eq_refl _)); [discriminate|];
    intros f v [E|[E|[E|[E|[]]]]]; injection E as <- <-;
    (split; [|split]);
    (split; intros H;
     first [ assumption
           | solve [cbn; auto 10]
           | solve [vm_compute; reflexivity]
           | solve [exfalso; congruence]
           | solve [exfalso; vm_compute in H; intuition discriminate]
           | solve [exfalso; vm_compute in H; discriminate H] ]).
Qed.

(** C3. Each field resolves to its explicit parameter when that is a
    non-empty string and to its environment variable otherwise, field by
    field.  When all four resolved values are non-empty strings,
    [load_config] returns the configuration made of exactly these.  When
    some are [None] or empty, it raises [ConfigurationError]; the message
    lists, in the order of the fields, exactly the unresolved fields and
    then exactly their environment variables, and names no other field.  A
    returned configuration has no unresolved field. *)
Theorem load_config_complete_or_names_missing (p : params) (env : environ) :
  let value (x : string * option string * string) :=
    if opt_truthy (snd (fst x)) then snd (fst x) else env (snd x) in
  let unresolved :=
    filter (fun x => negb (opt_truthy (value x))) (sources p) in
  resolved p env = map (fun x => (fst (fst x), value x)) (sources p)
  /\ (unresolved = [] ->
      exists a b c d,
        map value (sources p) = [Some a; Some b; Some c; Some d]
        /\ PyStr.nonempty a = true /\ PyStr.nonempty b = true
        /\ PyStr.nonempty c = true /\ PyStr.nonempty d = true
        /\ load_config p env = inr (mkCriblConfig a b c d))
  /\ (unresolved <> [] ->
      load_config p env
      = inl (ConfigurationError
               ("Missing required credentials: "
                ++ PyStr.repr_names (map (fun x => fst (fst x)) unresolved)
                ++ String PyStr.LF
                     ("Either pass them as parameters or set environment variables: "
                      ++ PyStr.repr_names (map snd unresolved)))))
  /\ (forall e, load_config p env = inl e ->
        forall x, In x (sources p) ->
          (PyStr.isin (quoted (fst (fst x))) (message e) = true
           <-> opt_truthy (value x) = false)
          /\ (PyStr.isin (quoted (snd x)) (message e) = true
              <-> opt_truthy (value x) = false))
  /\ (forall cfg, load_config p env = inr cfg ->
        unresolved = []
        /\ map value (sources p)
           = [ Some (client_id cfg); Some (client_secret cfg);
               Some (org_id cfg); Some (workspace cfg) ]
        /\ PyStr.nonempty (client_id cfg) = true
        /\ PyStr.nonempty (client_secret cfg) = true
        /\ PyStr.nonempty (org_id cfg) = true
        /\ PyStr.nonempty (workspace cfg) = true).
Proof.
  intros value unresolved. subst unresolved value.
  unfold load_config, resolved, sources, missing_of, opt_or.
  cbn [map filter fst snd].
  remember (if opt_truthy (p_client_id p) then p_client_id p
            else env "CRIBL_CLIENT_ID") as ra eqn:Era.
  remember (if opt_truthy (p_client_secret p) then p_client_secret p
            else env "CRIBL_CLIENT_SECRET") as rb eqn:Erb.
  remember (if opt_truthy (p_org_id p) then p_org_id p
            else env "CRIBL_ORG_ID") as rc eqn:Erc.
  remember (if opt_truthy (p_workspace p) then p_workspace p
            else env "CRIBL_WORKSPACE") as rd eqn:Erd.
  split; [reflexivity|].
  destruct (opt_truthy ra) eqn:Ha, (opt_truthy rb) eqn:Hb,
           (opt_truthy rc) eqn:Hc, (opt_truthy rd) eqn:Hd;
    cbn [negb map fst snd].
  1:{ apply opt_truthy_true in Ha, Hb, Hc, Hd.
      destruct Ha as (a & -> & Ha), Hb as (b & -> & Hb),
               Hc as (c & -> & Hc), Hd as (d & -> & Hd).
      split; [|split; [|split]].
      - intros _. exists a, b, c, d. now repeat split.
      - intros H. now contradiction H.
      - intros e H. discriminate H.
      - intros cfg H. injection H as <-. now repeat split. }
  all: split; [intros H; discriminate H|];
    split; [intros _; vm_compute; reflexivity|];
    split; [|intros cfg H; discriminate H];
    intros e H; injection H as <-;
    intros x [E|[E|[E|[E|[]]]]]; subst x; cbn [fst snd message];
    rewrite <- ?Era, <- ?Erb, <- ?Erc, <- ?Erd, ?Ha, ?Hb, ?Hc, ?Hd;
    split; split; intros H;
    first [ reflexivity
          | solve [vm_compute; reflexivity]
          | solve [exfalso; congruence]
          | solve [exfalso; vm_compute in H; discriminate H] ].
Qed.

Lemma load_config_complete_or_names_missing_witness :
  let env k :=
    if String.eqb k "CRIBL_CLIENT_SECRET" then Some "env-secret"
    else if String.eqb k "CRIBL_ORG_ID" then Some "env-org"
    else if String.eqb k "CRIBL_WORKSPACE" then Some "env-ws"
    else None in
  load_config (mkParams (Some "explicit-id") (Some "") None None) env
  = inr (mkCriblConfig "explicit-id" "env-secret" "env-org" "env-ws")
  /\ load_config (mkParams None (Some "s") (Some "") (Some "w"))
                 (fun k => if String.eqb k "CRIBL_WORKSPACE" then Some "e"
                           else None)
     = inl (ConfigurationError
              ("Missing required credentials: ['client_id', 'org_id']"
               ++ String PyStr.LF
                    "Either pass them as parameters or set environment variables: ['CRIBL_CLIENT_ID', 'CRIBL_ORG_ID']")).
Proof.
  intros env. split.
  - destruct (load_config_complete_or_names_missing
                (mkParams (Some "explicit-id") (Some "") None None) env)
      as (_ & Hcomplete & _).
    destruct (Hcomplete eq_refl)
      as (a & b & c & d & Hvalues & _ & _ & _ & _ & Hload).
    injection Hvalues as <- <- <- <-. exact Hload.
  - destruct (load_config_complete_or_names_missing
                (mkParams None (Some "s") (Some "") (Some "w"))
                (fun k => if String.eqb k "CRIBL_WORKSPACE" then Some "e"
                          else None))
      as (_ & _ & Hmissing & _).
    rewrite Hmissing; [vm_compute; reflexivity | discriminate].
Defined.

(** The cases of the test suite: explicit values, environment only, an
    explicit value over the environment, nothing at all. *)
Example load_config_explicit_overrides_env :
  let env k :=
    if String.eqb k "CRIBL_CLIENT_ID" then Some "env-id"
    else if String.eqb k "CRIBL_CLIENT_SECRET" then Some "env-secret"
    else if String.eqb k "CRIBL_ORG_ID" then Some "env-org"
    else if String.eqb k "CRIBL_WORKSPACE" then Some "env-ws"
    else None in
  load_config (mkParams (Some "explicit-id") None None None) env
  = inr (mkCriblConfig "explicit-id" "env-secret" "env-org" "env-ws")
  /\ load_config (mkParams None None None None) env
     = inr (mkCriblConfig "env-id" "env-secret" "env-org" "env-ws")
  /\ load_config (mkParams (Some "my-id") (Some "my-secret") (Some "my-org")
                           (Some "my-ws")) (fun _ => None)
     = inr (mkCriblConfig "my-id" "my-secret" "my-org" "my-ws")
  /\ api_base_url (mkCriblConfig "test-client-id" "test-client-secret"
                                 "test-org" "test-workspace")
     = "https://test-workspace-test-org.cribl.cloud/api/v1/m/default_search".
Proof. repeat split; vm_compute; reflexivity. Qed.

Example load_config_missing_raises_error :
  exists msg,
    load_config (mkParams None (Some "s") None None)
                (fun k => if String.eqb k "CRIBL_ORG_ID" then Some "o"
                          else None)
    = inl (ConfigurationError msg)
    /\ PyStr.isin "Missing required credentials: ['client_id', 'workspace']"
                  msg = true
    /\ PyStr.isin "['CRIBL_CLIENT_ID', 'CRIBL_WORKSPACE']" msg = true.
Proof. eexists. repeat split; vm_compute; reflexivity. Qed.

End Configuration.

(* ===================================================================== *)
(** ** The runs of tests/test_client.py *)
(* ===================================================================== *)

Section TestClient.

Import Lite.

Example test_authentication_success :
  fst (_get_auth_token Lite.lib
         (new_client [Lite.ok (Lite.dq
            "{'access_token':'test-token','expires_in':86400}")]))
  = Return (JStr "test-token").
Proof. vm_compute. reflexivity. Qed.

Example test_authentication_failure_401 :
  fst (_get_auth_token Lite.lib
         (new_client [mkExchange 0 (Response (mkResponse 401 "invalid_client"))]))
  = Raise (AuthenticationError "Authentication failed: 401 - invalid_client").
Proof. vm_compute. reflexivity. Qed.

Example test_token_caching :
  let st0 := new_client [Lite.ok (Lite.dq
               "{'access_token':'cached-token','expires_in':86400}")] in
  let '(token1, st1) := _get_auth_token Lite.lib st0 in
  let '(token2, st2) := _get_auth_token Lite.lib st1 in
  token1 = token2 /\ length (sent_requests (trace st2)) = 1.
Proof. vm_compute. split; reflexivity. Qed.

Example test_connection_success :
  fst (test_connection Lite.lib (new_client [auth_ok])) = Return true.
Proof. vm_compute. reflexivity. Qed.

Example test_connection_failure :
  exists msg,
    fst (test_connection Lite.lib
           (new_client [mkExchange 0 (Response (mkResponse 401 "invalid_client"))]))
    = Raise (AuthenticationError msg).
Proof. eexists. vm_compute. reflexivity. Qed.

Example test_list_datasets_success :
  fst (list_datasets Lite.lib
         (new_client [auth_ok;
                      Lite.ok (Lite.dq
            "{'items':[{'id':'cribl_logs'},{'id':'firewall'},{'id':'main'}]}")]))
  = Return [JStr "cribl_logs"; JStr "firewall"; JStr "main"].
Proof. vm_compute. reflexivity. Qed.

Example test_list_datasets_empty :
  fst (list_datasets Lite.lib
         (new_client [auth_ok; Lite.ok (Lite.dq "{'items':[]}")]))
  = Return [].
Proof. vm_compute. reflexivity. Qed.

Example test_query_success :
  fst (query Lite.lib 10 "cribl dataset='logs' | limit 2" "-1h" "now" None
         (new_client
            [ auth_ok;
              Lite.ok (Lite.dq "{'items':[{'id':'job-123'}]}");
              Lite.ok (Lite.dq
                "{'items':[{'status':'completed','numEvents':2}]}");
              Lite.ok (Lite.unlines
                [ Lite.dq "{'isFinished':true,'totalEventCount':2,'offset':0}";
                  Lite.dq "{'_time':1704067200,'message':'log1'}";
                  Lite.dq "{'_time':1704067201,'message':'log2'}" ]) ]))
  = Return [ JObj [("_time", JInt 1704067200); ("message", JStr "log1")];
             JObj [("_time", JInt 1704067201); ("message", JStr "log2")] ].
Proof. vm_compute. reflexivity. Qed.

Example test_query_invalid_syntax :
  fst (query Lite.lib 10 "bad query" "-1h" "now" None
         (new_client
            [ auth_ok;
              mkExchange 0 (Response (mkResponse 400 "Invalid query syntax")) ]))
  = Raise (QueryError "Invalid query syntax: Invalid query syntax" JNull).
Proof. vm_compute. reflexivity. Qed.

Example test_query_job_failed :
  fst (query Lite.lib 10 "cribl dataset='nonexistent'" "-1h" "now" None
         (new_client
            [ auth_ok;
              Lite.ok (Lite.dq "{'items':[{'id':'job-fail'}]}");
              Lite.ok (Lite.dq
                "{'items':[{'status':'failed','error':'Dataset not found'}]}") ]))
  = Raise (QueryError "Query failed: Dataset not found" (JStr "job-fail")).
Proof. vm_compute. reflexivity. Qed.

End TestClient.

(* ===================================================================== *)
(** ** Further properties: configuration and construction *)
(* ===================================================================== *)

Section ConfigurationMore.

Import Config.

Lemma opt_truthy_or (x y : option string) :
  opt_truthy (opt_or x y) = opt_truthy x || opt_truthy y.
Proof.
  unfold opt_or. destruct (opt_truthy x) eqn:Hx; simpl; [exact Hx|reflexivity].
Qed.

Lemma nonempty_cons (s : string) :
  PyStr.nonempty s = true -> exists c s', s = String c s'.
Proof. destruct s as [|c s']; [discriminate|eauto]. Qed.

(** X1. With four non-empty explicit parameters the environment plays no
    part: [load_config] returns the configuration made of the parameters,
    whatever the environment variables hold. *)
Theorem load_config_explicit_ignores_env (a b c d : string) (env : environ) :
  PyStr.nonempty a = true -> PyStr.nonempty b = true ->
  PyStr.nonempty c = true -> PyStr.nonempty d = true ->
  load_config (mkParams (Some a) (Some b) (Some c) (Some d)) env
  = inr (mkCriblConfig a b c d).
Proof.
  intros Ha Hb Hc Hd.
  apply nonempty_cons in Ha, Hb, Hc, Hd.
  destruct Ha as (? & ? & ->), Hb as (? & ? & ->),
           Hc as (? & ? & ->), Hd as (? & ? & ->).
  reflexivity.
Qed.

Lemma load_config_explicit_ignores_env_witness :
  load_config (mkParams (Some "my-id") (Some "my-secret") (Some "my-org")
                        (Some "my-ws"))
              (fun _ => Some "from-env")
  = inr (mkCriblConfig "my-id" "my-secret" "my-org" "my-ws").
Proof.
  apply load_config_explicit_ignores_env; reflexivity.
Defined.

(** X2. A configuration that [load_config] returned loads again from its own
    fields, in any environment: passing the four fields back as explicit
    parameters gives the same configuration. *)
Theorem load_config_round_trip (p : params) (env env' : environ)
        (cfg : CriblConfig) :
  load_config p env = inr cfg ->
  load_config (params_of cfg) env' = inr cfg.
Proof.
  intros Hload.
  destruct (load_config_cases p env)
    as [(a & b & c & d & _ & Ha & Hb & Hc & Hd & Hok) | (m & _ & Hbad & _)].
  - rewrite Hok in Hload. injection Hload as <-.
    apply nonempty_cons in Ha, Hb, Hc, Hd.
    destruct Ha as (? & ? & ->), Hb as (? & ? & ->),
             Hc as (? & ? & ->), Hd as (? & ? & ->).
    reflexivity.
  - rewrite Hbad in Hload. discriminate Hload.
Qed.

Lemma load_config_round_trip_witness :
  let env k := if String.eqb k "CRIBL_ORG_ID" then Some "env-org"
               else if String.eqb k "CRIBL_WORKSPACE" then Some "env-ws"
               else None in
  let cfg := mkCriblConfig "id" "secret" "env-org" "env-ws" in
  load_config (mkParams (Some "id") (Some "secret") None (Some "")) env
  = inr cfg
  /\ load_config (params_of cfg) (fun _ => None) = inr cfg.
Proof.
  intros env cfg.
  assert (H : load_config (mkParams (Some "id") (Some "secret") None (Some ""))
                          env = inr cfg) by reflexivity.
  split; [exact H|].
  exact (load_config_round_trip _ env (fun _ => None) cfg H).
Defined.

(** X3. [load_config] succeeds exactly when every field has a non-empty
    explicit parameter or a non-empty environment variable; one field with
    neither makes it raise. *)
Theorem load_config_succeeds_iff (p : params) (env : environ) :
  (exists cfg, load_config p env = inr cfg)
  <-> (forall f explicit var,
          In (f, explicit, var) (sources p) ->
          opt_truthy explicit = true \/ opt_truthy (env var) = true).
Proof.
  assert (Hor : forall x y,
             opt_truthy (opt_or x y) = true
             <-> opt_truthy x = true \/ opt_truthy y = true).
  { intros x y. rewrite opt_truthy_or. apply orb_true_iff. }
  split.
  - intros [cfg Hload] f explicit var Hin.
    destruct (load_config_cases p env)
      as [(a & b & c & d & Hres & Ha & Hb & Hc & Hd & _)
         | (m & _ & Hbad & _)];
      [|rewrite Hbad in Hload; discriminate Hload].
    unfold resolved in Hres. injection Hres as H1 H2 H3 H4.
    apply Hor.
    destruct Hin as [E|[E|[E|[E|[]]]]]; injection E as <- <- <-;
      [rewrite H1|rewrite H2|rewrite H3|rewrite H4]; assumption.
  - intros Hall.
    assert (H1 := proj2 (Hor _ _) (Hall _ _ _ (or_introl eq_refl))).
    assert (H2 := proj2 (Hor _ _)
                    (Hall _ _ _ (or_intror (or_introl eq_refl)))).
    assert (H3 := proj2 (Hor _ _)
                    (Hall _ _ _ (or_intror (or_intror (or_introl eq_refl))))).
    assert (H4 := proj2 (Hor _ _)
                    (Hall _ _ _ (or_intror (or_intror (or_intror
                                                        (or_introl eq_refl)))))).
    unfold load_config, resolved, missing_of. cbn [filter snd].
    rewrite H1, H2, H3, H4. cbn [negb map]. eexists. reflexivity.
Qed.

(** X4. The base URL does not keep workspace and organisation apart: moving
    a hyphenated piece from the end of the workspace to the front of the
    organisation id gives the same URL. *)
Theorem api_base_url_hyphen_ambiguity (w x o : string) (cfg : CriblConfig) :
  api_base_url (mkCriblConfig (client_id cfg) (client_secret cfg)
                              o (w ++ "-" ++ x))
  = api_base_url (mkCriblConfig (client_id cfg) (client_secret cfg)
                                (x ++ "-" ++ o) w).
Proof.
  unfold api_base_url. cbn [workspace org_id].
  f_equal. rewrite !append_assoc. reflexivity.
Qed.

End ConfigurationMore.

(* ===================================================================== *)
(** ** Further properties: the token and the connection test *)
(* ===================================================================== *)

Section TokenMore.

Variable L : pylib.

Lemma get_auth_token_no_request_iff (st : state) :
  served (snd (_get_auth_token L st)) = served st <-> token_valid st.
Proof.
  split.
  - intros Hsame.
    destruct (Py.truthy (_token st)
              && Py.Qltb (clock st)
                   (_token_expires_at st - _TOKEN_REFRESH_BUFFER)%Q) eqn:Hb.
    + now apply token_valid_dec.
    + assert (Hinv : ~ token_valid st).
      { rewrite <- token_valid_dec, Hb. discriminate. }
      destruct (get_auth_token_exchange L _ Hinv) as [Hs _]. lia.
  - intros Hvalid. now rewrite (get_auth_token_cached L _ Hvalid).
Qed.

(** The ways [_authenticate] can end. *)
Lemma authenticate_outcome (st : state) o st' :
  _authenticate L st = (o, st') ->
  o = Return tt
  \/ (exists m, o = Raise (AuthenticationError m))
  \/ (exists b, o = Raise (Builtin b)).
Proof.
  unfold _authenticate, bind at 1 2, read at 1. rewrite session_send_eq.
  destruct (answer (server st (served st))) as [r|e].
  2:{ intros H; inversion H; subst. right; left; eexists; reflexivity. }
  destruct (raises_for_status r).
  { intros H; inversion H; subst. right; left; eexists; reflexivity. }
  unfold response_json. destruct (json_loads L (text r)) as [data|].
  2:{ intros H; inversion H; subst. right; right; eexists; reflexivity. }
  unfold bind at 1, ret at 1.
  destruct (Py.getitem data "access_token") as [e|tok].
  { intros H; inversion H; subst. right; right; eexists; reflexivity. }
  rewrite bind_lift_inr. unfold bind at 1 2, modify at 1, time_time, read.
  destruct (Py.get data "expires_in" (JInt 86400)) as [e|expires_in].
  { intros H; inversion H; subst. right; right; eexists; reflexivity. }
  rewrite bind_lift_inr.
  match goal with
  | |- context [float_plus L ?x ?v] => destruct (float_plus L x v) as [e|x']
  end;
    [rewrite bind_lift_inl | rewrite bind_lift_inr];
    intros H; inversion H; subst;
    [right; right; eexists; reflexivity | left; reflexivity].
Qed.

Lemma authenticate_fails (st : state) :
  fails st (served st) ->
  exists m,
    _authenticate L st
    = (Raise (AuthenticationError m),
       after_send (auth_request (_config st)) st).
Proof.
  intros [[x Hx] | (r & Hr & Hbad)];
    unfold _authenticate, bind at 1 2, read at 1; rewrite session_send_eq.
  - rewrite Hx. eexists. reflexivity.
  - rewrite Hr, Hbad. eexists. reflexivity.
Qed.

(** X5. Building a client sends nothing and caches no token: its first
    [_get_auth_token] is always an exchange with the auth endpoint.  The
    construction fails exactly as [load_config] fails. *)
Theorem init_then_first_call_authenticates p env timeout now srv st :
  init p env timeout now srv = inr st ->
  Config.load_config p env = inr (_config st)
  /\ served st = 0 /\ trace st = []
  /\ ~ token_valid st
  /\ served (snd (_get_auth_token L st)) = 1
  /\ sent_requests (trace (snd (_get_auth_token L st)))
     = [auth_request (_config st)].
Proof.
  unfold init. destruct (Config.load_config p env) as [e|cfg]; [discriminate|].
  intros H. injection H as <-. cbn [_config served trace].
  assert (Hinv : ~ token_valid (mkState cfg timeout JNull 0 now srv 0 []))
    by (intros [Ht _]; discriminate Ht).
  destruct (get_auth_token_exchange L _ Hinv) as [Hs Ht].
  repeat split; auto. now rewrite Ht.
Qed.

(** X6. A refresh that delivered [tok] stores as expiry the float sum of
    the time read after the exchange and of [expires_in] (86400 when the
    answer has none).  A call [d] seconds later reuses the token (sends
    nothing) exactly when [tok] is true as a Python value and that later
    time is below the stored expiry less 300.  So an empty or null
    [access_token] is never reused, and neither is a token whose stored
    expiry is no more than 300 s after the refresh. *)
Theorem token_reused_iff (st : state) r o tok q d :
  ~ token_valid st ->
  answer (server st (served st)) = Response r ->
  raises_for_status r = false ->
  json_loads L (text r) = Some (JObj o) ->
  Py.assoc "access_token" o = Some tok ->
  as_float L (match Py.assoc "expires_in" o with
              | Some x => x
              | None => JInt 86400
              end) q ->
  let st1 := snd (_get_auth_token L st) in
  let st2 := snd (elapse d st1) in
  clock st1 = (clock st + took (server st (served st)))%Q
  /\ _token_expires_at st1 = float_add L (clock st1) q
  /\ (served (snd (_get_auth_token L st2)) = served st2
      <-> Py.truthy tok = true
          /\ (clock st1 + d < _token_expires_at st1 - 300)%Q)
  /\ (Py.truthy tok = false
      \/ (_token_expires_at st1 <= clock st1 + 300 /\ 0 <= d)%Q ->
      served (snd (_get_auth_token L st2)) = S (served st2)).
Proof.
  intros Hinv Hr Hok Hjson Htok He st1 st2.
  assert (Hst1 : st1
                 = after_auth tok
                     (float_add L (clock st + took (server st (served st)))%Q
                                q) st).
  { subst st1.
    now rewrite (get_auth_token_success L _ _ _ _ _ Hinv Hr Hok Hjson Htok He). }
  assert (Hvalid : token_valid st2
                   <-> Py.truthy tok = true
                       /\ (clock st1 + d < _token_expires_at st1 - 300)%Q).
  { subst st2. rewrite Hst1. reflexivity. }
  split; [now rewrite Hst1|]. split; [now rewrite Hst1|]. split.
  - now rewrite get_auth_token_no_request_iff.
  - intros Hcase.
    assert (Hinv2 : ~ token_valid st2).
    { rewrite Hvalid. intros [Ht Hlt].
      destruct Hcase as [Hf | [Hle Hd]]; [congruence|]. lra. }
    exact (proj1 (get_auth_token_exchange L _ Hinv2)).
Qed.

(** X7. When the token endpoint cannot be reached or answers with any 4xx
    or 5xx status (not only 401), a call that has to refresh raises
    [AuthenticationError]; for an error status the message holds the status
    code and the response body.  The cached token and its expiry are left
    as they were, and the failed exchange is the only request sent. *)
Theorem get_auth_token_failure (st : state) :
  ~ token_valid st ->
  let st' := after_send (auth_request (_config st)) st in
  _token st' = _token st /\ _token_expires_at st' = _token_expires_at st
  /\ served st' = S (served st)
  /\ (forall x, answer (server st (served st)) = TransportFailure x ->
        _get_auth_token L st
        = (Raise (AuthenticationError
                    ("Authentication request failed: " ++ x)), st'))
  /\ (forall r, answer (server st (served st)) = Response r ->
                (400 <= status_code r < 600)%Z ->
        let msg := "Authentication failed: " ++ PyStr.str_int (status_code r)
                   ++ " - " ++ text r in
        _get_auth_token L st = (Raise (AuthenticationError msg), st')
        /\ PyStr.contains msg (text r)
        /\ PyStr.contains msg (PyStr.str_int (status_code r))).
Proof.
  intros Hinv st'.
  split; [reflexivity|]. split; [reflexivity|]. split; [reflexivity|].
  split.
  - intros x Hx. rewrite (get_auth_token_refresh L _ Hinv).
    apply bind_Raise.
    unfold _authenticate, bind at 1 2, read at 1.
    rewrite session_send_eq, Hx. reflexivity.
  - intros r Hr Hrange msg. split; [|split].
    + rewrite (get_auth_token_refresh L _ Hinv). apply bind_Raise.
      unfold _authenticate, bind at 1 2, read at 1.
      rewrite session_send_eq, Hr.
      apply raises_for_status_iff in Hrange. rewrite Hrange. reflexivity.
    + subst msg. rewrite <- !append_assoc. apply contains_suffix.
    + exists "Authentication failed: ", (" - " ++ text r). reflexivity.
Qed.

End TokenMore.

Lemma init_then_first_call_authenticates_witness :
  let p := Config.mkParams (Some "id") (Some "secret") (Some "org")
                           (Some "ws") in
  let st := mkState (Config.mkCriblConfig "id" "secret" "org" "ws") 300
                    JNull 0 5 (Lite.script [Lite.auth_ok]) 0 [] in
  init p (fun _ => None) 300 5 (Lite.script [Lite.auth_ok]) = inr st
  /\ served (snd (_get_auth_token Lite.lib st)) = 1.
Proof.
  intros p st.
  assert (H : init p (fun _ => None) 300 5 (Lite.script [Lite.auth_ok])
              = inr st) by reflexivity.
  split; [exact H|].
  exact (proj1 (proj2 (proj2 (proj2 (proj2
    (init_then_first_call_authenticates Lite.lib _ _ _ _ _ _ H)))))).
Defined.

Lemma token_reused_iff_witness :
  let empty := Lite.dq "{'access_token':'','expires_in':86400}" in
  let short := Lite.dq "{'access_token':'t','expires_in':400}" in
  let st := Lite.fresh (Lite.script [Lite.ok empty; Lite.ok empty]) in
  let st' := Lite.fresh (Lite.script [Lite.ok short; Lite.ok short]) in
  let later s d := snd (elapse d (snd (_get_auth_token Lite.lib s))) in
  ~ token_valid st
  /\ fst (_get_auth_token Lite.lib st) = Return (JStr "")
  /\ served (snd (_get_auth_token Lite.lib (later st 1%Q)))
     = S (served (later st 1%Q))
  /\ ~ token_valid st'
  /\ (_token_expires_at (snd (_get_auth_token Lite.lib st')) == 1400)%Q
  /\ served (snd (_get_auth_token Lite.lib (later st' 99%Q)))
     = served (later st' 99%Q)
  /\ served (snd (_get_auth_token Lite.lib (later st' 100%Q)))
     <> served (later st' 100%Q).
Proof.
  intros empty short st st' later.
  assert (Hinv : ~ token_valid st) by (intros [Ht _]; discriminate Ht).
  assert (Hinv' : ~ token_valid st') by (intros [Ht _]; discriminate Ht).
  split; [exact Hinv|]. split; [vm_compute; reflexivity|].
  split; [|split; [exact Hinv'|split; [vm_compute; reflexivity|split]]].
  - refine (proj2 (proj2 (proj2
             (token_reused_iff Lite.lib st (mkResponse 200 empty)
                [("access_token", JStr ""); ("expires_in", JInt 86400)]
                (JStr "") 86400%Q 1%Q Hinv _ _ _ _ _))) _);
      try (vm_compute; reflexivity).
    left. reflexivity.
  - refine (proj2 (proj1 (proj2 (proj2
             (token_reused_iff Lite.lib st' (mkResponse 200 short)
                [("access_token", JStr "t"); ("expires_in", JInt 400)]
                (JStr "t") 400%Q 99%Q Hinv' _ _ _ _ _)))) _);
      try (vm_compute; reflexivity).
    split; vm_compute; reflexivity.
  - intros Hsame.
    refine (_ (proj1 (proj1 (proj2 (proj2
             (token_reused_iff Lite.lib st' (mkResponse 200 short)
                [("access_token", JStr "t"); ("expires_in", JInt 400)]
                (JStr "t") 400%Q 100%Q Hinv' _ _ _ _ _)))) Hsame));
      try (vm_compute; reflexivity).
    intros [_ Hlt]. vm_compute in Hlt. discriminate Hlt.
Defined.

Lemma get_auth_token_failure_witness :
  let st := Lite.fresh
              (Lite.script
                 [mkExchange 0 (Response (mkResponse 503 "maintenance"))]) in
  ~ token_valid st
  /\ fst (_get_auth_token Lite.lib st)
     = Raise (AuthenticationError "Authentication failed: 503 - maintenance").
Proof.
  intros st.
  assert (Hinv : ~ token_valid st) by (intros [Ht _]; discriminate Ht).
  split; [exact Hinv|].
  destruct (get_auth_token_failure Lite.lib st Hinv) as (_ & _ & _ & _ & Hstatus).
  destruct (Hstatus (mkResponse 503 "maintenance") eq_refl) as (Hrun & _).
  - simpl. lia.
  - rewrite Hrun. reflexivity.
Defined.

Section ConnectionTest.

Variable L : pylib.

(** X8. Answers of the token endpoint that are accepted but malformed end in
    built-in errors, outside the package's hierarchy: a body that is not
    JSON in [JSONDecodeError], an object without [access_token] in
    [KeyError], both leaving the cache as it was; an [expires_in] that is no
    number in [TypeError], and then the new token is already cached while
    the expiry is still the old one. *)
Theorem authenticate_malformed_answer (st : state) r :
  delivers st (served st) r ->
  let st1 := after_send (auth_request (_config st)) st in
  _token st1 = _token st /\ _token_expires_at st1 = _token_expires_at st
  /\ (json_loads L (text r) = None ->
      _authenticate L st = (Raise (Builtin JSONDecodeError), st1))
  /\ (forall o, json_loads L (text r) = Some (JObj o) ->
                Py.assoc "access_token" o = None ->
                _authenticate L st = (Raise (Builtin KeyError), st1))
  /\ (forall o tok v,
         json_loads L (text r) = Some (JObj o) ->
         Py.assoc "access_token" o = Some tok ->
         Py.assoc "expires_in" o = Some v ->
         Py.number v = None ->
         _authenticate L st = (Raise (Builtin TypeError), with_token tok st1)
         /\ _token (with_token tok st1) = tok
         /\ _token_expires_at (with_token tok st1) = _token_expires_at st).
Proof.
  intros [Hr Hok] st1.
  split; [reflexivity|]. split; [reflexivity|].
  split; [|split].
  - intros Hjson. unfold _authenticate, bind at 1 2, read at 1.
    rewrite session_send_eq, Hr, Hok. unfold response_json.
    now rewrite Hjson.
  - intros o Hjson Hnone. unfold _authenticate, bind at 1 2, read at 1.
    rewrite session_send_eq, Hr, Hok. unfold response_json.
    rewrite Hjson. unfold bind at 1, ret at 1. unfold Py.getitem.
    now rewrite Hnone.
  - intros o tok v Hjson Htok Hv Hnum.
    split; [|split; reflexivity].
    unfold _authenticate, bind at 1 2, read at 1.
    rewrite session_send_eq, Hr, Hok. unfold response_json.
    rewrite Hjson. unfold bind at 1, ret at 1. unfold Py.getitem.
    rewrite Htok, bind_lift_inr.
    unfold bind at 1 2, modify at 1, time_time, read.
    unfold Py.get.
    rewrite Hv, bind_lift_inr, (float_plus_TypeError L _ _ Hnum), bind_lift_inl.
    reflexivity.
Qed.

(** X26. An integer [expires_in] too large for a float makes the sum raise
    [OverflowError], a built-in error outside the package's hierarchy: the
    new token is already cached, the expiry is still the old one, and a
    call that had to refresh ends in the same error. *)
Theorem authenticate_expiry_overflow (st : state) r o tok z :
  delivers st (served st) r ->
  json_loads L (text r) = Some (JObj o) ->
  Py.assoc "access_token" o = Some tok ->
  Py.assoc "expires_in" o = Some (JInt z) ->
  float_of_int L z = None ->
  let st1 := after_send (auth_request (_config st)) st in
  _authenticate L st = (Raise (Builtin OverflowError), with_token tok st1)
  /\ _token (with_token tok st1) = tok
  /\ _token_expires_at (with_token tok st1) = _token_expires_at st
  /\ (~ token_valid st ->
      _get_auth_token L st
      = (Raise (Builtin OverflowError), with_token tok st1)).
Proof.
  intros [Hr Hok] Hjson Htok Hv Hz st1.
  assert (Hrun : _authenticate L st
                 = (Raise (Builtin OverflowError), with_token tok st1)).
  { unfold _authenticate, bind at 1 2, read at 1.
    rewrite session_send_eq, Hr, Hok. unfold response_json.
    rewrite Hjson. unfold bind at 1, ret at 1. unfold Py.getitem.
    rewrite Htok, bind_lift_inr.
    unfold bind at 1 2, modify at 1, time_time, read.
    unfold Py.get. rewrite Hv, bind_lift_inr. unfold float_plus.
    rewrite Hz, bind_lift_inl. reflexivity. }
  split; [exact Hrun|]. split; [reflexivity|]. split; [reflexivity|].
  intros Hinv. rewrite (get_auth_token_refresh L _ Hinv).
  now apply bind_Raise.
Qed.

Lemma get_auth_token_finishes (st : state) o st' :
  _get_auth_token L st = (o, st') ->
  (exists tok, o = Return tok)
  \/ (exists m, o = Raise (AuthenticationError m))
  \/ (exists b, o = Raise (Builtin b)).
Proof.
  destruct (Py.truthy (_token st)
            && Py.Qltb (clock st)
                 (_token_expires_at st - _TOKEN_REFRESH_BUFFER)%Q) eqn:Hb.
  - apply token_valid_dec in Hb.
    rewrite (get_auth_token_cached L _ Hb).
    intros H. inversion H; subst. left. eexists. reflexivity.
  - assert (Hinv : ~ token_valid st).
    { rewrite <- token_valid_dec, Hb. discriminate. }
    rewrite (get_auth_token_refresh L _ Hinv). unfold bind.
    destruct (_authenticate L st) as [o1 st1] eqn:Hauth.
    apply authenticate_outcome in Hauth.
    destruct Hauth as [-> | [[m ->] | [b ->]]]; intros H; inversion H; subst.
    + left. eexists. reflexivity.
    + right. left. eexists. reflexivity.
    + right. right. eexists. reflexivity.
Qed.

(** X9. [test_connection] always makes exactly one exchange with the token
    endpoint, a valid cached token notwithstanding, and ends either with
    [True] or with [AuthenticationError]: every other error of the exchange
    is wrapped.  When the exchange fails (no connection, or a 4xx/5xx
    status) the client is left without a token, the one it held included. *)
Theorem test_connection_outcomes (st : state) :
  exists o st',
    test_connection L st = (o, st')
    /\ served st' = S (served st)
    /\ trace st'
       = (trace st ++ [Sent (clock st) (auth_request (_config st))])%list
    /\ (o = Return true \/ exists m, o = Raise (AuthenticationError m))
    /\ (fails st (served st) ->
        (exists m, o = Raise (AuthenticationError m))
        /\ _token st' = JNull /\ _token_expires_at st' = 0%Q).
Proof.
  set (st0 := with_token_expires_at 0%Q (with_token JNull st)).
  assert (Hinv : ~ token_valid st0) by (intros [Ht _]; discriminate Ht).
  assert (Hrun : test_connection L st
                 = try_except (_get_auth_token L ;;; ret true)
                     (fun e =>
                        match e with
                        | AuthenticationError _ => raise e
                        | _ => raise (AuthenticationError
                                        ("Connection test failed: "
                                         ++ str_exn L e))
                        end) st0) by reflexivity.
  rewrite Hrun. unfold try_except, bind.
  destruct (get_auth_token_exchange L _ Hinv) as [Hs Ht].
  destruct (_get_auth_token L st0) as [o1 st1] eqn:Hcall.
  cbn [snd] in Hs, Ht.
  assert (Hfail : fails st (served st) ->
                  exists m, o1 = Raise (AuthenticationError m)
                            /\ _token st1 = JNull
                            /\ _token_expires_at st1 = 0%Q).
  { intros Hf.
    destruct (authenticate_fails L st0 Hf) as [m Hm].
    rewrite (get_auth_token_refresh L _ Hinv) in Hcall.
    rewrite (bind_Raise _ _ _ _ _ Hm) in Hcall.
    inversion Hcall; subst. exists m. repeat split. }
  destruct (get_auth_token_finishes _ _ _ Hcall)
    as [[tok ->] | [[m ->] | [b ->]]].
  - exists (Return true), st1.
    split; [reflexivity|]. split; [exact Hs|]. split; [exact Ht|].
    split; [left; reflexivity|].
    intros Hf. destruct (Hfail Hf) as (m & Hm & _). discriminate Hm.
  - exists (Raise (AuthenticationError m)), st1.
    split; [reflexivity|]. split; [exact Hs|]. split; [exact Ht|].
    split; [right; eauto|].
    intros Hf. destruct (Hfail Hf) as (m' & _ & Htok & Hexp). eauto.
  - exists (Raise (AuthenticationError
                     ("Connection test failed: " ++ str_exn L (Builtin b)))),
           st1.
    split; [reflexivity|]. split; [exact Hs|]. split; [exact Ht|].
    split; [right; eauto|].
    intros Hf. destruct (Hfail Hf) as (m' & Hm & _). discriminate Hm.
Qed.

(** X10. When the cached token is not usable and the token endpoint fails,
    every operation stops there with [AuthenticationError]: the failed
    exchange is the only request sent, so no job is submitted, no status or
    result page is fetched and no listing is asked for. *)
Theorem auth_failure_stops_operations (st : state) :
  ~ token_valid st ->
  fails st (served st) ->
  exists m,
    let stop {A} : outcome A * state :=
      (Raise (AuthenticationError m),
       after_send (auth_request (_config st)) st) in
    served (after_send (auth_request (_config st)) st) = S (served st)
    /\ list_datasets L st = stop
    /\ (forall q e l, _submit_job L q e l st = stop)
    /\ (forall fuel job_id timeout, _wait_for_job L fuel job_id timeout st = stop)
    /\ (forall fuel job_id, _get_results L fuel job_id st = stop)
    /\ (forall fuel q e l timeout, query L fuel q e l timeout st = stop).
Proof.
  intros Hinv Hf.
  destruct (authenticate_fails L st Hf) as [m Hm]. exists m.
  assert (Htok : _get_auth_token L st
                 = (Raise (AuthenticationError m),
                    after_send (auth_request (_config st)) st)).
  { rewrite (get_auth_token_refresh L _ Hinv). now apply bind_Raise. }
  assert (Hh : _get_headers L st
               = (Raise (AuthenticationError m),
                  after_send (auth_request (_config st)) st)).
  { unfold _get_headers. now apply bind_Raise. }
  assert (Hsub : forall q e l,
             _submit_job L q e l st
             = (Raise (AuthenticationError m),
                after_send (auth_request (_config st)) st)).
  { intros. unfold _submit_job. now apply bind_Raise. }
  cbv zeta. split; [reflexivity|]. split; [|split; [|split; [|split]]].
  - unfold list_datasets. now apply bind_Raise.
  - exact Hsub.
  - intros. unfold _wait_for_job. now apply bind_Raise.
  - intros. unfold _get_results. now apply bind_Raise.
  - intros. unfold query, bind at 1, read at 1.
    now apply bind_Raise.
Qed.

End ConnectionTest.

Lemma authenticate_malformed_answer_witness :
  let body := Lite.dq "{'access_token':'new','expires_in':'soon'}" in
  let st := Lite.fresh (Lite.script [Lite.ok body]) in
  delivers st (served st) (mkResponse 200 body)
  /\ fst (_authenticate Lite.lib st) = Raise (Builtin TypeError)
  /\ _token (snd (_authenticate Lite.lib st)) = JStr "new"
  /\ _token_expires_at (snd (_authenticate Lite.lib st)) = 0%Q.
Proof.
  intros body st.
  assert (Hd : delivers st (served st) (mkResponse 200 body))
    by (split; reflexivity).
  split; [exact Hd|].
  destruct (authenticate_malformed_answer Lite.lib st _ Hd)
    as (_ & _ & _ & _ & Hexp).
  destruct (Hexp [("access_token", JStr "new"); ("expires_in", JStr "soon")]
                 (JStr "new") (JStr "soon"))
    as (Hrun & _); try (vm_compute; reflexivity).
  rewrite Hrun. repeat split.
Defined.

Lemma authenticate_expiry_overflow_witness :
  let body := Lite.dq "{'access_token':'t','expires_in':"
              ++ PyStr.str_int (10 ^ 309) ++ "}" in
  let st := Lite.fresh (Lite.script [Lite.ok body]) in
  delivers st (served st) (mkResponse 200 body)
  /\ float_of_int Lite.lib (10 ^ 308) <> None
  /\ fst (_get_auth_token Lite.lib st) = Raise (Builtin OverflowError)
  /\ _token (snd (_get_auth_token Lite.lib st)) = JStr "t"
  /\ _token_expires_at (snd (_get_auth_token Lite.lib st)) = 0%Q.
Proof.
  intros body st.
  assert (Hd : delivers st (served st) (mkResponse 200 body))
    by (split; vm_compute; reflexivity).
  assert (Hinv : ~ token_valid st) by (intros [Ht _]; discriminate Ht).
  split; [exact Hd|]. split; [vm_compute; discriminate|].
  destruct (authenticate_expiry_overflow Lite.lib st (mkResponse 200 body)
              [("access_token", JStr "t"); ("expires_in", JInt (10 ^ 309))]
              (JStr "t") (10 ^ 309)%Z Hd)
    as (_ & _ & _ & Hrun); try (vm_compute; reflexivity).
  rewrite (Hrun Hinv). repeat split.
Defined.

Lemma test_connection_outcomes_witness :
  let st := Lite.logged_in
              (Lite.script
                 [mkExchange 0 (Response (mkResponse 500 "oops"))]) in
  token_valid st
  /\ fails st (served st)
  /\ exists m st',
       test_connection Lite.lib st = (Raise (AuthenticationError m), st')
       /\ _token st' = JNull.
Proof.
  intros st.
  assert (Hf : fails st (served st)).
  { right. exists (mkResponse 500 "oops"). split; reflexivity. }
  split; [split; [reflexivity | vm_compute; reflexivity]|].
  split; [exact Hf|].
  destruct (test_connection_outcomes Lite.lib st)
    as (o & st' & Hrun & _ & _ & _ & Hfail).
  destruct (Hfail Hf) as ((m & ->) & Htok & _).
  exists m, st'. split; [exact Hrun | exact Htok].
Defined.

Lemma auth_failure_stops_operations_witness :
  let st := Lite.fresh (Lite.script [mkExchange 0 (TransportFailure "dns")]) in
  ~ token_valid st
  /\ fails st (served st)
  /\ exists m,
       fst (query Lite.lib 10 "q" "-1h" "now" None st)
       = Raise (AuthenticationError m)
       /\ served (snd (query Lite.lib 10 "q" "-1h" "now" None st)) = 1.
Proof.
  intros st.
  assert (Hinv : ~ token_valid st) by (intros [Ht _]; discriminate Ht).
  assert (Hf : fails st (served st)).
  { left. exists "dns". reflexivity. }
  split; [exact Hinv|]. split; [exact Hf|].
  destruct (auth_failure_stops_operations Lite.lib st Hinv Hf)
    as (m & _ & _ & _ & _ & _ & Hq).
  exists m. rewrite Hq. split; reflexivity.
Defined.

(* ===================================================================== *)
(** ** Further properties: answers that are accepted but malformed *)
(* ===================================================================== *)

Section Malformed.

Variable L : pylib.

Lemma delivers_not_400 (st : state) i r :
  delivers st i r -> (status_code r =? 400)%Z = false.
Proof.
  intros [_ Hok]. apply Z.eqb_neq. intros E.
  assert (raises_for_status r = true) by (apply raises_for_status_iff; lia).
  congruence.
Qed.

(** X11. An accepted answer to the job submission that is not the expected
    listing ends in a built-in error, outside the package's hierarchy, after
    the POST has gone out: a body that is not JSON in [JSONDecodeError], a
    JSON array in [TypeError], an object without [items] in [KeyError], an
    empty [items] list in [IndexError], a first item without [id] in
    [KeyError]. *)
Theorem submit_job_malformed_answer q e l st0 hdrs st r :
  _get_headers L st0 = (Return hdrs, st) ->
  delivers st (served st) r ->
  let run := _submit_job L q e l st0 in
  snd run = after_send (submit_request (_config st) hdrs q e l) st
  /\ (json_loads L (text r) = None ->
      fst run = Raise (Builtin JSONDecodeError))
  /\ (forall a, json_loads L (text r) = Some (JArr a) ->
                fst run = Raise (Builtin TypeError))
  /\ (forall o, json_loads L (text r) = Some (JObj o) ->
                Py.assoc "items" o = None ->
                fst run = Raise (Builtin KeyError))
  /\ (forall o, json_loads L (text r) = Some (JObj o) ->
                Py.assoc "items" o = Some (JArr []) ->
                fst run = Raise (Builtin IndexError))
  /\ (forall o first rest,
         json_loads L (text r) = Some (JObj o) ->
         Py.assoc "items" o = Some (JArr (JObj first :: rest)) ->
         Py.assoc "id" first = None ->
         fst run = Raise (Builtin KeyError)).
Proof.
  intros Hh Hd run. subst run.
  rewrite (submit_job_unfold L _ _ _ _ _ _ Hh). cbv zeta.
  rewrite (proj1 Hd), (delivers_not_400 _ _ _ Hd), (proj2 Hd).
  unfold response_json.
  split; [|split; [|split; [|split; [|split]]]].
  - destruct (json_loads L (text r)) as [data|]; [|reflexivity].
    unfold bind at 1, ret at 1.
    destruct (Py.getitem data "items") as [x|items]; [reflexivity|].
    rewrite bind_lift_inr.
    destruct (Py.getitem0 items) as [x|first]; [reflexivity|].
    rewrite bind_lift_inr.
    destruct (Py.getitem first "id"); reflexivity.
  - intros ->. reflexivity.
  - intros a ->. reflexivity.
  - intros o -> Hnone. unfold bind at 1, ret at 1. unfold Py.getitem.
    now rewrite Hnone.
  - intros o -> Hitems. unfold bind at 1, ret at 1. unfold Py.getitem at 1.
    now rewrite Hitems.
  - intros o first rest -> Hitems Hid. unfold bind at 1, ret at 1.
    unfold Py.getitem at 1. rewrite Hitems, bind_lift_inr.
    cbn [Py.getitem0]. rewrite bind_lift_inr. unfold Py.getitem.
    now rewrite Hid.
Qed.

(** X12. In the poll loop, an accepted status answer that is not the
    expected listing ends the wait with a built-in error, not with
    [QueryError]: a body that is not JSON in [JSONDecodeError], an object
    without [items] in [KeyError], an empty [items] list in [IndexError], a
    first item without [status] in [KeyError].  Nothing is slept. *)
Theorem wait_loop_malformed_answer fuel req job_id timeout start st r :
  (clock st - start <= timeout)%Q ->
  delivers st (served st) r ->
  let run := wait_loop L (S fuel) req job_id timeout start st in
  (json_loads L (text r) = None ->
   run = (Raise (Builtin JSONDecodeError), after_send req st))
  /\ (forall o, json_loads L (text r) = Some (JObj o) ->
                Py.assoc "items" o = None ->
                run = (Raise (Builtin KeyError), after_send req st))
  /\ (forall o, json_loads L (text r) = Some (JObj o) ->
                Py.assoc "items" o = Some (JArr []) ->
                run = (Raise (Builtin IndexError), after_send req st))
  /\ (forall o first rest,
         json_loads L (text r) = Some (JObj o) ->
         Py.assoc "items" o = Some (JArr (JObj first :: rest)) ->
         Py.assoc "status" first = None ->
         run = (Raise (Builtin KeyError), after_send req st)).
Proof.
  intros Hin [Hr Hok] run. subst run.
  rewrite (wait_loop_fetch L _ _ _ _ _ _ Hin), Hr, Hok.
  unfold response_json.
  split; [|split; [|split]].
  - intros ->. reflexivity.
  - intros o -> Hnone. unfold bind at 1, ret at 1. unfold Py.getitem at 1.
    now rewrite Hnone.
  - intros o -> Hitems. unfold bind at 1, ret at 1. unfold Py.getitem at 1.
    now rewrite Hitems.
  - intros o first rest -> Hitems Hstatus. unfold bind at 1, ret at 1.
    unfold Py.getitem at 1. rewrite Hitems, bind_lift_inr.
    cbn [Py.getitem0]. rewrite bind_lift_inr. unfold Py.getitem at 1.
    now rewrite Hstatus.
Qed.

Lemma dataset_name_not_object (v : json) :
  (forall o, v <> JObj o) -> dataset_name v = inl AttributeError.
Proof.
  intros H. destruct v; try reflexivity. now destruct (H o).
Qed.

Lemma for_each_dataset_name_stops (pre : list (list (string * json))) v post :
  (forall o, v <> JObj o) ->
  for_each dataset_name (map JObj pre ++ v :: post)%list
  = inl AttributeError.
Proof.
  intros H. induction pre as [|item pre IH]; simpl.
  - now rewrite (dataset_name_not_object _ H).
  - now rewrite dataset_name_object, IH.
Qed.

(** X13. An accepted answer to the dataset listing that is not the expected
    object ends in a built-in error and no list at all: a JSON array as body
    in [AttributeError], an [items] that is a number in [TypeError], an
    [items] list with an element that is no object in [AttributeError]
    (the names before it are dropped).  An [items] that is an empty object
    or an empty string gives the empty list. *)
Theorem list_datasets_malformed_answer st0 hdrs st r :
  _get_headers L st0 = (Return hdrs, st) ->
  delivers st (served st) r ->
  let run := fst (list_datasets L st0) in
  (json_loads L (text r) = None -> run = Raise (Builtin JSONDecodeError))
  /\ (forall a, json_loads L (text r) = Some (JArr a) ->
                run = Raise (Builtin AttributeError))
  /\ (forall o z, json_loads L (text r) = Some (JObj o) ->
                  Py.assoc "items" o = Some (JInt z) ->
                  run = Raise (Builtin TypeError))
  /\ (forall o pre v post,
         json_loads L (text r) = Some (JObj o) ->
         Py.assoc "items" o = Some (JArr (map JObj pre ++ v :: post)%list) ->
         (forall x, v <> JObj x) ->
         run = Raise (Builtin AttributeError))
  /\ (forall o, json_loads L (text r) = Some (JObj o) ->
                Py.assoc "items" o = Some (JObj [])
                \/ Py.assoc "items" o = Some (JStr EmptyString) ->
                run = Return []).
Proof.
  intros Hh [Hr Hok] run. subst run.
  rewrite (list_datasets_unfold L _ _ _ Hh). cbv zeta.
  rewrite Hr, Hok. unfold response_json.
  split; [|split; [|split; [|split]]].
  - intros ->. reflexivity.
  - intros a ->. reflexivity.
  - intros o z -> Hitems. unfold bind at 1, ret at 1. unfold Py.get.
    now rewrite Hitems.
  - intros o pre v post -> Hitems Hv. unfold bind at 1, ret at 1.
    unfold Py.get. rewrite Hitems, bind_lift_inr. cbn [Py.iter].
    rewrite bind_lift_inr. now rewrite (for_each_dataset_name_stops _ _ _ Hv).
  - intros o -> [Hitems | Hitems]; unfold bind at 1, ret at 1;
      unfold Py.get; now rewrite Hitems.
Qed.

(** X14. Each item of a listing gives exactly one name: when the listing
    succeeds the result is as long as the [items] it was read from, and an
    item that is an object never makes it fail.  The name of an object is
    the empty string only when it has no usable [id] and its [name] is
    absent or itself the empty string; a [name] that is present is reported
    as it is, [null] included. *)
Theorem dataset_names_one_per_item :
  (forall its names, for_each dataset_name its = inr names ->
                     length names = length its)
  /\ (forall item, exists name, dataset_name (JObj item) = inr name)
  /\ (forall item,
         dataset_name (JObj item) = inr (JStr EmptyString) ->
         Py.assoc "name" item = None
         \/ Py.assoc "name" item = Some (JStr EmptyString))
  /\ (forall item v,
         (Py.assoc "id" item = None \/ Py.assoc "id" item = Some JNull) ->
         Py.assoc "name" item = Some v ->
         dataset_name (JObj item) = inr v).
Proof.
  split; [|split; [|split]].
  - induction its as [|it its IH]; simpl; intros names H.
    + injection H as <-. reflexivity.
    + destruct (dataset_name it) as [e|y]; [discriminate|].
      destruct (for_each dataset_name its) as [e|ys]; [discriminate|].
      injection H as <-. simpl. f_equal. now apply IH.
  - intros item. rewrite dataset_name_object. eauto.
  - intros item. rewrite dataset_name_object. unfold id_or_name_or_empty.
    destruct (Py.assoc "id" item) as [v|]; simpl.
    + destruct (Py.truthy v) eqn:Hv.
      * intros H. injection H as ->. discriminate Hv.
      * destruct (Py.assoc "name" item) as [n|]; [|now left].
        intros H. injection H as ->. now right.
    + destruct (Py.assoc "name" item) as [n|]; [|now left].
      intros H. injection H as ->. now right.
  - intros item v Hid Hname. rewrite dataset_name_object.
    unfold id_or_name_or_empty. rewrite Hname.
    now destruct Hid as [-> | ->].
Qed.

End Malformed.

Lemma submit_job_malformed_answer_witness :
  let st := Lite.logged_in (Lite.script [Lite.ok (Lite.dq "{'items':[]}")]) in
  delivers st (served st) (mkResponse 200 (Lite.dq "{'items':[]}"))
  /\ fst (_submit_job Lite.lib "q" "-1h" "now" st)
     = Raise (Builtin IndexError)
  /\ served (snd (_submit_job Lite.lib "q" "-1h" "now" st)) = 1.
Proof.
  intros st.
  assert (Hd : delivers st (served st) (mkResponse 200 (Lite.dq "{'items':[]}")))
    by (split; reflexivity).
  split; [exact Hd|].
  destruct (submit_job_malformed_answer Lite.lib "q" "-1h" "now" st
              (bearer Lite.lib st) st _ ltac:(vm_compute; reflexivity) Hd)
    as (Hst & _ & _ & _ & Hempty & _).
  split.
  - apply (Hempty [("items", JArr [])]); vm_compute; reflexivity.
  - rewrite Hst. reflexivity.
Defined.

Lemma wait_loop_malformed_answer_witness :
  let st := Lite.logged_in (Lite.script [Lite.ok (Lite.dq "{'items':[{}]}")]) in
  let req := status_request Lite.lib Lite.cfg [] (JStr "job-123") in
  (clock st - 0 <= 300)%Q
  /\ fst (wait_loop Lite.lib 1 req (JStr "job-123") 300 0 st)
     = Raise (Builtin KeyError).
Proof.
  intros st req.
  assert (Hin : (clock st - 0 <= 300)%Q) by (vm_compute; discriminate).
  split; [exact Hin|].
  destruct (wait_loop_malformed_answer Lite.lib 0 req (JStr "job-123") 300 0
              st (mkResponse 200 (Lite.dq "{'items':[{}]}")) Hin
              ltac:(split; reflexivity))
    as (_ & _ & _ & Hnostatus).
  rewrite (Hnostatus [("items", JArr [JObj []])] [] []);
    vm_compute; reflexivity.
Defined.

Lemma list_datasets_malformed_answer_witness :
  let body := Lite.dq "{'items':[{'id':'main'},'firewall']}" in
  let st := Lite.logged_in (Lite.script [Lite.ok body]) in
  delivers st (served st) (mkResponse 200 body)
  /\ fst (list_datasets Lite.lib st) = Raise (Builtin AttributeError).
Proof.
  intros body st.
  assert (Hd : delivers st (served st) (mkResponse 200 body))
    by (split; reflexivity).
  split; [exact Hd|].
  destruct (list_datasets_malformed_answer Lite.lib st (bearer Lite.lib st)
              st _ ltac:(vm_compute; reflexivity) Hd)
    as (_ & _ & _ & Hitem & _).
  apply (Hitem [("items", JArr [JObj [("id", JStr "main")]; JStr "firewall"])]
               [[("id", JStr "main")]] (JStr "firewall") []);
    try (vm_compute; reflexivity).
  intros x. discriminate.
Defined.

(* ===================================================================== *)
(** ** Further properties: result pages *)
(* ===================================================================== *)

Section ResultsMore.

Variable L : pylib.

Lemma append_events_inv lines : forall acc out,
  append_events L lines acc = inr out ->
  exists recs,
    out = (acc ++ recs)%list
    /\ map (json_loads L) (filter nonblank lines) = map Some recs.
Proof.
  induction lines as [|line rest IH]; intros acc out H; simpl in H.
  - injection H as <-. exists []. now rewrite app_nil_r.
  - simpl. unfold nonblank at 1.
    destruct (PyStr.nonempty (PyStr.strip line)).
    + destruct (json_loads L line) as [rec|] eqn:Hline; [|discriminate].
      destruct (IH _ _ H) as (recs & -> & Hrecs).
      exists (rec :: recs). split; [now rewrite <- app_assoc|].
      simpl. now rewrite Hline, Hrecs.
    + now apply IH.
Qed.

Lemma append_events_error lines : forall acc e,
  append_events L lines acc = inl e ->
  e = JSONDecodeError
  /\ exists line, In line lines /\ nonblank line = true
                  /\ json_loads L line = None.
Proof.
  induction lines as [|line rest IH]; intros acc e H; simpl in H;
    [discriminate|].
  destruct (PyStr.nonempty (PyStr.strip line)) eqn:Hnb.
  - destruct (json_loads L line) as [rec|] eqn:Hline.
    + destruct (IH _ _ H) as (-> & l & Hin & Hl).
      split; [reflexivity|]. exists l. split; [now right | exact Hl].
    + injection H as <-. split; [reflexivity|].
      exists line. split; [now left|]. now split.
  - destruct (IH _ _ H) as (-> & l & Hin & Hl).
    split; [reflexivity|]. exists l. split; [now right | exact Hl].
Qed.

(** X15. The lines of a page after the first are read as follows: lines
    that are empty or hold only white space are passed over; the others are
    decoded in order and appended to what has been accumulated, which is
    kept as it is.  Reading succeeds exactly when every non-blank line
    decodes; otherwise it ends in [JSONDecodeError] and some non-blank line
    does not decode. *)
Theorem append_events_characterised (lines : list string) (acc : list json) :
  (forall out, append_events L lines acc = inr out <->
     exists recs,
       out = (acc ++ recs)%list
       /\ map (json_loads L) (filter nonblank lines) = map Some recs)
  /\ (forall out, append_events L lines acc = inr out ->
        length out = length acc + length (filter nonblank lines))
  /\ (forall e, append_events L lines acc = inl e ->
        e = JSONDecodeError
        /\ exists line, In line lines /\ nonblank line = true
                        /\ json_loads L line = None).
Proof.
  split; [|split].
  - intros out. split.
    + apply append_events_inv.
    + intros (recs & -> & Hrecs). now apply append_events_spec.
  - intros out H. destruct (append_events_inv _ _ _ H) as (recs & -> & Hrecs).
    rewrite length_app. f_equal.
    rewrite <- (length_map Some recs), <- Hrecs. now rewrite length_map.
  - apply append_events_error.
Qed.

(** One turn of the loop on a page that can be read. *)
Lemma results_loop_page fuel cfg hdrs job_id acc offset st r total recs :
  delivers st (served st) r ->
  page_with L total (text r) recs ->
  results_loop L (S fuel) cfg hdrs job_id acc offset st
  = match stop_after (offset + page_size) total with
    | inl e =>
        (Raise (Builtin e),
         after_send (results_request L cfg hdrs job_id offset) st)
    | inr true =>
        (Return (acc ++ recs)%list,
         after_send (results_request L cfg hdrs job_id offset) st)
    | inr false =>
        results_loop L fuel cfg hdrs job_id (acc ++ recs)%list
          (offset + page_size)%Z
          (after_send (results_request L cfg hdrs job_id offset) st)
    end.
Proof.
  intros [Hr Hok] (first_line & events & o & Hlines & Hmeta & Htotal & Hrecs).
  cbn [results_loop]. unfold bind at 1.
  rewrite session_send_eq, Hr, Hok, Hlines, Hmeta.
  change (Py.get (JObj o) "totalEventCount" (JInt 0))
    with (@inr builtin_error json (page_total o)).
  rewrite Htotal, bind_lift_inr.
  rewrite (append_events_spec L _ _ _ Hrecs), bind_lift_inr.
  destruct total; cbn [stop_after]; try reflexivity;
    match goal with
    | |- context [Py.int_ge ?n ?v] => destruct (Py.int_ge n v) as [e|[|]]
    end; reflexivity.
Qed.

Lemma results_loop_running cfg hdrs job_id (recs : nat -> list json)
      (total : nat -> json) base :
  forall n i fuel acc st,
    n < fuel ->
    served st = base + i ->
    (forall k, i <= k <= i + n ->
       exists r, delivers st (base + k) r
                 /\ page_with L (total k) (text r) (recs k)) ->
    (forall k, i <= k < i + n ->
       stop_after (1000 * Z.of_nat (S k)) (total k) = inr false) ->
    stop_after (1000 * Z.of_nat (S (i + n))) (total (i + n)) = inr true ->
    exists st',
      results_loop L fuel cfg hdrs job_id acc (1000 * Z.of_nat i)%Z st
      = (Return (acc ++ concat (map recs (seq i (S n))))%list, st')
      /\ served st' = served st + S n
      /\ sent_requests (trace st')
         = (sent_requests (trace st)
            ++ map (fun k => results_request L cfg hdrs job_id
                               (1000 * Z.of_nat k)%Z) (seq i (S n)))%list.
Proof.
  induction n as [|n IH]; intros i fuel acc st Hfuel Hserved Hpages Hgo Hstop;
    (destruct fuel as [|fuel]; [lia|]);
    destruct (Hpages i ltac:(lia)) as (r & Hd & Hpage);
    rewrite <- Hserved in Hd;
    rewrite (results_loop_page _ _ _ _ _ _ _ _ _ _ Hd Hpage);
    replace (1000 * Z.of_nat i + page_size)%Z
      with (1000 * Z.of_nat (S i))%Z by (unfold page_size; lia);
    set (st1 := after_send _ st);
    assert (Hsent : sent_requests (trace st1)
                    = (sent_requests (trace st)
                       ++ [results_request L cfg hdrs job_id
                             (1000 * Z.of_nat i)%Z])%list)
      by (subst st1; simpl; generalize (trace st) as tr;
          induction tr as [|[t q|t d] tr IHtr]; simpl; congruence).
  - rewrite Nat.add_0_r in Hstop. rewrite Hstop.
    exists st1. simpl. rewrite app_nil_r. repeat split; auto.
    subst st1. simpl. lia.
  - rewrite (Hgo i ltac:(lia)).
    destruct (IH (S i) fuel (acc ++ recs i)%list st1) as (st' & Hrun & Hs & Htr).
    + lia.
    + subst st1. simpl. lia.
    + intros k Hk. apply Hpages. lia.
    + intros k Hk. apply Hgo. lia.
    + replace (S i + n) with (i + S n) by lia. exact Hstop.
    + exists st'. rewrite Hrun. split; [|split].
      * f_equal. change (seq i (S (S n))) with (i :: seq (S i) (S n)).
        simpl. now rewrite <- app_assoc.
      * subst st1. simpl in *. lia.
      * rewrite Htr, Hsent.
        change (seq i (S (S n))) with (i :: seq (S i) (S n)).
        simpl. now rewrite <- app_assoc.
Qed.

(** X16. Each page decides for itself whether it is the last: after page
    [k] the loop goes on exactly when the count that this page announces is
    a number above [1000 * (k + 1)]; a count that is [null], absent (read
    as 0), a boolean or a number not above that offset ends it.  So when
    the announced count changes from page to page, [_get_results] returns
    the records of all pages up to the first one that ends the loop, having
    sent one request per page. *)
Theorem get_results_running_total fuel job_id st0 hdrs st n
        (recs : nat -> list json) (total : nat -> json) :
  _get_headers L st0 = (Return hdrs, st) ->
  n < fuel ->
  (forall k, k <= n ->
     exists r, delivers st (served st + k) r
               /\ page_with L (total k) (text r) (recs k)) ->
  (forall k, k < n ->
     stop_after (1000 * Z.of_nat (S k)) (total k) = inr false) ->
  stop_after (1000 * Z.of_nat (S n)) (total n) = inr true ->
  exists st',
    _get_results L fuel job_id st0
    = (Return (concat (map recs (seq 0 (S n)))), st')
    /\ served st' = served st + S n
    /\ sent_requests (trace st')
       = (sent_requests (trace st)
          ++ map (fun k => results_request L (_config st) (ndjson hdrs) job_id
                             (1000 * Z.of_nat k)%Z) (seq 0 (S n)))%list.
Proof.
  intros Hh Hfuel Hpages Hgo Hstop.
  rewrite (get_results_unfold L _ _ _ _ _ Hh).
  apply (results_loop_running (_config st) (ndjson hdrs) job_id recs total
           (served st) n 0 fuel [] st); auto.
  - intros k Hk. apply Hpages. lia.
  - intros k Hk. apply Hgo. lia.
Qed.

Lemma results_loop_goes_on cfg hdrs job_id (recs : nat -> list json)
      (total : nat -> json) base :
  forall fuel i acc st,
    served st = base + i ->
    (forall k, i <= k < i + fuel ->
       exists r, delivers st (base + k) r
                 /\ page_with L (total k) (text r) (recs k)) ->
    (forall k, i <= k < i + fuel ->
       stop_after (1000 * Z.of_nat (S k)) (total k) = inr false) ->
    exists st',
      results_loop L fuel cfg hdrs job_id acc (1000 * Z.of_nat i)%Z st
      = (Unfinished, st')
      /\ served st' = served st + fuel.
Proof.
  induction fuel as [|fuel IH]; intros i acc st Hserved Hpages Hgo.
  - exists st. split; [reflexivity | lia].
  - destruct (Hpages i ltac:(lia)) as (r & Hd & Hpage).
    rewrite <- Hserved in Hd.
    rewrite (results_loop_page _ _ _ _ _ _ _ _ _ _ Hd Hpage).
    replace (1000 * Z.of_nat i + page_size)%Z
      with (1000 * Z.of_nat (S i))%Z by (unfold page_size; lia).
    rewrite (Hgo i ltac:(lia)).
    destruct (IH (S i) (acc ++ recs i)%list
                 (after_send (results_request L cfg hdrs job_id
                                (1000 * Z.of_nat i)%Z) st))
      as (st' & Hrun & Hs).
    + simpl. lia.
    + intros k Hk. apply Hpages. lia.
    + intros k Hk. apply Hgo. lia.
    + exists st'. split; [exact Hrun|]. simpl in Hs. lia.
Qed.

(** X17. The loop of [_get_results] has no bound of its own on the number
    of pages: as long as every page announces a count above the offset
    reached, it asks for the next one.  Against [n] such pages, [n] turns
    of the loop send [n] requests and are not the end of it. *)
Theorem get_results_no_page_cap n job_id st0 hdrs st
        (recs : nat -> list json) (total : nat -> json) :
  _get_headers L st0 = (Return hdrs, st) ->
  (forall k, k < n ->
     exists r, delivers st (served st + k) r
               /\ page_with L (total k) (text r) (recs k)) ->
  (forall k, k < n ->
     stop_after (1000 * Z.of_nat (S k)) (total k) = inr false) ->
  fst (_get_results L n job_id st0) = Unfinished
  /\ served (snd (_get_results L n job_id st0)) = served st + n.
Proof.
  intros Hh Hpages Hgo.
  rewrite (get_results_unfold L _ _ _ _ _ Hh).
  destruct (results_loop_goes_on (_config st) (ndjson hdrs) job_id recs total
              (served st) n 0 [] st) as (st' & Hrun & Hs).
  - lia.
  - intros k Hk. apply Hpages. lia.
  - intros k Hk. apply Hgo. lia.
  - unfold ndjson in Hrun. change (1000 * Z.of_nat 0)%Z with 0%Z in Hrun.
    rewrite Hrun. split; [reflexivity | exact Hs].
Qed.

(** X18. A first page whose metadata has no [totalEventCount], or has it
    as [null], is the only page asked for: all its records are returned,
    however many they are. *)
Theorem get_results_without_count fuel job_id st0 hdrs st r
        first_line events o recs :
  _get_headers L st0 = (Return hdrs, st) ->
  delivers st (served st) r ->
  page_lines (text r) = first_line :: events ->
  json_loads L first_line = Some (JObj o) ->
  Py.assoc "totalEventCount" o = None
  \/ Py.assoc "totalEventCount" o = Some JNull ->
  map (json_loads L) (filter nonblank events) = map Some recs ->
  _get_results L (S fuel) job_id st0
  = (Return recs,
     after_send (results_request L (_config st) (ndjson hdrs) job_id 0) st).
Proof.
  intros Hh Hd Hlines Hmeta Hcount Hrecs.
  rewrite (get_results_unfold L _ _ _ _ _ Hh).
  assert (Hpage : page_with L (page_total o) (text r) recs).
  { exists first_line, events, o. repeat split; assumption. }
  fold (ndjson hdrs).
  rewrite (results_loop_page _ _ _ _ _ _ _ _ _ _ Hd Hpage).
  unfold page_total. now destruct Hcount as [-> | ->].
Qed.

(** X19. Metadata that cannot be used ends the retrieval, at any point of
    the pagination, in a built-in error and without a table: a first line
    that decodes to something other than an object in [AttributeError]; a
    [totalEventCount] that is neither a number nor [null] (a string, a
    list, an object) in [TypeError]. *)
Theorem results_loop_unusable_metadata fuel cfg hdrs job_id acc offset st r :
  delivers st (served st) r ->
  let run := results_loop L (S fuel) cfg hdrs job_id acc offset st in
  let st1 := after_send (results_request L cfg hdrs job_id offset) st in
  (forall first_line events v,
      page_lines (text r) = first_line :: events ->
      json_loads L first_line = Some v ->
      (forall o, v <> JObj o) ->
      run = (Raise (Builtin AttributeError), st1))
  /\ (forall total recs,
         page_with L total (text r) recs ->
         total <> JNull -> Py.number total = None ->
         run = (Raise (Builtin TypeError), st1)).
Proof.
  intros Hd run st1. subst run. split.
  - intros first_line events v Hlines Hmeta Hv.
    destruct Hd as [Hr Hok].
    cbn [results_loop]. unfold bind at 1.
    rewrite session_send_eq, Hr, Hok, Hlines, Hmeta.
    destruct v; try reflexivity. now destruct (Hv o).
  - intros total recs Hpage Hnull Hnum.
    rewrite (results_loop_page _ _ _ _ _ _ _ _ _ _ Hd Hpage).
    unfold stop_after, Py.int_ge. rewrite Hnum.
    destruct total; try reflexivity. now destruct Hnull.
Qed.

End ResultsMore.

Lemma get_results_running_total_witness :
  let page count n := Lite.unlines
    [ "{" ++ Lite.dq "'totalEventCount':" ++ count ++ "}";
      "{" ++ Lite.dq "'n':" ++ n ++ "}" ] in
  let st := Lite.logged_in (Lite.script [Lite.ok (page "3000" "1");
                                         Lite.ok (page "2000" "2");
                                         Lite.ok (page "2000" "3")]) in
  exists st',
    _get_results Lite.lib 5 (JStr "j") st
    = (Return [JObj [("n", JInt 1)]; JObj [("n", JInt 2)]], st')
    /\ served st' = 2.
Proof.
  intros page st.
  destruct (get_results_running_total Lite.lib 5 (JStr "j") st
              (bearer Lite.lib st) st 1
              (fun k => [JObj [("n", JInt (Z.of_nat (S k)))]])
              (fun k => match k with 0 => JInt 3000 | _ => JInt 2000 end))
    as (st' & Hrun & Hs & _).
  - vm_compute. reflexivity.
  - lia.
  - intros k Hk. destruct k as [|[|k]]; [| |lia].
    + exists (mkResponse 200 (page "3000" "1")).
      split; [split; reflexivity|].
      exists ("{" ++ Lite.dq "'totalEventCount':" ++ "3000" ++ "}"),
             ["{" ++ Lite.dq "'n':" ++ "1" ++ "}"],
             [("totalEventCount", JInt 3000)].
      repeat split; vm_compute; reflexivity.
    + exists (mkResponse 200 (page "2000" "2")).
      split; [split; reflexivity|].
      exists ("{" ++ Lite.dq "'totalEventCount':" ++ "2000" ++ "}"),
             ["{" ++ Lite.dq "'n':" ++ "2" ++ "}"],
             [("totalEventCount", JInt 2000)].
      repeat split; vm_compute; reflexivity.
  - intros k Hk. assert (k = 0) by lia. subst k. vm_compute. reflexivity.
  - vm_compute. reflexivity.
  - exists st'. split; [exact Hrun | exact Hs].
Defined.

Lemma get_results_no_page_cap_witness :
  let page := Lite.unlines [ Lite.dq "{'totalEventCount':5000}";
                             Lite.dq "{'n':1}" ] in
  let st := Lite.logged_in (Lite.script [Lite.ok page; Lite.ok page]) in
  fst (_get_results Lite.lib 2 (JStr "j") st) = Unfinished
  /\ served (snd (_get_results Lite.lib 2 (JStr "j") st)) = 2.
Proof.
  intros page st.
  apply (get_results_no_page_cap Lite.lib 2 (JStr "j") st (bearer Lite.lib st)
           st (fun _ => [JObj [("n", JInt 1)]]) (fun _ => JInt 5000)).
  - vm_compute. reflexivity.
  - intros k Hk. exists (mkResponse 200 page).
    split; [destruct k as [|[|k]]; [split; reflexivity ..|lia]|].
    exists (Lite.dq "{'totalEventCount':5000}"), [Lite.dq "{'n':1}"],
           [("totalEventCount", JInt 5000)].
    repeat split; vm_compute; reflexivity.
  - intros k Hk. destruct k as [|[|k]]; [vm_compute; reflexivity ..|lia].
Defined.

Lemma get_results_without_count_witness :
  let body := Lite.unlines [ Lite.dq "{'isFinished':true}";
                             Lite.dq "{'n':1}"; "  "; Lite.dq "{'n':2}" ] in
  let st := Lite.logged_in (Lite.script [Lite.ok body]) in
  delivers st (served st) (mkResponse 200 body)
  /\ fst (_get_results Lite.lib 1 (JStr "j") st)
     = Return [JObj [("n", JInt 1)]; JObj [("n", JInt 2)]].
Proof.
  intros body st.
  assert (Hd : delivers st (served st) (mkResponse 200 body))
    by (split; reflexivity).
  split; [exact Hd|].
  rewrite (get_results_without_count Lite.lib 0 (JStr "j") st
             (bearer Lite.lib st) st (mkResponse 200 body)
             (Lite.dq "{'isFinished':true}")
             [Lite.dq "{'n':1}"; "  "; Lite.dq "{'n':2}"]
             [("isFinished", JBool true)]
             [JObj [("n", JInt 1)]; JObj [("n", JInt 2)]]);
    try (vm_compute; reflexivity); [exact Hd | now left].
Defined.

Lemma results_loop_unusable_metadata_witness :
  let body := Lite.unlines [ "[1,2]"; Lite.dq "{'n':1}" ] in
  let st := Lite.logged_in (Lite.script [Lite.ok body]) in
  delivers st (served st) (mkResponse 200 body)
  /\ fst (results_loop Lite.lib 1 Lite.cfg [] (JStr "j") [] 0 st)
     = Raise (Builtin AttributeError).
Proof.
  intros body st.
  assert (Hd : delivers st (served st) (mkResponse 200 body))
    by (split; reflexivity).
  split; [exact Hd|].
  destruct (results_loop_unusable_metadata Lite.lib 0 Lite.cfg [] (JStr "j")
              [] 0%Z st _ Hd) as (Hmeta & _).
  rewrite (Hmeta "[1,2]" [Lite.dq "{'n':1}"] (JArr [JInt 1; JInt 2]));
    try (vm_compute; reflexivity).
  intros o. discriminate.
Defined.

(* ===================================================================== *)
(** ** Further properties: the wait *)
(* ===================================================================== *)

Section WaitMore.

Variable L : pylib.

Lemma get_headers_cached (st : state) :
  token_valid st -> _get_headers L st = (Return (bearer L st), st).
Proof.
  intros Hv. unfold _get_headers.
  now rewrite (bind_Return _ _ _ _ _ (get_auth_token_cached L _ Hv)).
Qed.

Lemma pending_eq_str (status : json) :
  pending status ->
  Py.eq_str status "completed" = false
  /\ Py.eq_str status "failed" = false
  /\ Py.eq_str status "canceled" = false.
Proof. intros (H1 & H2 & H3). now rewrite !eq_str_false. Qed.

Lemma poll_clock_shift (req : request) (st : state) (k : nat) :
  poll_clock (after_sleep _POLL_INTERVAL (after_send req st)) k
  = poll_clock st (S k).
Proof.
  induction k as [|k IH].
  - reflexivity.
  - cbn [poll_clock] in *. rewrite IH.
    cbn [after_sleep after_send with_world server served].
    now rewrite Nat.add_succ_r.
Qed.

(** X20. A wait that meets [n] pending answers and then [completed]
    returns after [n + 1] status requests and [n] sleeps of the poll
    interval, provided none of its [n + 1] deadline checks found the timeout
    exceeded; the time it has taken is the time of the requests plus
    [2 n] seconds. *)
Theorem wait_loop_completes_after n : forall fuel req job_id timeout start st,
  n < fuel ->
  (forall k, k <= n -> (poll_clock st k - start <= timeout)%Q) ->
  (forall k, k < n ->
     exists r first status,
       delivers st (k + served st) r /\ reports L r first status
       /\ pending status) ->
  (exists r first,
     delivers st (n + served st) r
     /\ reports L r first (JStr "completed")) ->
  exists st',
    wait_loop L fuel req job_id timeout start st = (Return tt, st')
    /\ served st' = S n + served st
    /\ clock st' = (poll_clock st n + took (server st (n + served st)))%Q
    /\ length (trace st') = length (trace st) + S (2 * n).
Proof.
  induction n as [|n IH]; intros fuel req job_id timeout start st Hfuel
                                 Hchecks Hpending Hdone;
    (destruct fuel as [|fuel]; [lia|]).
  - destruct Hdone as (r & first & [Hr Hok] & o & rest & Hjson & Hitems & Hst).
    pose proof (Hchecks 0 (le_n 0)) as Hin. cbn [poll_clock] in Hin.
    rewrite (wait_loop_status L _ _ _ _ _ _ _ _ _ _ _ Hin Hr Hok Hjson
               Hitems Hst).
    exists (after_send req st). cbn [Py.eq_str String.eqb].
    split; [reflexivity|]. split; [reflexivity|]. split; [reflexivity|].
    cbn [after_send with_world trace]. rewrite length_app. simpl. lia.
  - destruct (Hpending 0 ltac:(lia))
      as (r & first & status & [Hr Hok] & (o & rest & Hjson & Hitems & Hst)
          & Hpend).
    pose proof (Hchecks 0 ltac:(lia)) as Hin. cbn [poll_clock] in Hin.
    rewrite (wait_loop_status L _ _ _ _ _ _ _ _ _ _ _ Hin Hr Hok Hjson
               Hitems Hst).
    destruct (pending_eq_str _ Hpend) as (-> & -> & ->).
    set (st1 := after_sleep _POLL_INTERVAL (after_send req st)).
    destruct (IH fuel req job_id timeout start st1) as (st' & Hrun & Hs & Hc & Hl).
    + lia.
    + intros k Hk. subst st1. rewrite poll_clock_shift. apply Hchecks. lia.
    + intros k Hk. subst st1.
      cbn [after_sleep after_send with_world served].
      rewrite Nat.add_succ_r. apply (Hpending (S k)). lia.
    + subst st1. cbn [after_sleep after_send with_world served].
      rewrite Nat.add_succ_r. exact Hdone.
    + exists st'. split; [exact Hrun|]. subst st1.
      rewrite poll_clock_shift in Hc.
      cbn [after_sleep after_send with_world served server trace] in *.
      rewrite Nat.add_succ_r in Hs, Hc.
      split; [exact Hs|]. split; [exact Hc|].
      rewrite Hl, !length_app. simpl. lia.
Qed.

(** X21. How late [TimeoutError] can be: when every status request takes at
    most [d] seconds, the loop raises it either on entry or at a moment when
    no more than [timeout + d + 2] seconds have elapsed since [start]. *)
Theorem wait_loop_timeout_lateness req job_id timeout start d :
  forall fuel st m st',
    (forall i, (took (server st i) <= d)%Q) ->
    wait_loop L fuel req job_id timeout start st
    = (Raise (TimeoutError m), st') ->
    st' = st
    \/ (clock st' - start <= timeout + d + _POLL_INTERVAL)%Q.
Proof.
  induction fuel as [|fuel IH]; intros st m st' Hd H; [discriminate H|].
  destruct (Qlt_le_dec timeout (clock st - start)) as [Hout|Hin].
  - rewrite (wait_loop_deadline_passed L _ _ _ _ _ _ Hout) in H.
    inversion H. now left.
  - right. rewrite (wait_loop_fetch L _ _ _ _ _ _ Hin) in H.
    destruct (answer (server st (served st))) as [r|x]; [|discriminate H].
    destruct (raises_for_status r); [discriminate H|].
    unfold response_json in H.
    destruct (json_loads L (text r)) as [data|]; [|discriminate H].
    unfold bind at 1, ret at 1 in H.
    destruct (Py.getitem data "items") as [x|items]; [discriminate H|].
    rewrite bind_lift_inr in H.
    destruct (Py.getitem0 items) as [x|first]; [discriminate H|].
    rewrite bind_lift_inr in H.
    destruct (Py.getitem first "status") as [x|status]; [discriminate H|].
    rewrite bind_lift_inr in H.
    destruct (Py.eq_str status "completed"); [discriminate H|].
    destruct (Py.eq_str status "failed").
    { destruct (Py.get first "error" (JStr "Unknown error"));
        discriminate H. }
    destruct (Py.eq_str status "canceled"); [discriminate H|].
    change (wait_loop L fuel req job_id timeout start
              (after_sleep _POLL_INTERVAL (after_send req st))
            = (Raise (TimeoutError m), st')) in H.
    destruct (IH (after_sleep _POLL_INTERVAL (after_send req st)) m st' Hd H)
      as [-> | Hlate]; [|exact Hlate].
    pose proof (Hd (served st)) as Htook.
    cbn [after_sleep after_send with_world clock].
    unfold _POLL_INTERVAL in *. lra.
Qed.

Lemma wait_loop_served_le req job_id timeout start :
  forall fuel st,
    served (snd (wait_loop L fuel req job_id timeout start st))
    <= served st + fuel.
Proof.
  induction fuel as [|fuel IH]; intros st; [simpl; lia|].
  destruct (Qlt_le_dec timeout (clock st - start)) as [Hout|Hin].
  - rewrite (wait_loop_deadline_passed L _ _ _ _ _ _ Hout). simpl. lia.
  - rewrite (wait_loop_fetch L _ _ _ _ _ _ Hin).
    destruct (answer (server st (served st))) as [r|x]; [|simpl; lia].
    destruct (raises_for_status r); [simpl; lia|].
    unfold response_json.
    destruct (json_loads L (text r)) as [data|]; [|simpl; lia].
    unfold bind at 1, ret at 1.
    destruct (Py.getitem data "items") as [x|items]; [simpl; lia|].
    rewrite bind_lift_inr.
    destruct (Py.getitem0 items) as [x|first]; [simpl; lia|].
    rewrite bind_lift_inr.
    destruct (Py.getitem first "status") as [x|status]; [simpl; lia|].
    rewrite bind_lift_inr.
    destruct (Py.eq_str status "completed"); [simpl; lia|].
    destruct (Py.eq_str status "failed").
    { destruct (Py.get first "error" (JStr "Unknown error")); simpl; lia. }
    destruct (Py.eq_str status "canceled"); [simpl; lia|].
    change (served (snd (wait_loop L fuel req job_id timeout start
                           (after_sleep _POLL_INTERVAL (after_send req st))))
            <= served st + S fuel).
    specialize (IH (after_sleep _POLL_INTERVAL (after_send req st))).
    simpl in IH. lia.
Qed.

(** X22. [_wait_for_job] always comes to an end when no request takes
    negative time: if [n] poll intervals exceed the timeout, then within
    [n + 1] iterations the wait has returned or raised, having sent at most
    [n + 1] status requests. *)
Theorem wait_for_job_ends n job_id timeout st0 hdrs st :
  _get_headers L st0 = (Return hdrs, st) ->
  (forall i, (0 <= took (server st i))%Q) ->
  (timeout < poll_budget n)%Q ->
  fst (_wait_for_job L (S n) job_id timeout st0) <> Unfinished
  /\ served (snd (_wait_for_job L (S n) job_id timeout st0))
     <= served st + S n.
Proof.
  intros Hh Hnn Hn. rewrite (wait_for_job_unfold L _ _ _ _ _ _ Hh). split.
  - apply wait_loop_terminates; [exact Hnn | lra].
  - apply wait_loop_served_le.
Qed.

End WaitMore.

Lemma wait_loop_completes_after_witness :
  let running := Lite.dq "{'items':[{'status':'running'}]}" in
  let completed := Lite.dq "{'items':[{'status':'completed'}]}" in
  let st := Lite.logged_in
              (Lite.script [mkExchange 1 (Response (mkResponse 200 running));
                            mkExchange 1 (Response (mkResponse 200 completed))]) in
  let req := status_request Lite.lib Lite.cfg [] (JStr "job-123") in
  exists st',
    wait_loop Lite.lib 5 req (JStr "job-123") 300 0 st = (Return tt, st')
    /\ served st' = 2
    /\ (clock st' == 4)%Q.
Proof.
  intros running completed st req.
  destruct (wait_loop_completes_after Lite.lib 1 5 req (JStr "job-123") 300 0
              st) as (st' & Hrun & Hs & Hc & _).
  - lia.
  - intros k Hk. destruct k as [|[|k]]; [vm_compute; discriminate ..|lia].
  - intros k Hk. assert (k = 0) by lia. subst k.
    exists (mkResponse 200 running), [("status", JStr "running")],
           (JStr "running").
    split; [split; reflexivity|]. split.
    + exists [("items", JArr [JObj [("status", JStr "running")]])], [].
      repeat split; vm_compute; reflexivity.
    + repeat split; discriminate.
  - exists (mkResponse 200 completed), [("status", JStr "completed")].
    split; [split; reflexivity|].
    exists [("items", JArr [JObj [("status", JStr "completed")]])], [].
    repeat split; vm_compute; reflexivity.
  - exists st'. split; [exact Hrun|]. split; [exact Hs|].
    rewrite Hc. vm_compute. reflexivity.
Defined.

Lemma wait_loop_timeout_lateness_witness :
  let running := Lite.dq "{'items':[{'status':'running'}]}" in
  let st := Lite.logged_in
              (Lite.script [mkExchange 5 (Response (mkResponse 200 running))]) in
  let req := status_request Lite.lib Lite.cfg [] (JStr "job-123") in
  (forall i, (took (server st i) <= 5)%Q)
  /\ exists m st',
       wait_loop Lite.lib 3 req (JStr "job-123") 1 0 st
       = (Raise (TimeoutError m), st')
       /\ (st' = st \/ (clock st' - 0 <= 1 + 5 + _POLL_INTERVAL)%Q).
Proof.
  intros running st req.
  assert (Hd : forall i, (took (server st i) <= 5)%Q).
  { intros i. destruct i as [|[|i]]; vm_compute; discriminate. }
  split; [exact Hd|].
  destruct (wait_loop Lite.lib 3 req (JStr "job-123") 1 0 st)
    as [o st'] eqn:Hrun.
  assert (Ho : exists m, o = Raise (TimeoutError m)).
  { pose proof Hrun as Hval. vm_compute in Hval. injection Hval as <- _.
    eexists. reflexivity. }
  destruct Ho as [m ->]. exists m, st'. split; [reflexivity|].
  exact (wait_loop_timeout_lateness Lite.lib req (JStr "job-123") 1 0 5 3 st
           m st' Hd Hrun).
Defined.

Lemma wait_for_job_ends_witness :
  let running := Lite.dq "{'items':[{'status':'running'}]}" in
  let st := Lite.logged_in
              (Lite.script [mkExchange 1 (Response (mkResponse 200 running))]) in
  (forall i, (0 <= took (server st i))%Q)
  /\ (3 < poll_budget 2)%Q
  /\ fst (_wait_for_job Lite.lib 3 (JStr "job-123") 3 st) <> Unfinished
  /\ served (snd (_wait_for_job Lite.lib 3 (JStr "job-123") 3 st)) <= 3.
Proof.
  intros running st.
  assert (Hnn : forall i, (0 <= took (server st i))%Q).
  { intros i. destruct i as [|[|i]]; vm_compute; discriminate. }
  assert (Hn : (3 < poll_budget 2)%Q) by (vm_compute; reflexivity).
  split; [exact Hnn|]. split; [exact Hn|].
  exact (wait_for_job_ends Lite.lib 2 (JStr "job-123") 3 st
           (bearer Lite.lib st) st ltac:(vm_compute; reflexivity) Hnn Hn).
Defined.

(* ===================================================================== *)
(** ** Further properties: a whole query *)
(* ===================================================================== *)

Section QueryMore.

Variable L : pylib.

Lemma submit_job_returns q e l st r o first rest id :
  token_valid st ->
  delivers st (served st) r ->
  json_loads L (text r) = Some (JObj o) ->
  Py.assoc "items" o = Some (JArr (JObj first :: rest)) ->
  Py.assoc "id" first = Some id ->
  _submit_job L q e l st
  = (Return id, after_send (submit_request (_config st) (bearer L st) q e l) st).
Proof.
  intros Hv Hd Hjson Hitems Hid.
  rewrite (submit_job_unfold L _ _ _ _ _ _ (get_headers_cached L _ Hv)).
  cbv zeta. rewrite (proj1 Hd), (delivers_not_400 _ _ _ Hd), (proj2 Hd).
  unfold response_json. rewrite Hjson. unfold bind at 1, ret at 1.
  unfold Py.getitem at 1. rewrite Hitems, bind_lift_inr.
  cbn [Py.getitem0]. rewrite bind_lift_inr. unfold Py.getitem.
  now rewrite Hid.
Qed.

Lemma query_after_submit fuel q e l timeout st id st1 :
  _submit_job L q e l st = (Return id, st1) ->
  query L fuel q e l timeout st
  = (_wait_for_job L fuel id (timeout_or timeout (_default_timeout st)) ;;;
     _get_results L fuel id) st1.
Proof.
  intros Hsub. unfold query, bind at 1, read at 1.
  now rewrite (bind_Return _ _ _ _ _ Hsub).
Qed.

Lemma wait_for_job_cached fuel job_id timeout st :
  token_valid st ->
  _wait_for_job L fuel job_id timeout st
  = wait_loop L fuel (status_request L (_config st) (bearer L st) job_id)
              job_id timeout (clock st) st.
Proof.
  intros Hv. apply wait_for_job_unfold. now apply get_headers_cached.
Qed.

Lemma elapsed_on_entry (c : Q) : (c - c == 0)%Q.
Proof. lra. Qed.

Lemma sent_requests_app (a b : list event) :
  sent_requests (a ++ b) = (sent_requests a ++ sent_requests b)%list.
Proof.
  induction a as [|[t x|t d] a IH]; simpl; [reflexivity| |]; congruence.
Qed.

(** X23. A timeout of zero is not a deadline that has already passed: it
    is replaced by the client's default timeout, as if none had been given.
    A negative timeout is used as it is: the job is submitted, the first
    deadline check of the wait fails, and [query] raises [TimeoutError]
    without having asked for the job's status once. *)
Theorem query_edge_timeouts fuel q e l st r o first rest id :
  token_valid st ->
  delivers st (served st) r ->
  json_loads L (text r) = Some (JObj o) ->
  Py.assoc "items" o = Some (JArr (JObj first :: rest)) ->
  Py.assoc "id" first = Some id ->
  let st1 := after_send (submit_request (_config st) (bearer L st) q e l) st in
  token_valid st1 ->
  (forall t, (t == 0)%Q ->
     query L fuel q e l (Some t) st = query L fuel q e l None st)
  /\ (forall t, (t < 0)%Q ->
        query L (S fuel) q e l (Some t) st
        = (Raise (TimeoutError (timeout_message L t)), st1))
  /\ sent_requests (trace st1)
     = (sent_requests (trace st)
        ++ [submit_request (_config st) (bearer L st) q e l])%list.
Proof.
  intros Hv Hd Hjson Hitems Hid st1 Hv1.
  pose proof (submit_job_returns q e l st r o first rest id Hv Hd Hjson
                Hitems Hid) as Hsub.
  split; [|split].
  - intros t Ht.
    rewrite !(query_after_submit _ _ _ _ _ _ _ _ Hsub).
    assert (Hz : Py.Qeqb0 t = true).
    { unfold Py.Qeqb0. apply Z.eqb_eq. unfold Qeq in Ht. simpl in Ht. lia. }
    unfold timeout_or. now rewrite Hz.
  - intros t Ht.
    rewrite (query_after_submit _ _ _ _ _ _ _ _ Hsub).
    assert (Hz : Py.Qeqb0 t = false).
    { unfold Py.Qeqb0. apply Z.eqb_neq. unfold Qlt in Ht. simpl in Ht. lia. }
    unfold timeout_or. rewrite Hz. apply bind_Raise.
    rewrite (wait_for_job_cached _ _ _ _ Hv1).
    apply wait_loop_deadline_passed.
    pose proof (elapsed_on_entry (clock st1)). lra.
  - subst st1. cbn [after_send with_world trace].
    now rewrite sent_requests_app.
Qed.

(** X24. A query whose job is reported [failed] at the first poll raises
    [QueryError] carrying the id that the submission returned and the
    server's error text; it has sent the submission and one status request,
    in this order, and has asked for no result page. *)
Theorem query_job_failed fuel q e l timeout st r o first rest id
        r2 status_item :
  token_valid st ->
  delivers st (served st) r ->
  json_loads L (text r) = Some (JObj o) ->
  Py.assoc "items" o = Some (JArr (JObj first :: rest)) ->
  Py.assoc "id" first = Some id ->
  let st1 := after_send (submit_request (_config st) (bearer L st) q e l) st in
  let effective := timeout_or timeout (_default_timeout st) in
  token_valid st1 ->
  (0 <= effective)%Q ->
  delivers st1 (served st1) r2 ->
  reports L r2 status_item (JStr "failed") ->
  let error_msg := match Py.assoc "error" status_item with
                   | Some x => x
                   | None => JStr "Unknown error"
                   end in
  let st2 := after_send (status_request L (_config st) (bearer L st) id) st1 in
  query L (S fuel) q e l timeout st
  = (Raise (QueryError ("Query failed: " ++ str L error_msg) id), st2)
  /\ sent_requests (trace st2)
     = (sent_requests (trace st)
        ++ [ submit_request (_config st) (bearer L st) q e l;
             status_request L (_config st) (bearer L st) id ])%list.
Proof.
  intros Hv Hd Hjson Hitems Hid st1 effective Hv1 Htimeout [Hr2 Hok2]
         (o2 & rest2 & Hjson2 & Hitems2 & Hstatus) error_msg st2.
  pose proof (submit_job_returns q e l st r o first rest id Hv Hd Hjson
                Hitems Hid) as Hsub.
  split.
  - rewrite (query_after_submit _ _ _ _ _ _ _ _ Hsub). apply bind_Raise.
    rewrite (wait_for_job_cached _ _ _ _ Hv1).
    assert (Hin : (clock st1 - clock st1 <= effective)%Q).
    { pose proof (elapsed_on_entry (clock st1)). lra. }
    rewrite (wait_loop_status L _ _ _ _ _ _ _ _ _ _ _ Hin Hr2 Hok2 Hjson2
               Hitems2 Hstatus).
    reflexivity.
  - subst st2 st1. cbn [after_send with_world trace].
    rewrite !sent_requests_app, <- app_assoc. reflexivity.
Qed.

(** X25. A whole query, the token staying valid: the submission returns an
    id; the first status answer for that id says [completed]; the pages for
    that id are read up to the first one that ends the loop.  [query]
    returns the records of these pages in order, and the requests it has
    sent are the submission, one status request and one request per page,
    status and page requests carrying the id of the submission. *)
Theorem query_end_to_end fuel q e l timeout st r o first rest id
        r2 status_item n (recs : nat -> list json) (total : nat -> json) :
  token_valid st ->
  delivers st (served st) r ->
  json_loads L (text r) = Some (JObj o) ->
  Py.assoc "items" o = Some (JArr (JObj first :: rest)) ->
  Py.assoc "id" first = Some id ->
  let st1 := after_send (submit_request (_config st) (bearer L st) q e l) st in
  let effective := timeout_or timeout (_default_timeout st) in
  token_valid st1 ->
  (0 <= effective)%Q ->
  delivers st1 (served st1) r2 ->
  reports L r2 status_item (JStr "completed") ->
  let st2 := after_send (status_request L (_config st) (bearer L st) id) st1 in
  token_valid st2 ->
  n < fuel ->
  (forall k, k <= n ->
     exists p, delivers st2 (served st2 + k) p
               /\ page_with L (total k) (text p) (recs k)) ->
  (forall k, k < n ->
     stop_after (1000 * Z.of_nat (S k)) (total k) = inr false) ->
  stop_after (1000 * Z.of_nat (S n)) (total n) = inr true ->
  exists st',
    query L fuel q e l timeout st
    = (Return (concat (map recs (seq 0 (S n)))), st')
    /\ sent_requests (trace st')
       = (sent_requests (trace st)
          ++ submit_request (_config st) (bearer L st) q e l
          :: status_request L (_config st) (bearer L st) id
          :: map (fun k => results_request L (_config st)
                             (ndjson (bearer L st)) id (1000 * Z.of_nat k)%Z)
                 (seq 0 (S n)))%list.
Proof.
  intros Hv Hd Hjson Hitems Hid st1 effective Hv1 Htimeout [Hr2 Hok2]
         (o2 & rest2 & Hjson2 & Hitems2 & Hstatus) st2 Hv2 Hfuel Hpages Hgo
         Hstop.
  pose proof (submit_job_returns q e l st r o first rest id Hv Hd Hjson
                Hitems Hid) as Hsub.
  rewrite (query_after_submit _ _ _ _ _ _ _ _ Hsub).
  assert (Hwait : _wait_for_job L fuel id effective st1 = (Return tt, st2)).
  { rewrite (wait_for_job_cached _ _ _ _ Hv1).
    destruct fuel as [|fuel]; [lia|].
    assert (Hin : (clock st1 - clock st1 <= effective)%Q).
    { pose proof (elapsed_on_entry (clock st1)). lra. }
    rewrite (wait_loop_status L _ _ _ _ _ _ _ _ _ _ _ Hin Hr2 Hok2 Hjson2
               Hitems2 Hstatus).
    reflexivity. }
  fold st1 effective. rewrite (bind_Return _ _ _ _ _ Hwait).
  rewrite (get_results_unfold L _ _ _ _ _ (get_headers_cached L _ Hv2)).
  destruct (results_loop_running L (_config st2) (ndjson (bearer L st2)) id
              recs total (served st2) n 0 fuel [] st2)
    as (st' & Hrun & _ & Htr); auto.
  { intros k Hk. apply Hpages. lia. }
  { intros k Hk. apply Hgo. lia. }
  exists st'. split; [exact Hrun|].
  rewrite Htr. subst st2 st1. cbn [after_send with_world trace _config].
  rewrite !sent_requests_app, <- !app_assoc. reflexivity.
Qed.

End QueryMore.

Lemma query_edge_timeouts_witness :
  let submitted := Lite.dq "{'items':[{'id':'job-123'}]}" in
  let st := Lite.logged_in (Lite.script [Lite.ok submitted]) in
  token_valid st
  /\ (exists m, fst (query Lite.lib 5 "q" "-1h" "now" (Some (-1)%Q) st)
                = Raise (TimeoutError m))
  /\ served (snd (query Lite.lib 5 "q" "-1h" "now" (Some (-1)%Q) st)) = 1.
Proof.
  intros submitted st.
  assert (Hv : token_valid st)
    by (split; [reflexivity | vm_compute; reflexivity]).
  split; [exact Hv|].
  destruct (query_edge_timeouts Lite.lib 4 "q" "-1h" "now" st
              (mkResponse 200 submitted)
              [("items", JArr [JObj [("id", JStr "job-123")]])]
              [("id", JStr "job-123")] [] (JStr "job-123") Hv)
    as (_ & Hneg & _);
    try (vm_compute; reflexivity).
  - split; reflexivity.
  - split; [reflexivity | vm_compute; reflexivity].
  - rewrite (Hneg (-1)%Q) by (vm_compute; reflexivity).
    split; [eexists; reflexivity | reflexivity].
Defined.

Lemma query_job_failed_witness :
  let submitted := Lite.dq "{'items':[{'id':'job-fail'}]}" in
  let failed :=
    Lite.dq "{'items':[{'status':'failed','error':'Dataset not found'}]}" in
  let st := Lite.logged_in (Lite.script [Lite.ok submitted; Lite.ok failed]) in
  token_valid st
  /\ fst (query Lite.lib 5 "q" "-1h" "now" None st)
     = Raise (QueryError "Query failed: Dataset not found" (JStr "job-fail"))
  /\ served (snd (query Lite.lib 5 "q" "-1h" "now" None st)) = 2.
Proof.
  intros submitted failed st.
  assert (Hv : token_valid st)
    by (split; [reflexivity | vm_compute; reflexivity]).
  split; [exact Hv|].
  destruct (query_job_failed Lite.lib 4 "q" "-1h" "now" None st
              (mkResponse 200 submitted)
              [("items", JArr [JObj [("id", JStr "job-fail")]])]
              [("id", JStr "job-fail")] [] (JStr "job-fail")
              (mkResponse 200 failed)
              [("status", JStr "failed"); ("error", JStr "Dataset not found")]
              Hv)
    as (Hrun & _);
    try (vm_compute; reflexivity).
  - split; reflexivity.
  - split; [reflexivity | vm_compute; reflexivity].
  - vm_compute. discriminate.
  - split; reflexivity.
  - exists [("items", JArr [JObj [("status", JStr "failed");
                                  ("error", JStr "Dataset not found")]])], [].
    repeat split; vm_compute; reflexivity.
  - rewrite Hrun. split; reflexivity.
Defined.

Lemma query_end_to_end_witness :
  let submitted := Lite.dq "{'items':[{'id':'job-123'}]}" in
  let completed := Lite.dq "{'items':[{'status':'completed','numEvents':2}]}" in
  let page := Lite.unlines
    [ Lite.dq "{'isFinished':true,'totalEventCount':2,'offset':0}";
      Lite.dq "{'_time':1704067200,'message':'log1'}";
      Lite.dq "{'_time':1704067201,'message':'log2'}" ] in
  let st := Lite.logged_in
              (Lite.script [Lite.ok submitted; Lite.ok completed;
                            Lite.ok page]) in
  token_valid st
  /\ exists st',
       query Lite.lib 5 "q" "-1h" "now" None st
       = (Return [ JObj [("_time", JInt 1704067200); ("message", JStr "log1")];
                   JObj [("_time", JInt 1704067201); ("message", JStr "log2")] ],
          st')
       /\ length (sent_requests (trace st')) = 3.
Proof.
  intros submitted completed page st.
  assert (Hv : token_valid st)
    by (split; [reflexivity | vm_compute; reflexivity]).
  split; [exact Hv|].
  destruct (query_end_to_end Lite.lib 5 "q" "-1h" "now" None st
              (mkResponse 200 submitted)
              [("items", JArr [JObj [("id", JStr "job-123")]])]
              [("id", JStr "job-123")] [] (JStr "job-123")
              (mkResponse 200 completed)
              [("status", JStr "completed"); ("numEvents", JInt 2)]
              0
              (fun _ =>
                 [ JObj [("_time", JInt 1704067200); ("message", JStr "log1")];
                   JObj [("_time", JInt 1704067201); ("message", JStr "log2")] ])
              (fun _ => JInt 2) Hv)
    as (st' & Hrun & Htr);
    try (vm_compute; reflexivity).
  - split; reflexivity.
  - split; [reflexivity | vm_compute; reflexivity].
  - vm_compute. discriminate.
  - split; reflexivity.
  - exists [("items", JArr [JObj [("status", JStr "completed");
                                  ("numEvents", JInt 2)]])], [].
    repeat split; vm_compute; reflexivity.
  - split; [reflexivity | vm_compute; reflexivity].
  - lia.
  - intros k Hk. assert (k = 0) by lia. subst k.
    exists (mkResponse 200 page). split; [split; reflexivity|].
    exists (Lite.dq "{'isFinished':true,'totalEventCount':2,'offset':0}"),
           [ Lite.dq "{'_time':1704067200,'message':'log1'}";
             Lite.dq "{'_time':1704067201,'message':'log2'}" ],
           [ ("isFinished", JBool true); ("totalEventCount", JInt 2);
             ("offset", JInt 0) ].
    repeat split; vm_compute; reflexivity.
  - intros k Hk. lia.
  - exists st'. split; [exact Hrun|]. rewrite Htr. reflexivity.
Defined.
